(** * tpswipe: the gesture detector of [tpswipe.go]

    A shallow embedding of the finger tracker ([Finger]), the geometry helpers
    ([calculateDistance], [calculateCircumference]) and the event handler
    ([EventHandler]) of the touchpad gesture daemon, followed by the properties
    of the detector.

    Modelling conventions.
    - Go's [int] is the 64-bit two's complement integer of the amd64 target:
      a [Z] with the wrap-around of each addition, subtraction and negation
      written out ([wrap64]).  The value of an input event is an [int32].
    - [float64] is the kernel's binary64 ([PrimFloat]); [math.Sqrt] is the
      correctly rounded square root, [math.Pow(v, 2)] the correctly rounded
      product [v * v] (what the routine of the [math] package computes for a
      finite [v]).  [math.Atan] is a parameter of the embedding.
    - [time.Now()] reads a monotonic clock.  The clock is an oracle
      [clock : nat -> Z] (nanoseconds); the k-th reading the program makes
      returns [clock k], and a computation carries the number of readings
      made so far.
    - A Go run-time panic (index out of range) is the outcome [Panic].
    - Sending on the channel [handler.Gestures] appends to the list of the
      gestures sent so far; the goroutine that receives them, the lookup of
      the command and its execution are outside the embedding. *)

From Stdlib Require Import ZArith Floats.
From stdpp Require Import base decidable option list vector gmap strings
  pretty.

Open Scope Z_scope.

(** ** Machine integers *)

Definition wrap64 (z : Z) : Z := (z + 2 ^ 63) mod 2 ^ 64 - 2 ^ 63.

Definition int64 (z : Z) : Prop := - 2 ^ 63 <= z < 2 ^ 63.
Definition int32 (z : Z) : Prop := - 2 ^ 31 <= z < 2 ^ 31.

Definition add64 (a b : Z) : Z := wrap64 (a + b).
Definition sub64 (a b : Z) : Z := wrap64 (a - b).
Definition neg64 (a : Z) : Z := wrap64 (- a).

(** ** float64 *)

(** [float64(z)]: the binary64 nearest to the integer [z] (ties to even). *)
Definition float64_of_int (z : Z) : float :=
  SF2Prim (binary_normalize prec emax z 0 false).

(** [int(f)]: truncation toward zero.  For a value that does not fit (or a
    NaN) the amd64 conversion instruction yields the smallest integer. *)
Definition int_of_float64 (f : float) : Z :=
  match Prim2SF f with
  | S754_zero _ => 0
  | S754_finite s m e =>
      let a := match e with
               | Z0 => Zpos m
               | Zpos p => Z.shiftl (Zpos m) (Zpos p)
               | Zneg p => Z.shiftr (Zpos m) (Zpos p)
               end in
      let v := if s then - a else a in
      if (- 2 ^ 63 <=? v) && (v <? 2 ^ 63) then v else - 2 ^ 63
  | S754_infinity _ | S754_nan => - 2 ^ 63
  end.

(** [math.Pi], and [math.Pi / 2] (a constant expression, rounded once). *)
Definition Pi : float := 0x1.921fb54442d18p+1%float.
Definition Pi_2 : float := 0x1.921fb54442d18p+0%float.

(** ** Time *)

(** A [time.Time] is either the zero value of the type (the handler and its
    fingers start with it) or a reading of the monotonic clock. *)
Inductive Time : Type :=
  | zeroTime
  | at_ns (ns : Z).

Definition maxDuration : Z := 2 ^ 63 - 1.
Definition minDuration : Z := - 2 ^ 63.
Definition Millisecond : Z := 1000000.

(** [now.Sub(t)]: the difference in nanoseconds, saturated to the range of a
    [time.Duration]; from the zero time to any present instant it is
    [maxDuration]. *)
Definition elapsed (now : Z) (t : Time) : Z :=
  match t with
  | zeroTime => maxDuration
  | at_ns n => Z.max minDuration (Z.min maxDuration (now - n))
  end.

(** ** Gestures *)

Inductive gestureType : Type :=
  | UNKNOWN
  | SWIPE_UP
  | SWIPE_DOWN
  | SWIPE_LEFT
  | SWIPE_RIGHT
  | PINCH
  | SPREAD.

#[global] Instance gestureType_eq_dec : EqDecision gestureType.
Proof. solve_decision. Defined.

Definition DIST_SWIPE : Z := 1100.
Definition DIST_OTHER : Z := 500.
Definition CHECK_DELAY : Z := 50.

Record Gesture : Type := mkGesture {
  GestureType : gestureType;
  FingerCount : Z }.

(** ** Outcomes and the monad of the handler's code *)

Inductive outcome (A : Type) : Type :=
  | Done (a : A)
  | Panic.
Arguments Done {A} a.
Arguments Panic {A}.

(** ** Helper functions *)

(** Calculate distance between two points *)
Definition calculateDistance (x0 y0 x y : Z) : Z :=
  let fx := float64_of_int (sub64 x x0) in
  let fy := float64_of_int (sub64 y y0) in
  int_of_float64 (PrimFloat.sqrt (fx * fx + fy * fy)).

(** The loop of [calculateCircumference]: [total] and [p0] are the loop's
    variables. *)
Fixpoint circumferenceLoop (points : list (Z * Z)) (total : Z) (p0 : Z * Z)
  : Z * (Z * Z) :=
  match points with
  | [] => (total, p0)
  | p :: rest =>
      circumferenceLoop rest
        (add64 total (calculateDistance (fst p0) (snd p0) (fst p) (snd p))) p
  end.

(** Calculate the circumference around the points *)
Definition calculateCircumference (points : list (Z * Z)) : outcome Z :=
  if Z.of_nat (length points) =? 2 then
    match points !! 0%nat, points !! 1%nat with
    | Some pa, Some pb =>
        Done (calculateDistance (fst pa) (snd pa) (fst pb) (snd pb))
    | _, _ => Panic
    end
  else
    match points !! 0%nat with
    | None => Panic
    | Some first =>
        let '(total, p0) := circumferenceLoop points 0 first in
        Done (add64 total
                (calculateDistance (fst first) (snd first) (fst p0) (snd p0)))
    end.

(** ** The code's monad: a state, the clock, and panics

    A computation of type [Go S A] runs on a state [S] (a finger or the
    handler) with [k], the number of clock readings made so far; it ends in a
    panic or returns a value, the new state and the new count. *)

Definition Go (S A : Type) : Type := S -> nat -> outcome (A * S * nat).

Definition ret {S A} (a : A) : Go S A := fun s k => Done (a, s, k).

Definition bind {S A B} (m : Go S A) (f : A -> Go S B) : Go S B :=
  fun s k =>
    match m s k with
    | Done (a, s', k') => f a s' k'
    | Panic => Panic
    end.

Definition get {S} : Go S S := fun s k => Done (s, s, k).
Definition gets {S A} (f : S -> A) : Go S A := fun s k => Done (f s, s, k).
Definition modify {S} (f : S -> S) : Go S unit := fun s k => Done (tt, f s, k).
Definition panic {S A} : Go S A := fun _ _ => Panic.

Declare Scope go_scope.
Delimit Scope go_scope with go.
Notation "'let*' x ':=' m 'in' f" := (bind m (fun x => f))
  (at level 10, x name, m at level 100, f at level 200) : go_scope.
Notation "m ';;' f" := (bind m (fun _ => f))
  (at level 100, f at level 200, right associativity) : go_scope.

(** ** Finger struct *)

Record Finger : Type := mkFinger {
  (* The first x and y position that is reported after the finger touches
     the pad or after the finger has been reset *)
  FirstX : Z;
  FirstY : Z;
  (* The last x and y position that is reported while the finger is
     touching the pad *)
  LastX : Z;
  LastY : Z;
  (* If the position has been set after the first touch or reset *)
  HasPositionX : bool;
  HasPositionY : bool;
  (* If this finger is currently touching the pad *)
  IsActive : bool;
  (* The time since the first touch or reset *)
  ActivationTime : Time }.

Definition set_FirstX (v : Z) (f : Finger) : Finger :=
  mkFinger v (FirstY f) (LastX f) (LastY f) (HasPositionX f) (HasPositionY f)
    (IsActive f) (ActivationTime f).
Definition set_FirstY (v : Z) (f : Finger) : Finger :=
  mkFinger (FirstX f) v (LastX f) (LastY f) (HasPositionX f) (HasPositionY f)
    (IsActive f) (ActivationTime f).
Definition set_LastX (v : Z) (f : Finger) : Finger :=
  mkFinger (FirstX f) (FirstY f) v (LastY f) (HasPositionX f) (HasPositionY f)
    (IsActive f) (ActivationTime f).
Definition set_LastY (v : Z) (f : Finger) : Finger :=
  mkFinger (FirstX f) (FirstY f) (LastX f) v (HasPositionX f) (HasPositionY f)
    (IsActive f) (ActivationTime f).
Definition set_HasPositionX (v : bool) (f : Finger) : Finger :=
  mkFinger (FirstX f) (FirstY f) (LastX f) (LastY f) v (HasPositionY f)
    (IsActive f) (ActivationTime f).
Definition set_HasPositionY (v : bool) (f : Finger) : Finger :=
  mkFinger (FirstX f) (FirstY f) (LastX f) (LastY f) (HasPositionX f) v
    (IsActive f) (ActivationTime f).
Definition set_IsActive (v : bool) (f : Finger) : Finger :=
  mkFinger (FirstX f) (FirstY f) (LastX f) (LastY f) (HasPositionX f)
    (HasPositionY f) v (ActivationTime f).
Definition set_ActivationTime (v : Time) (f : Finger) : Finger :=
  mkFinger (FirstX f) (FirstY f) (LastX f) (LastY f) (HasPositionX f)
    (HasPositionY f) (IsActive f) v.

(** The zero value of the struct. *)
Definition zeroFinger : Finger := mkFinger 0 0 0 0 false false false zeroTime.

(** Set the current x position of the finger *)
Definition setPositionX (x : Z) (finger : Finger) : Finger :=
  let finger :=
    if negb (HasPositionX finger)
    then set_HasPositionX true (set_FirstX x finger)
    else finger in
  set_LastX x finger.

(** Set the current y position of the finger *)
Definition setPositionY (y : Z) (finger : Finger) : Finger :=
  let finger :=
    if negb (HasPositionY finger)
    then set_HasPositionY true (set_FirstY y finger)
    else finger in
  set_LastY y finger.

(** If the position of the finger has been set after the first touch or since
    the last reset *)
Definition hasPosition (finger : Finger) : bool :=
  HasPositionX finger && HasPositionY finger.

(** The distance the finger has moved relative to the first position of the
    finger since the first touch or reset *)
Definition getDistance (finger : Finger) : Z :=
  if negb (hasPosition finger) then 0
  else calculateDistance (LastX finger) (LastY finger)
         (FirstX finger) (FirstY finger).

(** Returns the direction that belongs to an angle: the [switch] of
    [getDirection], whose cases are tried in order. *)
Definition directionOfAngle (angle : Z) : gestureType :=
  if (45 <=? angle) && (angle <=? 135) then SWIPE_UP
  else if (135 <=? angle) && (angle <=? 225) then SWIPE_LEFT
  else if (225 <=? angle) && (angle <=? 315) then SWIPE_DOWN
  else if (315 <=? angle) || (angle <=? 45) then SWIPE_RIGHT
  else UNKNOWN.

(** ** The detector

    [Atan] is [math.Atan] of Go's standard library, which the embedding leaves
    open: every property below holds whatever values it returns.  [clock] is
    the monotonic clock. *)

Section Detector.

Variable Atan : float -> float.
Variable clock : nat -> Z.

(** [time.Now()] *)
Definition timeNow {S} : Go S Time :=
  fun s k => Done (at_ns (clock k), s, Datatypes.S k).

(** [time.Since(t)] *)
Definition timeSince {S} (t : Time) : Go S Z :=
  fun s k => Done (elapsed (clock k) t, s, Datatypes.S k).

(** [math.Atan2(float64(dy), float64(dx))].  The conversion of an integer is
    a finite float of the same sign, and zero only for zero, so the special
    cases of [math.Atan2] are decided on the integers: [Atan2(+0, x>=0) = +0],
    [Atan2(+0, x<0) = +Pi], [Atan2(y>0, 0) = +Pi/2], [Atan2(y<0, 0) = -Pi/2];
    otherwise the quadrant is fixed after the call of [Atan]. *)
Definition Atan2 (dy dx : Z) : float :=
  if dy =? 0 then
    if 0 <=? dx then 0%float else Pi
  else if dx =? 0 then
    if 0 <? dy then Pi_2 else (- Pi_2)%float
  else
    let q := Atan (float64_of_int dy / float64_of_int dx) in
    if dx <? 0 then
      if (q <=? 0)%float then (q + Pi)%float else (q - Pi)%float
    else q.

(** Return the angle (0-360 degrees) of the last movement of the finger
    relative to the x-axis *)
Definition getAngle (finger : Finger) : Z :=
  if negb (hasPosition finger) then 0
  else
    let dx := sub64 (LastX finger) (FirstX finger) in
    let dy := neg64 (sub64 (LastY finger) (FirstY finger)) in
    let angle := int_of_float64 (Atan2 dy dx * 180 / Pi) in
    if angle <? 0 then add64 360 angle else angle.

(** Returns the direction of the movement of finger relative to the first
    position since the first touch or reset. *)
Definition getDirection (finger : Finger) : gestureType :=
  directionOfAngle (getAngle finger).

Definition reset : Go Finger unit :=
  (let* now := timeNow in
   modify (set_ActivationTime now) ;;
   modify (set_HasPositionX false) ;;
   modify (set_HasPositionY false))%go.

Definition activate : Go Finger unit :=
  (modify (set_IsActive true) ;;
   reset)%go.

Definition deactivate : Go Finger unit :=
  modify (set_IsActive false).

(** Check if the finger has has a movement that is considered a swiping
    motion. *)
Definition hasSwiped (distanceThreshold : Z) : Go Finger bool :=
  (let* finger := get in
   if negb (hasPosition finger) then ret false
   else
     let* diff := timeSince (ActivationTime finger) in
     if diff <? CHECK_DELAY * Millisecond then ret false
     else ret (distanceThreshold <? getDistance finger))%go.

(** *** EventHandler *)

Record EventHandler : Type := mkEventHandler {
  (* Five fingers *)
  fingers : vec Finger 5;
  (* The current finger that is modified by the events *)
  currentSlot : Z;
  (* The last reported gesture type *)
  lastGesture : gestureType;
  (* The number of active fingers touching the pad *)
  fingerCount : Z;
  (* Used to keep track of the last check for a gesture *)
  checkTimer : Time;
  (* Suspend any new gestures until the fingers are lifted from the pad. *)
  suspend : bool;
  (* Channel for detected gestures: the gestures sent so far *)
  Gestures : list Gesture;
  (* The number of fingerCounts that have gestures defined in the config. *)
  configuredFingers : gmap Z bool }.

Definition set_fingers (v : vec Finger 5) (h : EventHandler) : EventHandler :=
  mkEventHandler v (currentSlot h) (lastGesture h) (fingerCount h)
    (checkTimer h) (suspend h) (Gestures h) (configuredFingers h).
Definition set_currentSlot (v : Z) (h : EventHandler) : EventHandler :=
  mkEventHandler (fingers h) v (lastGesture h) (fingerCount h)
    (checkTimer h) (suspend h) (Gestures h) (configuredFingers h).
Definition set_lastGesture (v : gestureType) (h : EventHandler) : EventHandler :=
  mkEventHandler (fingers h) (currentSlot h) v (fingerCount h)
    (checkTimer h) (suspend h) (Gestures h) (configuredFingers h).
Definition set_fingerCount (v : Z) (h : EventHandler) : EventHandler :=
  mkEventHandler (fingers h) (currentSlot h) (lastGesture h) v
    (checkTimer h) (suspend h) (Gestures h) (configuredFingers h).
Definition set_checkTimer (v : Time) (h : EventHandler) : EventHandler :=
  mkEventHandler (fingers h) (currentSlot h) (lastGesture h) (fingerCount h)
    v (suspend h) (Gestures h) (configuredFingers h).
Definition set_suspend (v : bool) (h : EventHandler) : EventHandler :=
  mkEventHandler (fingers h) (currentSlot h) (lastGesture h) (fingerCount h)
    (checkTimer h) v (Gestures h) (configuredFingers h).
Definition set_Gestures (v : list Gesture) (h : EventHandler) : EventHandler :=
  mkEventHandler (fingers h) (currentSlot h) (lastGesture h) (fingerCount h)
    (checkTimer h) (suspend h) v (configuredFingers h).

(** The handler [main] creates: every field but the map has its zero value. *)
Definition newEventHandler (configured : gmap Z bool) : EventHandler :=
  mkEventHandler (vreplicate 5 zeroFinger) 0 UNKNOWN 0 zeroTime false []
    configured.

(** The indices of [handler.fingers], in the order of [range]. *)
Definition allSlots : list (fin 5) := [0; 1; 2; 3; 4]%fin.

(** The index of the array that an [int] denotes, if it is within bounds. *)
Definition slotIndex (i : Z) : option (fin 5) :=
  match i with
  | 0 => Some 0%fin
  | 1 => Some 1%fin
  | 2 => Some 2%fin
  | 3 => Some 3%fin
  | 4 => Some 4%fin
  | _ => None
  end.

(** Run a method of [Finger] on [handler.fingers[i]], [i] within bounds. *)
Definition atSlot {A} (i : fin 5) (m : Go Finger A) : Go EventHandler A :=
  fun h k =>
    match m (fingers h !!! i) k with
    | Done (a, f, k') => Done (a, set_fingers (vinsert i f (fingers h)) h, k')
    | Panic => Panic
    end.

(** Run a method of [Finger] on [handler.fingers[i]]: the index is checked
    at run time, and out of bounds the program panics. *)
Definition atFinger {A} (i : Z) (m : Go Finger A) : Go EventHandler A :=
  match slotIndex i with
  | Some j => atSlot j m
  | None => panic
  end.

Fixpoint forEach {S X} (l : list X) (body : X -> Go S unit) : Go S unit :=
  match l with
  | [] => ret tt
  | x :: rest => (body x ;; forEach rest body)%go
  end.

Definition liftOutcome {S A} (r : outcome A) : Go S A :=
  match r with
  | Done a => ret a
  | Panic => panic
  end.

Definition resetFingers : Go EventHandler unit :=
  (forEach allSlots (fun i => atSlot i reset) ;;
   let* now := timeNow in
   modify (set_checkTimer now))%go.

Definition emitGesture (gesture : Gesture) : Go EventHandler unit :=
  (modify (set_lastGesture (GestureType gesture)) ;;
   modify (fun h => set_Gestures (Gestures h ++ [gesture]) h))%go.

(** The loop of [calculateGesture] over the fingers from index [slots] on;
    [None] when the function returns [UNKNOWN] from inside the loop. *)
Fixpoint collectPositions (slots : list (fin 5))
    (startPositions endPositions : list (Z * Z))
  : Go EventHandler (option (list (Z * Z) * list (Z * Z))) :=
  match slots with
  | [] => ret (Some (startPositions, endPositions))
  | i :: rest =>
      (let* fing := gets (fun h => fingers h !!! i) in
       if negb (IsActive fing) then
         collectPositions rest startPositions endPositions
       else
         let* swiped := atSlot i (hasSwiped DIST_OTHER) in
         if negb swiped then ret None
         else
           collectPositions rest
             (startPositions ++ [(FirstX fing, FirstY fing)])
             (endPositions ++ [(LastX fing, LastY fing)]))%go
  end.

(** Returns the gesture type from the last movement of the fingers if it was
    not a straight swipe to one of the sides *)
Definition calculateGesture : Go EventHandler gestureType :=
  (let* positions := collectPositions allSlots [] [] in
   match positions with
   | None => ret UNKNOWN
   | Some (startPositions, endPositions) =>
       (* Calculate the circumference around the fingers in the start and
          end position to determine if the fingers was pinched or spread. *)
       let* start := liftOutcome (calculateCircumference startPositions) in
       let* end_ := liftOutcome (calculateCircumference endPositions) in
       if end_ <? start then ret PINCH else ret SPREAD
   end)%go.

(** The loop of [detectGesture] over the fingers from index [slots] on, with
    the loop's variables [isSwipe] and [gesture].  It yields [None] when the
    function returns from inside the loop, and the two variables when the
    loop ends, by exhaustion or by [break]. *)
Fixpoint swipeLoop (slots : list (fin 5)) (timeDiff : Z)
    (isSwipe : bool) (gesture : gestureType)
  : Go EventHandler (option (bool * gestureType)) :=
  match slots with
  | [] => ret (Some (isSwipe, gesture))
  | i :: rest =>
      (let* fing := gets (fun h => fingers h !!! i) in
       if negb (IsActive fing) then swipeLoop rest timeDiff isSwipe gesture
       else
         let* swiped := atSlot i (hasSwiped DIST_SWIPE) in
         if swiped then
           if bool_decide (i = 0%fin) then
             swipeLoop rest timeDiff true (getDirection fing)
           else if bool_decide (getDirection fing <> gesture) then
             (* Not all fingers moved in the same direction so its not a
                swipe *)
             ret (Some (false, gesture))
           else swipeLoop rest timeDiff true gesture
         else
           (* Not all fingers has moved enough to register a swipe so we
              return.  If it has been more than some ms since the last reset
              and no gesture is detected we reset *)
           (if 220 * Millisecond <? timeDiff then resetFingers else ret tt) ;;
           ret None)%go
  end.

(** The emission both branches of [detectGesture] share. *)
Definition report (gesture : gestureType) : Go EventHandler unit :=
  (let* handler := get in
   if bool_decide (lastGesture handler <> gesture) then
     emitGesture (mkGesture gesture (fingerCount handler)) ;;
     (* Suspend gestures until fingers are lifted from the pad *)
     modify (set_suspend true)
   else ret tt)%go.

Definition detectGesture : Go EventHandler unit :=
  (let* handler := get in
   (* Time since last reset *)
   let* timeDiff := timeSince (checkTimer handler) in
   (* Do we have enough fingers or enough time passed since the last reset *)
   if negb (bool_decide (is_Some (configuredFingers handler !! fingerCount handler)))
      || (fingerCount handler <? 2)
      || (timeDiff <? CHECK_DELAY * Millisecond)
   then ret tt
   else
     (* We only register a swipe if all the fingers reports a swipe in the
        same direction *)
     let* loop := swipeLoop allSlots timeDiff false UNKNOWN in
     match loop with
     | None => ret tt
     | Some (isSwipe, gesture) =>
         (if isSwipe then report gesture
          else
            (* It was not a straight swipe so check for other gestures *)
            let* gesture := calculateGesture in
            if bool_decide (gesture <> UNKNOWN) then report gesture
            else ret tt) ;;
         (* When we get here we have either reported a swipe and is suspended
            or it was an unknown movement so we reset the fingers to check
            for a new gesture if the last movement was not a gesture *)
         resetFingers
     end)%go.

(** *** Input events

    [evdev.InputEvent], and the codes of the Linux input interface the
    handler looks at. *)

Record InputEvent : Type := mkInputEvent {
  Type_ : Z;   (* uint16 *)
  Code : Z;    (* uint16 *)
  Value : Z    (* int32 *) }.

Definition EV_SYN : Z := 0.
Definition EV_ABS : Z := 3.
Definition SYN_REPORT : Z := 0.
Definition ABS_MT_SLOT : Z := 47.
Definition ABS_MT_POSITION_X : Z := 53.
Definition ABS_MT_POSITION_Y : Z := 54.
Definition ABS_MT_TRACKING_ID : Z := 57.

Definition handleSynEvent (event : InputEvent) : Go EventHandler unit :=
  (let* handler := get in
   (* Only check for gestures after a report event and not suspended *)
   if (Code event =? SYN_REPORT) && negb (suspend handler) then detectGesture
   else ret tt)%go.

Definition handleAbsEvent (event : InputEvent) : Go EventHandler unit :=
  if Code event =? ABS_MT_SLOT then
    modify (set_currentSlot (Value event))
  else if Code event =? ABS_MT_TRACKING_ID then
    (let* handler := get in
     let prevCount := fingerCount handler in
     (if Value event =? -1 then
        modify (set_fingerCount (sub64 (fingerCount handler) 1)) ;;
        atFinger (currentSlot handler) deactivate
      else
        modify (set_fingerCount (add64 (fingerCount handler) 1)) ;;
        atFinger (currentSlot handler) activate) ;;
     resetFingers ;;
     (* If previously no fingers was touching we get ready to handle a new
        gesture *)
     if prevCount =? 0 then
       modify (set_lastGesture UNKNOWN) ;;
       modify (set_suspend false)
     else ret tt)%go
  else if Code event =? ABS_MT_POSITION_X then
    (let* handler := get in
     atFinger (currentSlot handler) (modify (setPositionX (Value event))))%go
  else if Code event =? ABS_MT_POSITION_Y then
    (let* handler := get in
     atFinger (currentSlot handler) (modify (setPositionY (Value event))))%go
  else ret tt.

Definition handleEvent (event : InputEvent) : Go EventHandler unit :=
  if Type_ event =? EV_SYN then handleSynEvent event
  else if Type_ event =? EV_ABS then handleAbsEvent event
  else ret tt.

(** The body of [run] on the events read from the device, in order. *)
Definition handleEvents (events : list InputEvent) : Go EventHandler unit :=
  forEach events handleEvent.

End Detector.

(** ** An instance of the open parts

    [GoMath.Atan] follows the routine of Go's [math] package (the Cephes
    [atan]: a rational approximation on [0, 0.66] after range reduction),
    with each constant the binary64 its decimal literal denotes.  It is used
    to run the detector on concrete inputs. *)

Module GoMath.

Definition P0 : float := (-0x1.c007fa1f72594p-1)%float.  (* -8.750608600031904122785e-01 *)
Definition P1 : float := (-0x1.028545b6b807ap+4)%float.  (* -1.615753718733365076637e+01 *)
Definition P2 : float := (-0x1.2c08c36880273p+6)%float.  (* -7.500855792314704667340e+01 *)
Definition P3 : float := (-0x1.eb8bf2d05ba25p+6)%float.  (* -1.228866684490136173410e+02 *)
Definition P4 : float := (-0x1.03669fd28ec8ep+6)%float.  (* -6.485021904942025371773e+01 *)
Definition Q0 : float := 0x1.8dbc45b14603cp+4%float.     (* +2.485846490142306297962e+01 *)
Definition Q1 : float := 0x1.4a0dd43b8fa25p+7%float.     (* +1.650270098316988542046e+02 *)
Definition Q2 : float := 0x1.b0e18d2e2be3bp+8%float.     (* +4.328810604912902668951e+02 *)
Definition Q3 : float := 0x1.e563f13b049eap+8%float.     (* +4.853903996359136964868e+02 *)
Definition Q4 : float := 0x1.8519efbbd62ecp+7%float.     (* +1.945506571482613964425e+02 *)
Definition Morebits : float := 0x1.1a62633145c07p-54%float. (* 6.123233995736765886130e-17 *)
Definition Tan3pio8 : float := 0x1.3504f333f9de6p+1%float.  (* 2.41421356237309504880 *)
Definition Pi_4 : float := 0x1.921fb54442d18p-1%float.

(** xatan evaluates a series valid in the range [0, 0.66]. *)
Definition xatan (x : float) : float :=
  (let z := x * x in
   let z := z * ((((P0 * z + P1) * z + P2) * z + P3) * z + P4)
              / (((((z + Q0) * z + Q1) * z + Q2) * z + Q3) * z + Q4) in
   x * z + x)%float.

(** satan reduces its argument (known to be positive) to the range
    [0, 0.66] and calls xatan. *)
Definition satan (x : float) : float :=
  if (x <=? 0x1.51eb851eb851fp-1)%float then xatan x
  else if (Tan3pio8 <? x)%float then (Pi_2 - xatan (1 / x) + Morebits)%float
  else (Pi_4 + xatan ((x - 1) / (x + 1)) + 0.5 * Morebits)%float.

Definition Atan (x : float) : float :=
  if (x =? 0)%float then x
  else if (0 <? x)%float then satan x
  else (- satan (- x))%float.

End GoMath.

(** A clock that shows [start] at the first reading and advances by [step]
    nanoseconds from each reading to the next. *)
Definition steadyClock (start step : Z) : nat -> Z :=
  fun k => start + step * Z.of_nat k.

(** Events as the device reports them. *)
Definition absEvent (code value : Z) : InputEvent := mkInputEvent EV_ABS code value.
Definition synReport : InputEvent := mkInputEvent EV_SYN SYN_REPORT 0.

(** A sequence of calls of [setPositionX] and [setPositionY] on one finger. *)
Inductive positionCall : Type :=
  | SetX (x : Z)
  | SetY (y : Z).

Definition applyCall (finger : Finger) (c : positionCall) : Finger :=
  match c with
  | SetX x => setPositionX x finger
  | SetY y => setPositionY y finger
  end.

Definition applyCalls (calls : list positionCall) (finger : Finger) : Finger :=
  fold_left applyCall calls finger.

(** The arguments of the calls of [setPositionX] (of [setPositionY]) in a
    sequence of calls, in order. *)
Definition xValues (calls : list positionCall) : list Z :=
  omap (fun c => match c with SetX x => Some x | SetY _ => None end) calls.
Definition yValues (calls : list positionCall) : list Z :=
  omap (fun c => match c with SetY y => Some y | SetX _ => None end) calls.

(** ** Notions the properties are stated with *)

(** What [reset] does to a finger, given the reading of the clock. *)
Definition resetFinger (now : Time) (f : Finger) : Finger :=
  set_HasPositionY false (set_HasPositionX false (set_ActivationTime now f)).

(** The handler after [resetFingers], begun at the clock's reading number
    [k]: finger [i] is reset at reading [i + k], and the timer is stamped
    with reading [5 + k]. *)
Definition resetAll (clock : nat -> Z) (k : nat) (h : EventHandler)
  : EventHandler :=
  set_checkTimer (at_ns (clock (5 + k)%nat))
    (set_fingers
       (fun_to_vec (fun i : fin 5 =>
          resetFinger (at_ns (clock (fin_to_nat i + k)%nat)) (fingers h !!! i)))
       h).

(** The fingers touching the pad, in the order of the slots. *)
Definition activeFingers (h : EventHandler) : list Finger :=
  List.filter IsActive (vec_to_list (fingers h)).

Definition firstPosition (f : Finger) : Z * Z := (FirstX f, FirstY f).
Definition lastPosition (f : Finger) : Z * Z := (LastX f, LastY f).

(** The fields of the handler other than the fingers and the timer. *)
Definition sameControl (h h' : EventHandler) : Prop :=
  currentSlot h' = currentSlot h
  /\ lastGesture h' = lastGesture h
  /\ fingerCount h' = fingerCount h
  /\ suspend h' = suspend h
  /\ Gestures h' = Gestures h
  /\ configuredFingers h' = configuredFingers h.

(** The answer of [hasSwiped] for a finger when the clock has been read [k]
    times, and the number of readings afterwards. *)
Definition swipedAt (clock : nat -> Z) (T : Z) (f : Finger) (k : nat)
  : bool * nat :=
  if hasPosition f
  then (negb (elapsed (clock k) (ActivationTime f) <? 50 * Millisecond)
        && (T <? getDistance f), S k)
  else (false, k).

(** The condition under which [detectGesture] returns at once. *)
Definition detectionSkipped (h : EventHandler) (timeDiff : Z) : bool :=
  negb (bool_decide (is_Some (configuredFingers h !! fingerCount h)))
  || (fingerCount h <? 2)
  || (timeDiff <? 50 * Millisecond).

(** The handler after a gesture of type [g] has been reported. *)
Definition reported (g : gestureType) (h : EventHandler) : EventHandler :=
  set_suspend true
    (set_Gestures (Gestures h ++ [mkGesture g (fingerCount h)])
       (set_lastGesture g h)).

(** What follows the loop of [detectGesture] when the loop has ended: the
    report of a swipe or of a radial gesture if there is one, and the reset
    of the fingers. *)
Definition afterLoop (clock : nat -> Z) (isSwipe : bool) (gesture : gestureType)
  : Go EventHandler unit :=
  ((if isSwipe then report gesture
    else
      let* gesture := calculateGesture clock in
      if bool_decide (gesture <> UNKNOWN) then report gesture else ret tt) ;;
   resetFingers clock)%go.

(** A finger has moved past the threshold [T], and the delay since its
    activation has passed at every reading of the clock from the [k]-th on. *)
Definition movedPast (clock : nat -> Z) (T : Z) (k : nat) (f : Finger) : Prop :=
  hasPosition f = true
  /\ T < getDistance f
  /\ forall n, (k <= n)%nat ->
       50 * Millisecond <= elapsed (clock n) (ActivationTime f).

(** The kinds of event the handler tells apart. *)
Inductive eventKind : Type :=
  | SlotSelect
  | TrackingId
  | PositionX
  | PositionY
  | SynReport
  | Ignored.

#[global] Instance eventKind_eq_dec : EqDecision eventKind.
Proof. solve_decision. Defined.

Definition classify (e : InputEvent) : eventKind :=
  if Type_ e =? EV_SYN then
    if Code e =? SYN_REPORT then SynReport else Ignored
  else if Type_ e =? EV_ABS then
    if Code e =? ABS_MT_SLOT then SlotSelect
    else if Code e =? ABS_MT_TRACKING_ID then TrackingId
    else if Code e =? ABS_MT_POSITION_X then PositionX
    else if Code e =? ABS_MT_POSITION_Y then PositionY
    else Ignored
  else Ignored.

(** The handler after a tracking-id event for the finger in slot [j], begun
    at the clock's reading number [k]. *)
Definition tracked (clock : nat -> Z) (e : InputEvent) (j : fin 5)
    (h : EventHandler) (k : nat) : EventHandler :=
  let h1 :=
    if Value e =? -1 then
      set_fingers
        (vinsert j (set_IsActive false (fingers h !!! j)) (fingers h))
        (set_fingerCount (sub64 (fingerCount h) 1) h)
    else
      set_fingers
        (vinsert j
           (resetFinger (at_ns (clock k)) (set_IsActive true (fingers h !!! j)))
           (fingers h))
        (set_fingerCount (add64 (fingerCount h) 1) h) in
  let h2 := resetAll clock (if Value e =? -1 then k else S k) h1 in
  if fingerCount h =? 0 then set_suspend false (set_lastGesture UNKNOWN h2)
  else h2.

(** The current slot is an index of the array of fingers. *)
Definition slotInRange (h : EventHandler) : bool :=
  bool_decide (is_Some (slotIndex (currentSlot h))).

Definition someActive (h : EventHandler) : bool :=
  match activeFingers h with
  | [] => false
  | _ :: _ => true
  end.

(** An event the handler is prepared for, in the state it arrives in: a
    slot-select names one of the five slots, and a frame report does not
    arrive while two or more fingers are counted but no finger is active. *)
Definition admissible (h : EventHandler) (e : InputEvent) : bool :=
  match classify e with
  | SlotSelect => bool_decide (is_Some (slotIndex (Value e)))
  | SynReport => if 2 <=? fingerCount h then someActive h else true
  | _ => true
  end.

(** Every event of the sequence is admissible in the state the handler has
    reached when the event arrives (nothing is asked of what follows a
    panic). *)
Fixpoint tolerated (Atan : float -> float) (clock : nat -> Z)
    (events : list InputEvent) (h : EventHandler) (k : nat) : bool :=
  match events with
  | [] => true
  | e :: rest =>
      admissible h e
      && match handleEvent Atan clock e h k with
         | Done (_, h', k') => tolerated Atan clock rest h' k'
         | Panic => true
         end
  end.

(** A tracking-id event that arrives while no finger is counted: the start
    of a new contact epoch. *)
Definition retouch (h : EventHandler) (e : InputEvent) : bool :=
  bool_decide (classify e = TrackingId) && (fingerCount h =? 0).

(** No event of the sequence starts a new contact epoch, in the state the
    handler has reached when the event arrives. *)
Fixpoint sameEpoch (Atan : float -> float) (clock : nat -> Z)
    (events : list InputEvent) (h : EventHandler) (k : nat) : bool :=
  match events with
  | [] => true
  | e :: rest =>
      negb (retouch h e)
      && match handleEvent Atan clock e h k with
         | Done (_, h', k') => sameEpoch Atan clock rest h' k'
         | Panic => true
         end
  end.

(** ** Concrete runs *)

Definition slotSelect (slot : Z) : InputEvent := absEvent ABS_MT_SLOT slot.
Definition trackingId (id : Z) : InputEvent := absEvent ABS_MT_TRACKING_ID id.
Definition positionX (x : Z) : InputEvent := absEvent ABS_MT_POSITION_X x.
Definition positionY (y : Z) : InputEvent := absEvent ABS_MT_POSITION_Y y.

(** A clock that advances 60 ms from each reading to the next. *)
Definition slowClock : nat -> Z := steadyClock 0 (60 * Millisecond).

(** A clock that shows 100 ms at the first reading and advances 1 ms from
    each reading to the next. *)
Definition fastClock : nat -> Z := steadyClock (100 * Millisecond) Millisecond.

(** A finger that touched down at time 0 and moved from [(x0, y0)] to
    [(x, y)]. *)
Definition movedFinger (x0 y0 x y : Z) : Finger :=
  mkFinger x0 y0 x y true true true (at_ns 0).

(** Two fingers touch down in slots 0 and 1 and report their positions. *)
Definition twoFingersDown : list InputEvent :=
  [slotSelect 0; trackingId 10; positionX 1000; positionY 2000;
   slotSelect 1; trackingId 11; positionX 3000; positionY 2000;
   slotSelect 0; positionX 1000; positionY 2000; synReport].

(** Both move 1500 units up the screen. *)
Definition bothMoveUp : list InputEvent :=
  [positionY 500; slotSelect 1; positionY 500; synReport].

(** Further frames, then both fingers lift. *)
Definition framesAndLift : list InputEvent :=
  [positionY 400; synReport; trackingId (-1); slotSelect 0; synReport;
   trackingId (-1); synReport].

(** A slot-select for a slot the array does not have, then a position. *)
Definition slotOutOfRange : list InputEvent :=
  [slotSelect 7; positionX 100].

(** Three contacts are added in slot 0 and one is removed, which leaves the
    finger count at 2 with no finger active; then a frame report arrives. *)
Definition countedButInactive : list InputEvent :=
  [trackingId 1; trackingId 2; trackingId 3; trackingId (-1); synReport].

(** Three fingers touch down in slots 0, 1 and 2, the finger in slot 0
    lifts, and the two that remain move 1200 units up the screen; the frame
    report that follows is not included. *)
Definition swipeUpAfterFirstFingerLifts : list InputEvent :=
  [slotSelect 0; trackingId 20; positionX 1000; positionY 2000;
   slotSelect 1; trackingId 21; positionX 2000; positionY 2000;
   slotSelect 2; trackingId 22; positionX 3000; positionY 2000; synReport;
   slotSelect 0; trackingId (-1);
   slotSelect 1; positionX 2000; positionY 2000;
   slotSelect 2; positionX 3000; positionY 2000; synReport;
   slotSelect 1; positionY 800;
   slotSelect 2; positionY 800].

(** The handler and the number of clock readings a run ends with (those it
    started with if it panics). *)
Definition runFrom (Atan : float -> float) (clock : nat -> Z)
    (events : list InputEvent) (s : EventHandler * nat) : EventHandler * nat :=
  match handleEvents Atan clock events (fst s) (snd s) with
  | Done (_, h, k) => (h, k)
  | Panic => s
  end.

(** Two fingers have touched down and swiped up; then further frames have
    arrived and both fingers have lifted. *)
Definition afterSwipeUp : EventHandler * nat :=
  runFrom GoMath.Atan slowClock (twoFingersDown ++ bothMoveUp)
    (newEventHandler {[2 := true]}, 0%nat).
Definition afterLift : EventHandler * nat :=
  runFrom GoMath.Atan slowClock framesAndLift afterSwipeUp.

(** Two fingers have touched down (the current slot is 0 again); then
    slot 1 is selected, and a position, a frame report, a lift and another
    frame report follow. *)
Definition afterTouch : EventHandler * nat :=
  runFrom GoMath.Atan slowClock twoFingersDown
    (newEventHandler {[2 := true]}, 0%nat).
Definition framesInSlot1 : list InputEvent :=
  [positionY 500; synReport; trackingId (-1); synReport].
Definition afterSlot1 : EventHandler * nat :=
  runFrom GoMath.Atan slowClock (slotSelect 1 :: framesInSlot1) afterTouch.

(** Two fingers have touched down and moved up; the frame report of the
    movement has not arrived yet. *)
Definition beforeSwipeUp : EventHandler * nat :=
  runFrom GoMath.Atan slowClock (twoFingersDown ++ removelast bothMoveUp)
    (newEventHandler {[2 := true]}, 0%nat).

(** Three fingers counted and configured: the first has moved 1200 units to
    the right, the second 1200 units to the left, the third only 100. *)
Definition rightLeftStill : EventHandler :=
  mkEventHandler
    [# movedFinger 1000 1000 2200 1000; movedFinger 3000 1000 1800 1000;
       movedFinger 2000 2000 2100 2000; zeroFinger; zeroFinger]
    2 UNKNOWN 3 (at_ns 0) false [] {[3 := true]}.

(** Two fingers that have moved 900 units towards each other. *)
Definition pinching : EventHandler :=
  mkEventHandler
    [# movedFinger 1000 1000 1900 1000; movedFinger 3000 1000 2100 1000;
       zeroFinger; zeroFinger; zeroFinger]
    1 UNKNOWN 2 (at_ns 0) false [] {[2 := true]}.

(** ** Names of the gestures *)

(** [strconv.Itoa], and the verb [%d] of [fmt]: the decimal numeral, with a
    minus sign for a negative number. *)
Definition Itoa (i : Z) : string := pretty i.

(** Get name of the gesture type *)
Definition getGestureTypeName (gesture : gestureType) : string :=
  match gesture with
  | SWIPE_UP => "Swipe Up"
  | SWIPE_DOWN => "Swipe Down"
  | SWIPE_LEFT => "Swipe Left"
  | SWIPE_RIGHT => "Swipe Right"
  | PINCH => "Pinch"
  | SPREAD => "Spread"
  | UNKNOWN => "UNKNOWN"
  end.

(** [Gesture.String]: [fmt.Sprintf("%s(%d)", name, count)]. *)
Definition Gesture_String (gest : Gesture) : string :=
  getGestureTypeName (GestureType gest) +:+ "(" +:+ Itoa (FingerCount gest)
    +:+ ")".

(** ** Configuration and dispatch *)

Record ActionCollection : Type := mkActionCollection {
  Swipe2Left : string;
  Swipe3Left : string;
  Swipe4Left : string;
  Swipe5Left : string;

  Swipe2Right : string;
  Swipe3Right : string;
  Swipe4Right : string;
  Swipe5Right : string;

  Swipe2Up : string;
  Swipe3Up : string;
  Swipe4Up : string;
  Swipe5Up : string;

  Swipe2Down : string;
  Swipe3Down : string;
  Swipe4Down : string;
  Swipe5Down : string;

  Pinch2 : string;
  Pinch3 : string;
  Pinch4 : string;
  Pinch5 : string;

  Spread2 : string;
  Spread3 : string;
  Spread4 : string;
  Spread5 : string }.

(** [Config]: the path of the device and, for each window class (the empty
    name standing for all windows), its actions.  The map holds the
    collections themselves: the parser of the configuration file stores no
    nil pointer, and a missing key is what the code finds as [nil]. *)
Record Config : Type := mkConfig {
  Device_Path : string;
  Actions : gmap string ActionCollection }.

(** What reflection shows of an [ActionCollection]: the name and the value
    of each field, in the order of the declaration. *)
Definition structFields (a : ActionCollection) : list (string * string) :=
  [("Swipe2Left", Swipe2Left a); ("Swipe3Left", Swipe3Left a);
   ("Swipe4Left", Swipe4Left a); ("Swipe5Left", Swipe5Left a);
   ("Swipe2Right", Swipe2Right a); ("Swipe3Right", Swipe3Right a);
   ("Swipe4Right", Swipe4Right a); ("Swipe5Right", Swipe5Right a);
   ("Swipe2Up", Swipe2Up a); ("Swipe3Up", Swipe3Up a);
   ("Swipe4Up", Swipe4Up a); ("Swipe5Up", Swipe5Up a);
   ("Swipe2Down", Swipe2Down a); ("Swipe3Down", Swipe3Down a);
   ("Swipe4Down", Swipe4Down a); ("Swipe5Down", Swipe5Down a);
   ("Pinch2", Pinch2 a); ("Pinch3", Pinch3 a);
   ("Pinch4", Pinch4 a); ("Pinch5", Pinch5 a);
   ("Spread2", Spread2 a); ("Spread3", Spread3 a);
   ("Spread4", Spread4 a); ("Spread5", Spread5 a)].

(** [strings.Index(s, substr)]: the index of the first instance of [substr]
    in [s], or -1. *)
Definition strings_Index (s substr : string) : Z :=
  match String.index 0 substr s with
  | Some i => Z.of_nat i
  | None => -1
  end.

(** [len(s)] of a string. *)
Definition len (s : string) : Z := Z.of_nat (String.length s).

(** The loop [for j := 1; j <= 5; j++] of [getConfiguredFingers], for the
    field with the given name. *)
Definition markFingers (name : string) (fingers : gmap Z bool) : gmap Z bool :=
  fold_left
    (fun fingers j =>
       if negb (strings_Index name (Itoa j) =? -1)
       then <[j := true]> fingers else fingers)
    [1; 2; 3; 4; 5] fingers.

(** The loop over the fields of one collection. *)
Definition collectionFingers (actions : ActionCollection)
    (fingers : gmap Z bool) : gmap Z bool :=
  fold_left
    (fun fingers field =>
       if len (snd field) =? 0 then fingers
       else markFingers (fst field) fingers)
    (structFields actions) fingers.

(** Get the finger counts that have actions defined in the config. *)
Definition getConfiguredFingers (cfg : Config) : gmap Z bool :=
  map_fold (fun _ actions fingers => collectionFingers actions fingers) ∅
    (Actions cfg).

(** An [exec.Cmd], as far as [exec.Command] fills it from its arguments: the
    name of the program and the argument vector (the name first). *)
Record Cmd : Type := mkCmd {
  Path : string;
  Args : list string }.

Definition exec_Command (name : string) (arg : list string) : Cmd :=
  mkCmd name (name :: arg).

Section Dispatch.

(** [shellwords.Parse]: the words of a command line, or [None] for an error. *)
Variable Parse : string -> option (list string).

(** Create a command from a string *)
Definition createCommand (command : string) : outcome (option Cmd) :=
  match Parse command with
  | None => Done None
  | Some args =>
      if 1 <? Z.of_nat (length args) then
        match args with
        | name :: rest => Done (Some (exec_Command name rest))
        | [] => Panic
        end
      else
        match args !! 0%nat with
        | Some name => Done (Some (exec_Command name []))
        | None => Panic
        end
  end.

(** One of the inner [switch] statements of [getCommand]: the cases
    [gest.FingerCount == n && len(field) > 0], tried in order; without a
    match the command stays [nil]. *)
Fixpoint fingerSwitch (fingerCount : Z) (cases : list (Z * string))
  : outcome (option Cmd) :=
  match cases with
  | [] => Done None
  | (n, field) :: rest =>
      if (fingerCount =? n) && (0 <? len field) then createCommand field
      else fingerSwitch fingerCount rest
  end.

Definition getCommand (gest : Gesture) (actions : ActionCollection)
  : outcome (option Cmd) :=
  match GestureType gest with
  | SWIPE_UP =>
      fingerSwitch (FingerCount gest)
        [(2, Swipe2Up actions); (3, Swipe3Up actions);
         (4, Swipe4Up actions); (5, Swipe5Up actions)]
  | SWIPE_DOWN =>
      fingerSwitch (FingerCount gest)
        [(2, Swipe2Down actions); (3, Swipe3Down actions);
         (4, Swipe4Down actions); (5, Swipe5Down actions)]
  | SWIPE_LEFT =>
      fingerSwitch (FingerCount gest)
        [(2, Swipe2Left actions); (3, Swipe3Left actions);
         (4, Swipe4Left actions); (5, Swipe5Left actions)]
  | SWIPE_RIGHT =>
      fingerSwitch (FingerCount gest)
        [(2, Swipe2Right actions); (3, Swipe3Right actions);
         (4, Swipe4Right actions); (5, Swipe5Right actions)]
  | PINCH =>
      fingerSwitch (FingerCount gest)
        [(2, Pinch2 actions); (3, Pinch3 actions);
         (4, Pinch4 actions); (5, Pinch5 actions)]
  | SPREAD =>
      fingerSwitch (FingerCount gest)
        [(2, Spread2 actions); (3, Spread3 actions);
         (4, Spread4 actions); (5, Spread5 actions)]
  | UNKNOWN => Done None
  end.

(** The end of [handleGesture]: with no actions nothing is done, otherwise
    the command of these actions for the gesture, if there is one, is run.
    The result is the command that is run. *)
Definition runCommandOf (gest : Gesture) (actions : option ActionCollection)
  : outcome (option Cmd) :=
  match actions with
  | None => Done None
  | Some actions => getCommand gest actions
  end.

(** Do something when a gesture arrives.  [className] is what
    [getActiveWindowClass] returned (the empty string after an error). *)
Definition handleGesture (className : string) (gest : Gesture) (cfg : Config)
  : outcome (option Cmd) :=
  match Actions cfg !! className with
  | None =>
      (* If its no specific window actions try the global actions *)
      runCommandOf gest (Actions cfg !! "")
  | Some actions =>
      match getCommand gest actions with
      | Panic => Panic
      | Done None =>
          (* If there is no action is specified for this gesture type try
             the global actions *)
          runCommandOf gest (Actions cfg !! "")
      | Done (Some _) => runCommandOf gest (Some actions)
      end
  end.

End Dispatch.

(** ** A configuration *)

(** A parser that takes the whole text as one word. *)
Definition oneWord (command : string) : option (list string) :=
  Some [command].

(** Actions for all windows: swipes of three fingers to the left and to the
    right, and a pinch of two fingers. *)
Definition globalActions : ActionCollection :=
  mkActionCollection
    "" "workspace-prev" "" ""
    "" "workspace-next" "" ""
    "" "" "" ""
    "" "" "" ""
    "zoom-out" "" "" ""
    "" "" "" "".

(** Actions for the windows of one class: swipes of two fingers. *)
Definition browserActions : ActionCollection :=
  mkActionCollection
    "history-back" "" "" ""
    "history-forward" "" "" ""
    "" "" "" ""
    "" "" "" ""
    "" "" "" ""
    "" "" "" "".

Definition exampleConfig : Config :=
  mkConfig "/dev/input/event5"
    {[ "" := globalActions; "Firefox" := browserActions ]}.

(** The detector set up for this configuration, as [main] does: two fingers
    have touched down and moved up, and then the frame report arrives. *)
Definition configuredRun : EventHandler * nat :=
  runFrom GoMath.Atan slowClock (twoFingersDown ++ removelast bothMoveUp)
    (newEventHandler (getConfiguredFingers exampleConfig), 0%nat).
Definition configuredReport : EventHandler * nat :=
  runFrom GoMath.Atan slowClock [synReport] configuredRun.

(** ** Further notions *)

(** The number of fingers touching the pad. *)
Definition activeCount (h : EventHandler) : Z :=
  Z.of_nat (length (activeFingers h)).

(** An event as the multi-touch protocol of the kernel sends it, in the
    state it arrives in: a slot-select names one of the five slots, a
    contact is added (tracking id other than -1) only in a slot without a
    contact, and removed (tracking id -1) only from a slot with one. *)
Definition conforming (h : EventHandler) (e : InputEvent) : bool :=
  match classify e with
  | SlotSelect => bool_decide (is_Some (slotIndex (Value e)))
  | TrackingId =>
      match slotIndex (currentSlot h) with
      | Some j =>
          if Value e =? -1 then IsActive (fingers h !!! j)
          else negb (IsActive (fingers h !!! j))
      | None => false
      end
  | _ => true
  end.

(** Every event of the sequence conforms, in the state the handler has
    reached when the event arrives (nothing is asked of what follows a
    panic). *)
Fixpoint conformingRun (Atan : float -> float) (clock : nat -> Z)
    (events : list InputEvent) (h : EventHandler) (k : nat) : bool :=
  match events with
  | [] => true
  | e :: rest =>
      conforming h e
      && match handleEvent Atan clock e h k with
         | Done (_, h', k') => conformingRun Atan clock rest h' k'
         | Panic => true
         end
  end.

(** The states the handler reaches from the one [main] creates. *)
Definition reachable (Atan : float -> float) (clock : nat -> Z)
    (configured : gmap Z bool) (h : EventHandler) (k : nat) : Prop :=
  exists events,
    handleEvents Atan clock events (newEventHandler configured) 0%nat
      = Done (tt, h, k).

(** The order of two times, the zero time being before every reading. *)
Definition notAfter (t u : Time) : Prop :=
  match t, u with
  | zeroTime, _ => True
  | at_ns _, zeroTime => False
  | at_ns a, at_ns b => a <= b
  end.

(** The kinds of gesture. *)
Definition isSwipeKind (g : gestureType) : bool :=
  match g with
  | SWIPE_UP | SWIPE_DOWN | SWIPE_LEFT | SWIPE_RIGHT => true
  | _ => false
  end.
Definition isRadialKind (g : gestureType) : bool :=
  match g with
  | PINCH | SPREAD => true
  | _ => false
  end.

(** The field of a collection for a kind of gesture and a number of fingers;
    the empty string where the collection has no such field. *)
Definition actionField (g : gestureType) (n : Z) (a : ActionCollection)
  : string :=
  let pick (c2 c3 c4 c5 : string) :=
    if n =? 2 then c2 else if n =? 3 then c3 else if n =? 4 then c4
    else if n =? 5 then c5 else "" in
  match g with
  | SWIPE_UP => pick (Swipe2Up a) (Swipe3Up a) (Swipe4Up a) (Swipe5Up a)
  | SWIPE_DOWN =>
      pick (Swipe2Down a) (Swipe3Down a) (Swipe4Down a) (Swipe5Down a)
  | SWIPE_LEFT =>
      pick (Swipe2Left a) (Swipe3Left a) (Swipe4Left a) (Swipe5Left a)
  | SWIPE_RIGHT =>
      pick (Swipe2Right a) (Swipe3Right a) (Swipe4Right a) (Swipe5Right a)
  | PINCH => pick (Pinch2 a) (Pinch3 a) (Pinch4 a) (Pinch5 a)
  | SPREAD => pick (Spread2 a) (Spread3 a) (Spread4 a) (Spread5 a)
  | UNKNOWN => ""
  end.

(** The text of the command of a collection for a gesture. *)
Definition commandText (gest : Gesture) (a : ActionCollection) : string :=
  actionField (GestureType gest) (FingerCount gest) a.

(** A collection has an action for some gesture of [n] fingers. *)
Definition hasActionFor (n : Z) (a : ActionCollection) : Prop :=
  exists g, actionField g n a <> "".

(** The kinds of gesture that a collection has fields for, in the order in
    which the fields of one number of fingers are declared. *)
Definition fieldKinds : list gestureType :=
  [SWIPE_LEFT; SWIPE_RIGHT; SWIPE_UP; SWIPE_DOWN; PINCH; SPREAD].

Definition hasActionForb (n : Z) (a : ActionCollection) : bool :=
  existsb (fun g => negb (len (actionField g n a) =? 0)) fieldKinds.

(** The name of a field mentions the numeral of [n], one of 1 to 5. *)
Definition mentions (name : string) (n : Z) : bool :=
  existsb (fun j => (j =? n) && negb (strings_Index name (Itoa j) =? -1))
    [1; 2; 3; 4; 5].


(** A collection yields no command for a gesture: the text is empty, or the
    parser refuses it. *)
Definition yieldsNothing (Parse : string -> option (list string))
    (gest : Gesture) (a : ActionCollection) : Prop :=
  commandText gest a = "" \/ Parse (commandText gest a) = None.


(** The two fields carry the same information. *)
Definition suspendMatchesLast (h : EventHandler) : Prop :=
  suspend h = true <-> lastGesture h <> UNKNOWN.

(** The number of active fingers of an array of fingers. *)
Definition countActive (v : vec Finger 5) : Z :=
  Z.of_nat (length (List.filter IsActive (vec_to_list v))).

(** The state in which the count of the fingers is right. *)
Definition countsFingers (h : EventHandler) : Prop :=
  slotInRange h = true /\ fingerCount h = activeCount h.

(** A finger has a position and has moved past the threshold of a swipe, in
    the direction [g]. *)
Definition swipedTo (Atan : float -> float) (g : gestureType) (f : Finger)
  : Prop :=
  hasPosition f = true /\ DIST_SWIPE < getDistance f
  /\ getDirection Atan f = g.

(** A finger that has not moved past the threshold of a swipe. *)
Definition notYetSwiped (f : Finger) : Prop :=
  hasPosition f = false \/ getDistance f <= DIST_SWIPE.

(** The activation time of every finger is not after the time of the timer. *)
Definition timesOrdered (h : EventHandler) : Prop :=
  forall i : fin 5, notAfter (ActivationTime (fingers h !!! i)) (checkTimer h).

(** A clock that does not go back. *)
Definition monotone (c : nat -> Z) : Prop :=
  forall a b : nat, (a <= b)%nat -> c a <= c b.

(** * Properties *)

(** ** Machine integers *)

Lemma wrap64_id z : int64 z -> wrap64 z = z.
Proof.
  unfold int64, wrap64. intros H.
  rewrite Z.mod_small; lia.
Qed.

Lemma int32_sub64 a b : int32 a -> int32 b -> sub64 a b = a - b.
Proof.
  unfold int32, sub64. intros Ha Hb. apply wrap64_id. unfold int64. lia.
Qed.

Lemma int32_neg_sub64 a b :
  int32 a -> int32 b -> neg64 (sub64 a b) = b - a.
Proof.
  intros Ha Hb. rewrite int32_sub64 by done.
  unfold neg64. rewrite wrap64_id; [lia|]. unfold int32, int64 in *. lia.
Qed.

(** ** The finger tracker *)

Section FingerProperties.

Variable Atan : float -> float.
Variable clock : nat -> Z.

Lemma reset_eq (f : Finger) (k : nat) :
  reset clock f k =
    Done (tt, set_HasPositionY false (set_HasPositionX false
                (set_ActivationTime (at_ns (clock k)) f)), S k).
Proof. reflexivity. Qed.

Lemma activate_eq (f : Finger) (k : nat) :
  activate clock f k =
    Done (tt, set_HasPositionY false (set_HasPositionX false
                (set_ActivationTime (at_ns (clock k)) (set_IsActive true f))),
          S k).
Proof. reflexivity. Qed.

(** *** Latching of the first position *)

Lemma setPositionX_fields x f :
  FirstX (setPositionX x f) = (if HasPositionX f then FirstX f else x)
  /\ LastX (setPositionX x f) = x
  /\ HasPositionX (setPositionX x f) = true
  /\ FirstY (setPositionX x f) = FirstY f
  /\ LastY (setPositionX x f) = LastY f
  /\ HasPositionY (setPositionX x f) = HasPositionY f
  /\ IsActive (setPositionX x f) = IsActive f
  /\ ActivationTime (setPositionX x f) = ActivationTime f.
Proof. unfold setPositionX. destruct f as [? ? ? ? [] ? ? ?]; cbn; tauto. Qed.

Lemma setPositionY_fields y f :
  FirstY (setPositionY y f) = (if HasPositionY f then FirstY f else y)
  /\ LastY (setPositionY y f) = y
  /\ HasPositionY (setPositionY y f) = true
  /\ FirstX (setPositionY y f) = FirstX f
  /\ LastX (setPositionY y f) = LastX f
  /\ HasPositionX (setPositionY y f) = HasPositionX f
  /\ IsActive (setPositionY y f) = IsActive f
  /\ ActivationTime (setPositionY y f) = ActivationTime f.
Proof. unfold setPositionY. destruct f as [? ? ? ? ? [] ? ?]; cbn; tauto. Qed.

(** What a sequence of calls leaves in the x fields: the first position is
    the one already latched, or else the argument of the first call. *)
Lemma applyCalls_x calls : forall f,
  FirstX (applyCalls calls f)
    = (if HasPositionX f then FirstX f else default (FirstX f) (head (xValues calls)))
  /\ LastX (applyCalls calls f) = default (LastX f) (last (xValues calls))
  /\ HasPositionX (applyCalls calls f)
    = HasPositionX f || bool_decide (xValues calls <> []).
Proof.
  induction calls as [|c calls IH]; intros f.
  - cbn. destruct (HasPositionX f); done.
  - unfold applyCalls in *. cbn [fold_left]. destruct (IH (applyCall f c)) as (H1 & H2 & H3).
    rewrite H1, H2, H3. clear IH H1 H2 H3.
    destruct c as [x|y]; cbn [applyCall xValues omap].
    + destruct (setPositionX_fields x f) as (E1 & E2 & E3 & _).
      rewrite E1, E2, E3.
      change (xValues (SetX x :: calls)) with (x :: xValues calls).
      split; [|split].
      * destruct (HasPositionX f); done.
      * destruct (xValues calls) as [|v vs]; [done|]. cbn.
        destruct (last (v :: vs)) eqn:El; [done|]. by apply last_None in El.
      * destruct (HasPositionX f); done.
    + destruct (setPositionY_fields y f) as (_ & _ & _ & E1 & E2 & E3 & _).
      rewrite E1, E2, E3. done.
Qed.

Lemma applyCalls_y calls : forall f,
  FirstY (applyCalls calls f)
    = (if HasPositionY f then FirstY f else default (FirstY f) (head (yValues calls)))
  /\ LastY (applyCalls calls f) = default (LastY f) (last (yValues calls))
  /\ HasPositionY (applyCalls calls f)
    = HasPositionY f || bool_decide (yValues calls <> []).
Proof.
  induction calls as [|c calls IH]; intros f.
  - cbn. destruct (HasPositionY f); done.
  - unfold applyCalls in *. cbn [fold_left]. destruct (IH (applyCall f c)) as (H1 & H2 & H3).
    rewrite H1, H2, H3. clear IH H1 H2 H3.
    destruct c as [x|y]; cbn [applyCall yValues omap].
    + destruct (setPositionX_fields x f) as (_ & _ & _ & E1 & E2 & E3 & _).
      rewrite E1, E2, E3. done.
    + destruct (setPositionY_fields y f) as (E1 & E2 & E3 & _).
      rewrite E1, E2, E3.
      change (yValues (SetY y :: calls)) with (y :: yValues calls).
      split; [|split].
      * destruct (HasPositionY f); done.
      * destruct (yValues calls) as [|v vs]; [done|]. cbn.
        destruct (last (v :: vs)) eqn:El; [done|]. by apply last_None in El.
      * destruct (HasPositionY f); done.
Qed.


(** C8: after a reset, the first call of [setPositionX] (of [setPositionY])
    latches its value into [FirstX] ([FirstY]) and sets the has-flag, no
    later call changes it, and every call overwrites [LastX] ([LastY]):
    whatever the sequence of calls, the first position is the argument of
    the first call for that axis, the last position the argument of the last
    one, and the flag says whether there was a call. *)
Theorem C8_first_position_latched (f : Finger) (k : nat)
    (calls : list positionCall) :
  exists f0,
    reset clock f k = Done (tt, f0, S k)
    /\ FirstX (applyCalls calls f0) = default (FirstX f) (head (xValues calls))
    /\ LastX (applyCalls calls f0) = default (LastX f) (last (xValues calls))
    /\ HasPositionX (applyCalls calls f0) = bool_decide (xValues calls <> [])
    /\ FirstY (applyCalls calls f0) = default (FirstY f) (head (yValues calls))
    /\ LastY (applyCalls calls f0) = default (LastY f) (last (yValues calls))
    /\ HasPositionY (applyCalls calls f0) = bool_decide (yValues calls <> []).
Proof.
  eexists. split; [apply reset_eq|].
  set (f0 := set_HasPositionY _ _).
  destruct (applyCalls_x calls f0) as (X1 & X2 & X3).
  destruct (applyCalls_y calls f0) as (Y1 & Y2 & Y3).
  rewrite X1, X2, X3, Y1, Y2, Y3. subst f0. destruct f; cbn. tauto.
Qed.

(** Once a position is latched, no call changes it. *)
Lemma first_position_kept (calls : list positionCall) (f : Finger) :
  (HasPositionX f = true -> FirstX (applyCalls calls f) = FirstX f)
  /\ (HasPositionY f = true -> FirstY (applyCalls calls f) = FirstY f).
Proof.
  destruct (applyCalls_x calls f) as (X1 & _).
  destruct (applyCalls_y calls f) as (Y1 & _).
  split; intros H; rewrite H in *; done.
Qed.

(** *** hasSwiped *)

(** C6: [hasSwiped(T)] is false for a finger without a latched position
    (the clock is not even read); with a position it is false while less
    than 50 ms have elapsed since [ActivationTime], whatever the distance;
    otherwise it is true exactly when [getDistance()] is strictly greater
    than [T]. *)
Theorem C6_hasSwiped (T : Z) (f : Finger) (k : nat) :
  (hasPosition f = false -> hasSwiped clock T f k = Done (false, f, k))
  /\ (hasPosition f = true ->
      elapsed (clock k) (ActivationTime f) < 50 * Millisecond ->
      hasSwiped clock T f k = Done (false, f, S k))
  /\ (hasPosition f = true ->
      50 * Millisecond <= elapsed (clock k) (ActivationTime f) ->
      hasSwiped clock T f k = Done (bool_decide (T < getDistance f), f, S k)).
Proof.
  unfold hasSwiped, bind, get, timeSince, ret, CHECK_DELAY.
  split; [|split]; intros Hpos; rewrite Hpos; cbn [negb]; [done| |]; intros Ht.
  - destruct (Z.ltb_spec (elapsed (clock k) (ActivationTime f)) (50 * Millisecond));
      [done|lia].
  - destruct (Z.ltb_spec (elapsed (clock k) (ActivationTime f)) (50 * Millisecond));
      [lia|].
    do 3 f_equal. destruct (Z.ltb_spec T (getDistance f)).
    + by rewrite bool_decide_eq_true_2.
    + rewrite bool_decide_eq_false_2; [done|lia].
Qed.

(** *** Angle and direction *)

Lemma directionOfAngle_buckets (a : Z) :
  (45 <= a <= 135 -> directionOfAngle a = SWIPE_UP)
  /\ (135 < a <= 225 -> directionOfAngle a = SWIPE_LEFT)
  /\ (225 < a <= 315 -> directionOfAngle a = SWIPE_DOWN)
  /\ (a < 45 \/ 315 < a -> directionOfAngle a = SWIPE_RIGHT).
Proof.
  unfold directionOfAngle.
  destruct (Z.leb_spec 45 a), (Z.leb_spec a 135), (Z.leb_spec 135 a),
    (Z.leb_spec a 225), (Z.leb_spec 225 a), (Z.leb_spec a 315),
    (Z.leb_spec 315 a), (Z.leb_spec a 45); cbn;
    (split; [|split; [|split]]); intros; first [done | lia].
Qed.

(** The [default] case of the [switch] cannot be reached. *)
Lemma directionOfAngle_known (a : Z) : directionOfAngle a <> UNKNOWN.
Proof.
  destruct (directionOfAngle_buckets a) as (H1 & H2 & H3 & H4).
  destruct (Z.le_gt_cases 45 a) as [L|L];
    [destruct (Z.le_gt_cases a 135); [rewrite H1 by lia; done|]|rewrite H4 by lia; done].
  destruct (Z.le_gt_cases a 225); [rewrite H2 by lia; done|].
  destruct (Z.le_gt_cases a 315); [rewrite H3 by lia; done|rewrite H4 by lia; done].
Qed.

Lemma getDirection_known (f : Finger) : getDirection Atan f <> UNKNOWN.
Proof. apply directionOfAngle_known. Qed.

Lemma Atan2_axes (d : Z) :
  (0 <= d -> Atan2 Atan 0 d = 0%float)
  /\ (d < 0 -> Atan2 Atan 0 d = Pi)
  /\ (0 < d -> Atan2 Atan d 0 = Pi_2)
  /\ (d < 0 -> Atan2 Atan d 0 = (- Pi_2)%float).
Proof.
  unfold Atan2. cbn [Z.eqb].
  repeat split; intros H.
  - by destruct (Z.leb_spec 0 d); [|lia].
  - by destruct (Z.leb_spec 0 d); [lia|].
  - destruct (Z.eqb_spec d 0); [lia|]. by destruct (Z.ltb_spec 0 d); [|lia].
  - destruct (Z.eqb_spec d 0); [lia|]. by destruct (Z.ltb_spec 0 d); [lia|].
Qed.

(** The angle of a movement along an axis: 0 to the right, 180 to the left,
    90 up the screen (y decreasing), 270 down. *)
Lemma getAngle_axes (f : Finger) :
  hasPosition f = true ->
  int32 (FirstX f) -> int32 (FirstY f) -> int32 (LastX f) -> int32 (LastY f) ->
  (LastX f - FirstX f > 0 -> LastY f - FirstY f = 0 -> getAngle Atan f = 0)
  /\ (LastX f - FirstX f < 0 -> LastY f - FirstY f = 0 -> getAngle Atan f = 180)
  /\ (LastY f < FirstY f -> LastX f - FirstX f = 0 -> getAngle Atan f = 90)
  /\ (LastY f > FirstY f -> LastX f - FirstX f = 0 -> getAngle Atan f = 270).
Proof.
  intros Hpos H1 H2 H3 H4. unfold getAngle. rewrite Hpos. cbn [negb].
  rewrite int32_neg_sub64, int32_sub64 by done.
  repeat split; intros Ha Hb.
  - replace (FirstY f - LastY f) with 0 by lia.
    destruct (Atan2_axes (LastX f - FirstX f)) as (E & _).
    rewrite E by lia. reflexivity.
  - replace (FirstY f - LastY f) with 0 by lia.
    destruct (Atan2_axes (LastX f - FirstX f)) as (_ & E & _).
    rewrite E by lia. reflexivity.
  - rewrite Hb.
    destruct (Atan2_axes (FirstY f - LastY f)) as (_ & _ & E & _).
    rewrite E by lia. reflexivity.
  - rewrite Hb.
    destruct (Atan2_axes (FirstY f - LastY f)) as (_ & _ & _ & E).
    rewrite E by lia. reflexivity.
Qed.

(** C7: for a finger with a latched position (its coordinates being the
    32-bit values events carry), a movement with positive x delta and no
    y delta has direction Right, with negative x delta Left; a pure movement
    up the screen ([LastY < FirstY]) has direction Up and down the screen
    Down; and in general the direction is that of the bucket of [getAngle()]:
    [45,135] Up, then (135,225] Left, then (225,315] Down, the rest Right, so
    that at 45, 135, 225 and 315 the first range that matches wins. *)
Theorem C7_direction (f : Finger) :
  hasPosition f = true ->
  int32 (FirstX f) -> int32 (FirstY f) -> int32 (LastX f) -> int32 (LastY f) ->
  (LastX f - FirstX f > 0 -> LastY f - FirstY f = 0 ->
   getDirection Atan f = SWIPE_RIGHT)
  /\ (LastX f - FirstX f < 0 -> LastY f - FirstY f = 0 ->
      getDirection Atan f = SWIPE_LEFT)
  /\ (LastY f < FirstY f -> LastX f - FirstX f = 0 ->
      getDirection Atan f = SWIPE_UP)
  /\ (LastY f > FirstY f -> LastX f - FirstX f = 0 ->
      getDirection Atan f = SWIPE_DOWN)
  /\ (45 <= getAngle Atan f <= 135 -> getDirection Atan f = SWIPE_UP)
  /\ (135 < getAngle Atan f <= 225 -> getDirection Atan f = SWIPE_LEFT)
  /\ (225 < getAngle Atan f <= 315 -> getDirection Atan f = SWIPE_DOWN)
  /\ (getAngle Atan f < 45 \/ 315 < getAngle Atan f ->
      getDirection Atan f = SWIPE_RIGHT).
Proof.
  intros Hpos H1 H2 H3 H4.
  destruct (getAngle_axes f Hpos H1 H2 H3 H4) as (A1 & A2 & A3 & A4).
  unfold getDirection.
  destruct (directionOfAngle_buckets (getAngle Atan f)) as (B1 & B2 & B3 & B4).
  repeat split; try assumption; intros Ha Hb.
  - by rewrite A1.
  - by rewrite A2.
  - by rewrite A3.
  - by rewrite A4.
Qed.

(** *** Circumference *)

(** C9: the circumference of two points is the distance between them, as
    [calculateDistance] truncates it (5 for a 3-4-5 triangle's hypotenuse,
    not the 10 of going there and back), and the circumference of the four
    corners of the square of side 10 is 40. *)
Theorem C9_circumference (x0 y0 x1 y1 : Z) :
  calculateCircumference [(x0, y0); (x1, y1)]
    = Done (calculateDistance x0 y0 x1 y1)
  /\ calculateCircumference [(0, 0); (3, 4)] = Done 5
  /\ calculateCircumference [(0, 0); (0, 10); (10, 10); (10, 0)] = Done 40.
Proof. repeat split; reflexivity. Qed.

End FingerProperties.

(** ** The event handler *)

Section HandlerProperties.

Variable Atan : float -> float.
Variable clock : nat -> Z.

Lemma sameControl_refl h : sameControl h h.
Proof. by unfold sameControl. Qed.

Lemma set_fingers_id h : set_fingers (fingers h) h = h.
Proof. by destruct h. Qed.

Lemma resetFingers_eq h k :
  resetFingers clock h k = Done (tt, resetAll clock k h, (6 + k)%nat).
Proof.
  destruct h as [v ? ? ? ? ? ? ?]. inv_vec v; intros f0 f1 f2 f3 f4.
  reflexivity.
Qed.

Lemma resetAll_fingers k h i :
  fingers (resetAll clock k h) !!! i
    = resetFinger (at_ns (clock (fin_to_nat i + k)%nat)) (fingers h !!! i).
Proof.
  unfold resetAll, set_checkTimer, set_fingers. cbn [fingers].
  by rewrite lookup_fun_to_vec.
Qed.

Lemma resetAll_control k h : sameControl h (resetAll clock k h).
Proof. by unfold sameControl. Qed.

Lemma resetAll_active k h i :
  IsActive (fingers (resetAll clock k h) !!! i) = IsActive (fingers h !!! i).
Proof. by rewrite resetAll_fingers. Qed.

Lemma hasSwiped_eq T f k :
  hasSwiped clock T f k
    = Done (fst (swipedAt clock T f k), f, snd (swipedAt clock T f k)).
Proof.
  unfold hasSwiped, swipedAt, bind, get, timeSince, ret.
  destruct (hasPosition f); [|done]. cbn [negb].
  change (CHECK_DELAY * Millisecond) with (50 * Millisecond).
  by destruct (elapsed (clock k) (ActivationTime f) <? 50 * Millisecond).
Qed.

(** Asking a finger whether it has swiped leaves the handler as it is. *)
Lemma atSlot_hasSwiped T i h k :
  atSlot i (hasSwiped clock T) h k
    = Done (fst (swipedAt clock T (fingers h !!! i) k), h,
            snd (swipedAt clock T (fingers h !!! i) k)).
Proof.
  unfold atSlot. rewrite hasSwiped_eq.
  by rewrite vlookup_insert_self, set_fingers_id.
Qed.

Lemma swipedAt_readings T f k :
  snd (swipedAt clock T f k) = k \/ snd (swipedAt clock T f k) = S k.
Proof. unfold swipedAt. destruct (hasPosition f); auto. Qed.

(** One turn of the loop of [detectGesture]. *)
Lemma swipeLoop_cons i rest timeDiff isSwipe g h k :
  swipeLoop Atan clock (i :: rest) timeDiff isSwipe g h k =
    let fing := fingers h !!! i in
    let k' := snd (swipedAt clock DIST_SWIPE fing k) in
    if negb (IsActive fing) then
      swipeLoop Atan clock rest timeDiff isSwipe g h k
    else if fst (swipedAt clock DIST_SWIPE fing k) then
      if bool_decide (i = 0%fin) then
        swipeLoop Atan clock rest timeDiff true (getDirection Atan fing) h k'
      else if bool_decide (getDirection Atan fing <> g) then
        Done (Some (false, g), h, k')
      else swipeLoop Atan clock rest timeDiff true g h k'
    else if 220 * Millisecond <? timeDiff then
      Done (None, resetAll clock k' h, (6 + k')%nat)
    else Done (None, h, k').
Proof.
  cbn [swipeLoop]. unfold bind at 1. unfold gets at 1. cbn zeta.
  destruct (IsActive (fingers h !!! i)); [|done]. cbn [negb].
  unfold bind at 1. rewrite atSlot_hasSwiped.
  destruct (fst (swipedAt clock DIST_SWIPE (fingers h !!! i) k)).
  - repeat case_bool_decide; done.
  - unfold bind at 1.
    destruct (220 * Millisecond <? timeDiff); [|done].
    by rewrite resetFingers_eq.
Qed.

(** The loop never panics, and it changes the handler only when it returns
    after a reset of the fingers. *)
Lemma swipeLoop_result slots : forall timeDiff isSwipe g h k,
  exists r h' k',
    swipeLoop Atan clock slots timeDiff isSwipe g h k = Done (r, h', k')
    /\ (is_Some r -> h' = h)
    /\ (h' = h \/ exists k0, h' = resetAll clock k0 h).
Proof.
  induction slots as [|i rest IH]; intros timeDiff isSwipe g h k.
  - eexists _, _, _. split; [reflexivity|]. auto.
  - rewrite swipeLoop_cons. cbn zeta.
    destruct (negb (IsActive (fingers h !!! i))); [apply IH|].
    destruct (fst (swipedAt clock DIST_SWIPE (fingers h !!! i) k)).
    + destruct (bool_decide (i = 0%fin)); [apply IH|].
      destruct (bool_decide (getDirection Atan (fingers h !!! i) <> g));
        [|apply IH].
      eexists _, _, _. split; [reflexivity|]. auto.
    + destruct (220 * Millisecond <? timeDiff);
        eexists _, _, _; (split; [reflexivity|]);
        (split; [by intros [? [=]] | eauto]).
Qed.

(** One turn of the loop of [calculateGesture]. *)
Lemma collectPositions_cons i rest starts ends h k :
  collectPositions clock (i :: rest) starts ends h k =
    let fing := fingers h !!! i in
    if negb (IsActive fing) then collectPositions clock rest starts ends h k
    else if fst (swipedAt clock DIST_OTHER fing k) then
      collectPositions clock rest (starts ++ [firstPosition fing])
        (ends ++ [lastPosition fing]) h
        (snd (swipedAt clock DIST_OTHER fing k))
    else Done (None, h, snd (swipedAt clock DIST_OTHER fing k)).
Proof.
  cbn [collectPositions]. unfold bind at 1. unfold gets at 1. cbn zeta.
  destruct (IsActive (fingers h !!! i)); [|done]. cbn [negb].
  unfold bind at 1. rewrite atSlot_hasSwiped.
  by destruct (fst (swipedAt clock DIST_OTHER (fingers h !!! i) k)).
Qed.

(** The loop never panics and leaves the handler as it is; the positions it
    collects are those of the active fingers, in the order of the slots. *)
Lemma collectPositions_result slots : forall starts ends h k,
  exists r k',
    collectPositions clock slots starts ends h k = Done (r, h, k')
    /\ (k <= k')%nat
    /\ forall starts' ends', r = Some (starts', ends') ->
         let active := List.filter IsActive (map (fun i => fingers h !!! i) slots) in
         starts' = starts ++ map firstPosition active
         /\ ends' = ends ++ map lastPosition active.
Proof.
  induction slots as [|i rest IH]; intros starts ends h k.
  - eexists _, _. split; [reflexivity|]. split; [done|].
    intros ? ? [= <- <-]. cbn. by rewrite !app_nil_r.
  - rewrite collectPositions_cons. cbn zeta. cbn [map List.filter].
    destruct (IsActive (fingers h !!! i)); cbn [negb]; [|apply IH].
    pose proof (swipedAt_readings DIST_OTHER (fingers h !!! i) k) as Hk.
    destruct (fst (swipedAt clock DIST_OTHER (fingers h !!! i) k)).
    + destruct (IH (starts ++ [firstPosition (fingers h !!! i)])
                  (ends ++ [lastPosition (fingers h !!! i)]) h
                  (snd (swipedAt clock DIST_OTHER (fingers h !!! i) k)))
        as (r & k' & E & Hle & Hr).
      exists r, k'. split; [done|]. split; [lia|].
      intros s' e' ->. destruct (Hr s' e' eq_refl) as [-> ->].
      cbn [map]. by rewrite <- !app_assoc.
    + eexists _, _. split; [reflexivity|]. split; [lia|]. done.
Qed.

Lemma allSlots_fingers h :
  map (fun i => fingers h !!! i) allSlots = vec_to_list (fingers h).
Proof.
  destruct h as [v ? ? ? ? ? ? ?]. cbn [fingers].
  inv_vec v; intros f0 f1 f2 f3 f4. reflexivity.
Qed.

Lemma calculateCircumference_Done points :
  points <> [] -> exists c, calculateCircumference points = Done c.
Proof.
  intros H. unfold calculateCircumference.
  destruct points as [|pa [|pb [|pc rest]]]; [done| | |].
  - cbn. eauto.
  - cbn. eauto.
  - destruct (Z.of_nat (length (pa :: pb :: pc :: rest)) =? 2) eqn:E.
    + apply Z.eqb_eq in E. cbn [length] in E. lia.
    + cbn [lookup list_lookup].
      destruct (circumferenceLoop (pa :: pb :: pc :: rest) 0 pa). eauto.
Qed.

(** [calculateGesture] in terms of its loop. *)
Lemma calculateGesture_eq h k :
  calculateGesture clock h k =
    match collectPositions clock allSlots [] [] h k with
    | Done (None, h', k') => Done (UNKNOWN, h', k')
    | Done (Some (starts, ends), h', k') =>
        match calculateCircumference starts, calculateCircumference ends with
        | Done start, Done end_ =>
            Done (if end_ <? start then PINCH else SPREAD, h', k')
        | _, _ => Panic
        end
    | Panic => Panic
    end.
Proof.
  unfold calculateGesture. unfold bind at 1.
  destruct (collectPositions clock allSlots [] [] h k) as [[[[[s e]|] h'] k']|];
    [|done|done].
  unfold bind, liftOutcome, ret, panic.
  destruct (calculateCircumference s); [|done].
  destruct (calculateCircumference e); [|done].
  by destruct (_ <? _).
Qed.

Lemma report_eq g h k :
  report g h k
    = Done (tt, if bool_decide (lastGesture h <> g) then reported g h else h, k).
Proof.
  unfold report, bind, get. by destruct (bool_decide (lastGesture h <> g)).
Qed.

(** [detectGesture] in terms of its loop. *)
Lemma detectGesture_eq h k :
  detectGesture Atan clock h k =
    let timeDiff := elapsed (clock k) (checkTimer h) in
    if detectionSkipped h timeDiff then Done (tt, h, S k)
    else
      match swipeLoop Atan clock allSlots timeDiff false UNKNOWN h (S k) with
      | Done (None, h', k') => Done (tt, h', k')
      | Done (Some (isSwipe, gesture), h', k') => afterLoop clock isSwipe gesture h' k'
      | Panic => Panic
      end.
Proof.
  unfold detectGesture, detectionSkipped. unfold bind at 1. unfold get at 1.
  unfold bind at 1. unfold timeSince at 1. cbn zeta.
  change (CHECK_DELAY * Millisecond) with (50 * Millisecond).
  destruct (_ || _ || _); [done|].
  unfold bind at 1.
  destruct (swipeLoop _ _ _ _ _ _ _ _) as [[[[[isSwipe g]|] h'] k']|]; done.
Qed.

Lemma afterLoop_swipe g h k :
  afterLoop clock true g h k =
    Done (tt,
          resetAll clock k
            (if bool_decide (lastGesture h <> g) then reported g h else h),
          (6 + k)%nat).
Proof.
  unfold afterLoop. unfold bind at 1. rewrite report_eq.
  by rewrite resetFingers_eq.
Qed.

Lemma afterLoop_other g0 h k :
  afterLoop clock false g0 h k =
    match calculateGesture clock h k with
    | Done (g, h', k') =>
        Done (tt,
              resetAll clock k'
                (if bool_decide (g <> UNKNOWN) && bool_decide (lastGesture h' <> g)
                 then reported g h' else h'),
              (6 + k')%nat)
    | Panic => Panic
    end.
Proof.
  unfold afterLoop. unfold bind at 1. unfold bind at 1.
  destruct (calculateGesture clock h k) as [[[g h'] k']|]; [|done].
  destruct (bool_decide (g <> UNKNOWN)); cbn [andb].
  - rewrite report_eq. by rewrite resetFingers_eq.
  - unfold ret. by rewrite resetFingers_eq.
Qed.

(** [calculateGesture] leaves the handler as it is. *)
Lemma calculateGesture_state h k g h' k' :
  calculateGesture clock h k = Done (g, h', k') -> h' = h.
Proof.
  rewrite calculateGesture_eq.
  destruct (collectPositions_result allSlots [] [] h k) as (r & k1 & -> & _).
  destruct r as [[s e]|]; [|by intros [= _ <- _]].
  destruct (calculateCircumference s); [|done].
  destruct (calculateCircumference e); [|done].
  by intros [= _ <- _].
Qed.

(** *** The radial pass *)

(** C3, as the code has it: when the radial pass runs (the loop over the fingers ended
    without a swipe) and finds an active finger that has not moved past the
    500-unit threshold ([calculateGesture] returns [UNKNOWN]), the cycle
    sends no gesture and leaves the last gesture, the suspended flag, the
    finger count and the current slot as they were, but it resets every
    finger (both has-flags cleared, the activation time stamped anew) and
    stamps the timer anew. *)
Theorem C3_unknown_movement_resets (h h1 h2 : EventHandler) (k k1 k2 : nat)
    (g : gestureType) :
  detectionSkipped h (elapsed (clock k) (checkTimer h)) = false ->
  swipeLoop Atan clock allSlots (elapsed (clock k) (checkTimer h)) false
    UNKNOWN h (S k) = Done (Some (false, g), h1, k1) ->
  calculateGesture clock h1 k1 = Done (UNKNOWN, h2, k2) ->
  exists h',
    detectGesture Atan clock h k = Done (tt, h', (6 + k2)%nat)
    /\ Gestures h' = Gestures h
    /\ lastGesture h' = lastGesture h
    /\ suspend h' = suspend h
    /\ fingerCount h' = fingerCount h
    /\ currentSlot h' = currentSlot h
    /\ checkTimer h' = at_ns (clock (5 + k2)%nat)
    /\ forall i : fin 5,
         fingers h' !!! i
           = resetFinger (at_ns (clock (fin_to_nat i + k2)%nat)) (fingers h !!! i)
         /\ HasPositionX (fingers h' !!! i) = false
         /\ HasPositionY (fingers h' !!! i) = false.
Proof.
  intros Hskip Hloop Hcalc.
  destruct (swipeLoop_result allSlots (elapsed (clock k) (checkTimer h)) false
              UNKNOWN h (S k)) as (r & h1' & k1' & E & Hsome & _).
  rewrite Hloop in E. injection E as <- <- <-.
  rewrite Hsome in * by done. clear Hsome.
  apply calculateGesture_state in Hcalc as Hh2. subst h2.
  exists (resetAll clock k2 h).
  split.
  - rewrite detectGesture_eq. cbn zeta. rewrite Hskip, Hloop.
    rewrite afterLoop_other, Hcalc. done.
  - destruct (resetAll_control k2 h) as (? & ? & ? & ? & ? & ?).
    repeat (split; [done|]).
    intros i. by rewrite resetAll_fingers.
Qed.

Lemma movedPast_swipedAt T k f :
  movedPast clock T k f -> swipedAt clock T f k = (true, S k).
Proof.
  intros (Hpos & Hd & Ht). unfold swipedAt. rewrite Hpos.
  destruct (Z.ltb_spec (elapsed (clock k) (ActivationTime f)) (50 * Millisecond)).
  - specialize (Ht k). lia.
  - by destruct (Z.ltb_spec T (getDistance f)); [|lia].
Qed.

Lemma movedPast_later T k k' f :
  (k <= k')%nat -> movedPast clock T k f -> movedPast clock T k' f.
Proof.
  intros Hk (Hpos & Hd & Ht). repeat split; [done..|].
  intros n Hn. apply Ht. lia.
Qed.

Lemma collectPositions_complete slots : forall starts ends h k,
  let active := List.filter IsActive (map (fun i => fingers h !!! i) slots) in
  Forall (movedPast clock DIST_OTHER k) active ->
  exists k',
    collectPositions clock slots starts ends h k
      = Done (Some (starts ++ map firstPosition active,
                    ends ++ map lastPosition active), h, k').
Proof.
  induction slots as [|i rest IH]; intros starts ends h k active Hall.
  - eexists. cbn. by rewrite !app_nil_r.
  - rewrite collectPositions_cons. cbn zeta.
    subst active. cbn [map List.filter] in *.
    destruct (IsActive (fingers h !!! i)); cbn [negb]; [|by apply IH].
    apply Forall_cons in Hall as [Hi Hrest].
    rewrite (movedPast_swipedAt _ _ _ Hi). cbn [fst snd].
    destruct (IH (starts ++ [firstPosition (fingers h !!! i)])
                (ends ++ [lastPosition (fingers h !!! i)]) h (S k)) as (k' & E).
    { eapply Forall_impl; [exact Hrest|].
      intros f. apply movedPast_later. lia. }
    exists k'. rewrite E. cbn [map]. by rewrite <- !app_assoc.
Qed.

Lemma swipedAt_true T f k :
  fst (swipedAt clock T f k) = true ->
  hasPosition f = true
  /\ T < getDistance f
  /\ 50 * Millisecond <= elapsed (clock k) (ActivationTime f).
Proof.
  unfold swipedAt. destruct (hasPosition f); [|done]. cbn [fst].
  intros H. apply andb_true_iff in H as [Ht Hd].
  apply negb_true_iff, Z.ltb_ge in Ht. apply Z.ltb_lt in Hd. done.
Qed.

(** When the loop of [calculateGesture] runs to its end, every active finger
    has a position and has moved past the threshold. *)
Lemma collectPositions_moved slots : forall starts ends h k r h' k',
  collectPositions clock slots starts ends h k = Done (Some r, h', k') ->
  Forall (fun f => hasPosition f = true /\ DIST_OTHER < getDistance f)
    (List.filter IsActive (map (fun i => fingers h !!! i) slots)).
Proof.
  induction slots as [|i rest IH]; intros starts ends h k r h' k'.
  - intros _. constructor.
  - rewrite collectPositions_cons. cbn zeta. cbn [map List.filter].
    destruct (IsActive (fingers h !!! i)); cbn [negb]; [|by apply IH].
    destruct (fst (swipedAt clock DIST_OTHER (fingers h !!! i) k)) eqn:Hsw;
      [|done].
    intros H. constructor; [|by eapply IH].
    apply swipedAt_true in Hsw. tauto.
Qed.

(** C5: when every active finger has moved past the 500-unit threshold (and
    there is an active finger), the radial pass completes, and its result is
    Pinch if the circumference of the first positions of the active fingers
    is strictly greater than that of their last positions, Spread otherwise,
    the equal case included.  Conversely, whenever the pass yields a gesture,
    every active finger has moved past the threshold and the gesture is the
    one this comparison gives. *)
Theorem C5_pinch_or_spread (h : EventHandler) (k : nat) :
  (activeFingers h <> [] ->
   Forall (movedPast clock DIST_OTHER k) (activeFingers h) ->
   exists start end_ k',
     calculateCircumference (map firstPosition (activeFingers h)) = Done start
     /\ calculateCircumference (map lastPosition (activeFingers h)) = Done end_
     /\ calculateGesture clock h k
        = Done (if bool_decide (start > end_) then PINCH else SPREAD, h, k')
     /\ (start > end_ -> calculateGesture clock h k = Done (PINCH, h, k'))
     /\ (start <= end_ -> calculateGesture clock h k = Done (SPREAD, h, k')))
  /\ (forall g h' k',
        calculateGesture clock h k = Done (g, h', k') ->
        g <> UNKNOWN ->
        Forall (fun f => hasPosition f = true /\ DIST_OTHER < getDistance f)
          (activeFingers h)
        /\ exists start end_,
             calculateCircumference (map firstPosition (activeFingers h))
               = Done start
             /\ calculateCircumference (map lastPosition (activeFingers h))
                = Done end_
             /\ g = (if bool_decide (start > end_) then PINCH else SPREAD)).
Proof.
  unfold activeFingers. rewrite <- allSlots_fingers.
  set (active := List.filter IsActive (map (fun i => fingers h !!! i) allSlots)).
  assert (forall start end_ : Z,
            (if end_ <? start then PINCH else SPREAD)
            = (if bool_decide (start > end_) then PINCH else SPREAD)) as Hcmp.
  { intros start end_. destruct (Z.ltb_spec end_ start).
    - rewrite bool_decide_eq_true_2; [done|lia].
    - rewrite bool_decide_eq_false_2; [done|lia]. }
  split.
  - intros Hne Hall.
    destruct (collectPositions_complete allSlots [] [] h k Hall) as (k' & E).
    cbn [app] in E. fold active in E.
    destruct (calculateCircumference_Done (map firstPosition active))
      as (start & Es); [by destruct active|].
    destruct (calculateCircumference_Done (map lastPosition active))
      as (end_ & Ee); [by destruct active|].
    exists start, end_, k'.
    assert (calculateGesture clock h k
            = Done (if bool_decide (start > end_) then PINCH else SPREAD, h, k'))
      as Hg.
    { rewrite calculateGesture_eq, E, Es, Ee. by rewrite Hcmp. }
    repeat (split; [done|]). rewrite Hg. split; intros H.
    + rewrite bool_decide_eq_true_2; done.
    + rewrite bool_decide_eq_false_2; [done|lia].
  - intros g h' k'. rewrite calculateGesture_eq.
    destruct (collectPositions clock allSlots [] [] h k)
      as [[[[[starts ends]|] h1] k1]|] eqn:E; [| |done].
    + pose proof (collectPositions_moved _ _ _ _ _ _ _ _ E) as Hmoved.
      destruct (collectPositions_result allSlots [] [] h k)
        as (r & k2 & E2 & _ & Hr).
      rewrite E in E2. injection E2 as <- _ _.
      destruct (Hr starts ends eq_refl) as [-> ->]. cbn [app]. fold active.
      destruct (calculateCircumference (map firstPosition active))
        as [start|]; [|done].
      destruct (calculateCircumference (map lastPosition active))
        as [end_|]; [|done].
      intros [= <- _ _] _. split; [done|].
      exists start, end_. by rewrite Hcmp.
    + by intros [= <- _ _] Hg.
Qed.

(** *** Events *)

(** What the handler does with an event of each kind. *)
Lemma handleEvent_eq e h k :
  handleEvent Atan clock e h k =
    match classify e with
    | SlotSelect => Done (tt, set_currentSlot (Value e) h, k)
    | TrackingId =>
        match slotIndex (currentSlot h) with
        | Some j =>
            Done (tt, tracked clock e j h k,
                  ((if (Value e =? -1)%Z then 6 else 7) + k)%nat)
        | None => Panic
        end
    | PositionX =>
        match slotIndex (currentSlot h) with
        | Some j =>
            Done (tt,
                  set_fingers
                    (vinsert j (setPositionX (Value e) (fingers h !!! j))
                       (fingers h)) h, k)
        | None => Panic
        end
    | PositionY =>
        match slotIndex (currentSlot h) with
        | Some j =>
            Done (tt,
                  set_fingers
                    (vinsert j (setPositionY (Value e) (fingers h !!! j))
                       (fingers h)) h, k)
        | None => Panic
        end
    | SynReport =>
        if suspend h then Done (tt, h, k) else detectGesture Atan clock h k
    | Ignored => Done (tt, h, k)
    end.
Proof.
  unfold handleEvent, classify, handleSynEvent, handleAbsEvent.
  destruct (Type_ e =? EV_SYN).
  { unfold bind, get. destruct (Code e =? SYN_REPORT), (suspend h); done. }
  destruct (Type_ e =? EV_ABS); [|done].
  destruct (Code e =? ABS_MT_SLOT); [done|].
  destruct (Code e =? ABS_MT_TRACKING_ID).
  { unfold tracked. unfold bind at 1. unfold get at 1. cbn zeta.
    unfold bind at 1. unfold bind at 1. unfold atFinger.
    destruct (Value e =? -1).
    - unfold bind at 1. unfold modify at 1. cbn [currentSlot set_fingerCount].
      destruct (slotIndex (currentSlot h)) as [j|]; [|done].
      unfold atSlot, deactivate, modify. rewrite resetFingers_eq.
      by destruct (fingerCount h =? 0).
    - unfold bind at 1. unfold modify at 1. cbn [currentSlot set_fingerCount].
      destruct (slotIndex (currentSlot h)) as [j|]; [|done].
      unfold atSlot. rewrite activate_eq. unfold bind at 1.
      rewrite resetFingers_eq.
      by destruct (fingerCount h =? 0). }
  destruct (Code e =? ABS_MT_POSITION_X).
  { unfold bind, get, atFinger.
    by destruct (slotIndex (currentSlot h)) as [j|]. }
  destruct (Code e =? ABS_MT_POSITION_Y); [|done].
  unfold bind, get, atFinger.
  by destruct (slotIndex (currentSlot h)) as [j|].
Qed.

Lemma handleEvents_cons e rest h k :
  handleEvents Atan clock (e :: rest) h k =
    match handleEvent Atan clock e h k with
    | Done (_, h', k') => handleEvents Atan clock rest h' k'
    | Panic => Panic
    end.
Proof.
  unfold handleEvents. cbn [forEach]. unfold bind.
  by destruct (handleEvent Atan clock e h k) as [[[[] h'] k']|].
Qed.

Lemma tracked_control e j h k :
  currentSlot (tracked clock e j h k) = currentSlot h
  /\ Gestures (tracked clock e j h k) = Gestures h
  /\ configuredFingers (tracked clock e j h k) = configuredFingers h
  /\ (fingerCount h = 0 ->
      suspend (tracked clock e j h k) = false
      /\ lastGesture (tracked clock e j h k) = UNKNOWN)
  /\ (fingerCount h <> 0 ->
      suspend (tracked clock e j h k) = suspend h
      /\ lastGesture (tracked clock e j h k) = lastGesture h).
Proof.
  unfold tracked. cbn zeta.
  destruct (Z.eqb_spec (fingerCount h) 0), (Value e =? -1); cbn; done.
Qed.

(** When the loop of [detectGesture] ends with a swipe, the candidate is a
    direction. *)
Lemma swipeLoop_swipe_known slots : forall timeDiff isSwipe g h k g' h' k',
  (isSwipe = true -> g <> UNKNOWN) ->
  swipeLoop Atan clock slots timeDiff isSwipe g h k
    = Done (Some (true, g'), h', k') ->
  g' <> UNKNOWN.
Proof.
  induction slots as [|i rest IH]; intros timeDiff isSwipe g h k g' h' k' Hg.
  - intros [= -> <- _ _]. by apply Hg.
  - rewrite swipeLoop_cons. cbn zeta.
    destruct (negb (IsActive (fingers h !!! i))); [by apply IH|].
    destruct (fst (swipedAt clock DIST_SWIPE (fingers h !!! i) k)).
    + destruct (bool_decide (i = 0%fin)).
      { apply IH. intros _. apply getDirection_known. }
      case_bool_decide as Hdir; [done|].
      apply IH. intros _ Hu. rewrite Hu in Hdir.
      by apply getDirection_known in Hdir.
    + by destruct (220 * Millisecond <? timeDiff).
Qed.

(** What a detection cycle does to the fields other than the fingers and the
    timer: nothing, or else it sends one gesture, different from the last
    one, remembers it and suspends the detection. *)
Lemma detectGesture_effect h k h' k' :
  detectGesture Atan clock h k = Done (tt, h', k') ->
  currentSlot h' = currentSlot h
  /\ fingerCount h' = fingerCount h
  /\ configuredFingers h' = configuredFingers h
  /\ (sameControl h h'
      \/ exists g,
           g <> lastGesture h
           /\ Gestures h' = Gestures h ++ [mkGesture g (fingerCount h)]
           /\ lastGesture h' = g
           /\ suspend h' = true
           /\ g <> UNKNOWN
           /\ detectionSkipped h (elapsed (clock k) (checkTimer h)) = false).
Proof.
  rewrite detectGesture_eq. cbn zeta.
  destruct (detectionSkipped h _) eqn:Hskip.
  { intros [= <- _]. repeat (split; [done|]). left. apply sameControl_refl. }
  destruct (swipeLoop Atan clock allSlots (elapsed (clock k) (checkTimer h))
              false UNKNOWN h (S k)) as [[[r h1] k1]|] eqn:Eloop; [|done].
  destruct (swipeLoop_result allSlots (elapsed (clock k) (checkTimer h)) false
              UNKNOWN h (S k)) as (r' & h1' & k1' & E' & Hsome & Hh1).
  rewrite Eloop in E'. injection E' as <- <- <-.
  assert (forall g k2,
            g <> UNKNOWN ->
            Done (tt, resetAll clock k2
                        (if bool_decide (lastGesture h <> g)
                         then reported g h else h), (6 + k2)%nat)
              = Done (tt, h', k') ->
            currentSlot h' = currentSlot h
            /\ fingerCount h' = fingerCount h
            /\ configuredFingers h' = configuredFingers h
            /\ (sameControl h h'
                \/ exists g,
                     g <> lastGesture h
                     /\ Gestures h' = Gestures h ++ [mkGesture g (fingerCount h)]
                     /\ lastGesture h' = g
                     /\ suspend h' = true
                     /\ g <> UNKNOWN
                     /\ false = false)) as Hreport.
  { intros g k2 Hknown [= <- _]. case_bool_decide as Hg.
    - repeat (split; [done|]). right. exists g. by repeat split.
    - repeat (split; [done|]). left. by unfold sameControl. }
  destruct r as [[isSwipe g]|].
  - rewrite (Hsome ltac:(done)) in *. clear Hsome Hh1 h1.
    destruct isSwipe.
    + rewrite afterLoop_swipe. apply Hreport.
      eapply swipeLoop_swipe_known; [|exact Eloop]. done.
    + rewrite afterLoop_other.
      destruct (calculateGesture clock h k1) as [[[g' h2] k2]|] eqn:Ecalc;
        [|done].
      apply calculateGesture_state in Ecalc. subst h2.
      case_bool_decide as Hknown; cbn [andb].
      * by apply Hreport.
      * intros [= <- _]. repeat (split; [done|]). left. by unfold sameControl.
  - intros [= <- _]. destruct Hh1 as [->|[k0 ->]].
    + repeat (split; [done|]). left. apply sameControl_refl.
    + repeat (split; [done|]). left. by unfold sameControl.
Qed.

Lemma handleEvent_currentSlot e h k h' k' :
  classify e <> SlotSelect ->
  handleEvent Atan clock e h k = Done (tt, h', k') ->
  currentSlot h' = currentSlot h.
Proof.
  intros Hkind. rewrite handleEvent_eq.
  destruct (classify e); [done|..].
  - destruct (slotIndex (currentSlot h)) as [j|]; [|done].
    intros [= <- _]. apply tracked_control.
  - destruct (slotIndex (currentSlot h)) as [j|]; [|done]. by intros [= <- _].
  - destruct (slotIndex (currentSlot h)) as [j|]; [|done]. by intros [= <- _].
  - destruct (suspend h); [by intros [= <- _]|].
    intros H. by apply detectGesture_effect in H as (? & _).
  - by intros [= <- _].
Qed.

Lemma handleEvents_currentSlot events : forall h k h' k',
  Forall (fun e => classify e <> SlotSelect) events ->
  handleEvents Atan clock events h k = Done (tt, h', k') ->
  currentSlot h' = currentSlot h.
Proof.
  induction events as [|e rest IH]; intros h k h' k' Hall.
  - by intros [= <- _].
  - apply Forall_cons in Hall as [He Hrest]. rewrite handleEvents_cons.
    destruct (handleEvent Atan clock e h k) as [[[[] h1] k1]|] eqn:E; [|done].
    intros H. apply IH in H; [|done].
    rewrite H. by eapply handleEvent_currentSlot.
Qed.

(** An event sends at most one gesture, and sending suspends. *)
Lemma handleEvent_sent e h k h' k' :
  handleEvent Atan clock e h k = Done (tt, h', k') ->
  Gestures h' = Gestures h
  \/ exists g,
       Gestures h' = Gestures h ++ [g]
       /\ suspend h' = true
       /\ lastGesture h' = GestureType g.
Proof.
  rewrite handleEvent_eq.
  destruct (classify e).
  - intros [= <- _]. by left.
  - destruct (slotIndex (currentSlot h)) as [j|]; [|done].
    intros [= <- _]. left. apply tracked_control.
  - destruct (slotIndex (currentSlot h)) as [j|]; [|done].
    intros [= <- _]. by left.
  - destruct (slotIndex (currentSlot h)) as [j|]; [|done].
    intros [= <- _]. by left.
  - destruct (suspend h); [intros [= <- _]; by left|].
    intros H. apply detectGesture_effect in H as (_ & _ & _ & [Hc|(g & Hg)]).
    + left. apply Hc.
    + right. exists (mkGesture g (fingerCount h)).
      destruct Hg as (_ & ? & ? & ? & _). done.
  - intros [= <- _]. by left.
Qed.

(** While suspended, an event that does not start a new epoch sends nothing
    and leaves the handler suspended. *)
Lemma handleEvent_suspended e h k h' k' :
  suspend h = true ->
  retouch h e = false ->
  handleEvent Atan clock e h k = Done (tt, h', k') ->
  suspend h' = true /\ Gestures h' = Gestures h.
Proof.
  intros Hs Hr. rewrite handleEvent_eq. unfold retouch in Hr.
  destruct (classify e).
  - by intros [= <- _].
  - destruct (slotIndex (currentSlot h)) as [j|]; [|done].
    intros [= <- _].
    rewrite bool_decide_eq_true_2 in Hr by done. cbn [andb] in Hr.
    apply Z.eqb_neq in Hr.
    destruct (tracked_control e j h k) as (_ & HG & _ & _ & Hne).
    destruct (Hne Hr) as [-> _]. done.
  - destruct (slotIndex (currentSlot h)) as [j|]; [|done]. by intros [= <- _].
  - destruct (slotIndex (currentSlot h)) as [j|]; [|done]. by intros [= <- _].
  - rewrite Hs. by intros [= <- _].
  - by intros [= <- _].
Qed.

Lemma handleEvents_suspended events : forall h k h' k',
  suspend h = true ->
  sameEpoch Atan clock events h k = true ->
  handleEvents Atan clock events h k = Done (tt, h', k') ->
  suspend h' = true /\ Gestures h' = Gestures h.
Proof.
  induction events as [|e rest IH]; intros h k h' k' Hs Hep.
  - by intros [= <- _].
  - rewrite handleEvents_cons. cbn [sameEpoch] in Hep.
    apply andb_true_iff in Hep as [Hr Hep]. apply negb_true_iff in Hr.
    destruct (handleEvent Atan clock e h k) as [[[[] h1] k1]|] eqn:E; [|done].
    destruct (handleEvent_suspended _ _ _ _ _ Hs Hr E) as [Hs1 HG1].
    intros H. destruct (IH _ _ _ _ Hs1 Hep H) as [? ?].
    split; congruence.
Qed.

(** A tracking-id event with no finger counted opens a new epoch. *)
Lemma handleEvent_retouch e h k h' k' :
  retouch h e = true ->
  handleEvent Atan clock e h k = Done (tt, h', k') ->
  suspend h' = false /\ lastGesture h' = UNKNOWN /\ Gestures h' = Gestures h.
Proof.
  unfold retouch. intros Hr. apply andb_true_iff in Hr as [Hk Hc].
  apply bool_decide_eq_true in Hk. apply Z.eqb_eq in Hc.
  rewrite handleEvent_eq, Hk.
  destruct (slotIndex (currentSlot h)) as [j|]; [|done].
  intros [= <- _].
  destruct (tracked_control e j h k) as (_ & HG & _ & Hz & _).
  destruct (Hz Hc) as [-> ->]. done.
Qed.

Lemma report_fresh g h k :
  lastGesture h = UNKNOWN -> g <> UNKNOWN ->
  report g h k = Done (tt, reported g h, k).
Proof.
  intros Hl Hg. rewrite report_eq, Hl.
  rewrite bool_decide_eq_true_2; [done|congruence].
Qed.

(** *** Suspension *)

(** C4: sending a gesture suspends the detection (and the gesture sent is
    remembered); while suspended, whatever events follow, nothing more is
    sent and the handler stays suspended as long as no tracking-id event
    arrives with the finger count at 0; such an event clears the suspended
    flag and the memory of the last gesture, after which a report of any
    gesture type, the one sent before included, is sent again. *)
Theorem C4_suspended_until_retouch :
  (forall e h k h' k',
     handleEvent Atan clock e h k = Done (tt, h', k') ->
     Gestures h' = Gestures h
     \/ exists g,
          Gestures h' = Gestures h ++ [g]
          /\ suspend h' = true
          /\ lastGesture h' = GestureType g)
  /\ (forall events h k h' k',
        suspend h = true ->
        sameEpoch Atan clock events h k = true ->
        handleEvents Atan clock events h k = Done (tt, h', k') ->
        suspend h' = true /\ Gestures h' = Gestures h)
  /\ (forall e h k h' k',
        retouch h e = true ->
        handleEvent Atan clock e h k = Done (tt, h', k') ->
        suspend h' = false /\ lastGesture h' = UNKNOWN
        /\ Gestures h' = Gestures h)
  /\ (forall g h k,
        lastGesture h = UNKNOWN -> g <> UNKNOWN ->
        report g h k = Done (tt, reported g h, k)).
Proof.
  split; [exact handleEvent_sent|].
  split; [exact handleEvents_suspended|].
  split; [exact handleEvent_retouch|exact report_fresh].
Qed.

(** *** The current slot *)

(** C10: the current slot set by a slot-select event stays as it is through
    whatever events follow that are not slot-select events (frame reports
    and finger lifts among them), and the next position or tracking-id
    event applies to the finger in that slot: a position event sets its
    position and leaves the other fingers as they are, a tracking-id event
    makes it inactive (value -1) or active (any other value) and leaves the
    others active or not as they were. *)
Theorem C10_current_slot_persists (e0 : InputEvent)
    (events : list InputEvent) (h h1 : EventHandler) (k k1 : nat) :
  classify e0 = SlotSelect ->
  Forall (fun e => classify e <> SlotSelect) events ->
  handleEvents Atan clock (e0 :: events) h k = Done (tt, h1, k1) ->
  currentSlot h1 = Value e0
  /\ forall e h2 k2,
       handleEvent Atan clock e h1 k1 = Done (tt, h2, k2) ->
       match classify e with
       | SlotSelect => currentSlot h2 = Value e
       | PositionX =>
           currentSlot h2 = Value e0
           /\ exists j,
                slotIndex (Value e0) = Some j
                /\ fingers h2
                   = vinsert j (setPositionX (Value e) (fingers h1 !!! j))
                       (fingers h1)
       | PositionY =>
           currentSlot h2 = Value e0
           /\ exists j,
                slotIndex (Value e0) = Some j
                /\ fingers h2
                   = vinsert j (setPositionY (Value e) (fingers h1 !!! j))
                       (fingers h1)
       | TrackingId =>
           currentSlot h2 = Value e0
           /\ exists j,
                slotIndex (Value e0) = Some j
                /\ IsActive (fingers h2 !!! j) = negb (Value e =? -1)
                /\ forall i, i <> j ->
                     IsActive (fingers h2 !!! i) = IsActive (fingers h1 !!! i)
       | SynReport | Ignored => currentSlot h2 = Value e0
       end.
Proof.
  intros He0 Hall. rewrite handleEvents_cons, handleEvent_eq, He0.
  intros Hrun. apply handleEvents_currentSlot in Hrun as Hslot; [|done].
  cbn [currentSlot set_currentSlot] in Hslot.
  split; [done|]. intros e h2 k2 He.
  destruct (classify e) eqn:Hkind.
  - rewrite handleEvent_eq, Hkind in He. by injection He as <- _.
  - pose proof He as Hc. apply handleEvent_currentSlot in Hc; [|congruence].
    split; [congruence|].
    rewrite handleEvent_eq, Hkind, Hslot in He.
    destruct (slotIndex (Value e0)) as [j|]; [|done].
    injection He as <- _. exists j. split; [done|].
    unfold tracked. cbn zeta.
    assert (forall h3 : EventHandler,
              fingers (if fingerCount h1 =? 0
                       then set_suspend false (set_lastGesture UNKNOWN h3)
                       else h3) = fingers h3) as ->.
    { intros h3. by destruct (fingerCount h1 =? 0). }
    split.
    + rewrite resetAll_active.
      destruct (Value e =? -1); cbn [fingers set_fingers];
        by rewrite vlookup_insert.
    + intros i Hi. rewrite resetAll_active.
      destruct (Value e =? -1); cbn [fingers set_fingers];
        by rewrite vlookup_insert_ne.
  - pose proof He as Hc. apply handleEvent_currentSlot in Hc; [|congruence].
    split; [congruence|].
    rewrite handleEvent_eq, Hkind, Hslot in He.
    destruct (slotIndex (Value e0)) as [j|]; [|done].
    injection He as <- _. by exists j.
  - pose proof He as Hc. apply handleEvent_currentSlot in Hc; [|congruence].
    split; [congruence|].
    rewrite handleEvent_eq, Hkind, Hslot in He.
    destruct (slotIndex (Value e0)) as [j|]; [|done].
    injection He as <- _. by exists j.
  - apply handleEvent_currentSlot in He; congruence.
  - apply handleEvent_currentSlot in He; congruence.
Qed.

(** With the finger of slot 0 inactive the loop of [detectGesture] never
    ends with a swipe: no candidate is recorded, and the first active finger
    that has swiped counts as a mismatch. *)
Lemma swipeLoop_without_slot0 slots : forall timeDiff h k r h' k',
  0%fin ∉ slots ->
  swipeLoop Atan clock slots timeDiff false UNKNOWN h k = Done (Some r, h', k') ->
  r = (false, UNKNOWN).
Proof.
  induction slots as [|i rest IH]; intros timeDiff h k r h' k' Hnot.
  - by intros [= <- _].
  - apply not_elem_of_cons in Hnot as [Hi Hrest].
    rewrite swipeLoop_cons. cbn zeta.
    destruct (negb (IsActive (fingers h !!! i))); [by apply IH|].
    destruct (fst (swipedAt clock DIST_SWIPE (fingers h !!! i) k)).
    + rewrite bool_decide_eq_false_2 by done.
      rewrite bool_decide_eq_true_2 by apply getDirection_known.
      by intros [= <- _].
    + by destruct (220 * Millisecond <? timeDiff).
Qed.

Lemma swipeLoop_slot0_inactive timeDiff h k r h' k' :
  IsActive (fingers h !!! 0%fin) = false ->
  swipeLoop Atan clock allSlots timeDiff false UNKNOWN h k = Done (Some r, h', k') ->
  r = (false, UNKNOWN).
Proof.
  intros H0. unfold allSlots. rewrite swipeLoop_cons. cbn zeta.
  rewrite H0. cbn [negb]. apply swipeLoop_without_slot0.
  rewrite !not_elem_of_cons. repeat split; try done. apply not_elem_of_nil.
Qed.

(** *** What is sent *)

Lemma app_singleton_ne {A} (l : list A) (x : A) : l <> l ++ [x].
Proof.
  intros H. apply (f_equal length) in H. rewrite length_app in H. cbn in H. lia.
Qed.

(** X1: a gesture that an event sends is never of type [UNKNOWN]; its
    finger count is the handler's, which is at least 2 and has an action
    configured. *)
Theorem sent_gesture_is_known e h k h' k' g :
  handleEvent Atan clock e h k = Done (tt, h', k') ->
  Gestures h' = Gestures h ++ [g] ->
  GestureType g <> UNKNOWN
  /\ FingerCount g = fingerCount h
  /\ 2 <= FingerCount g
  /\ is_Some (configuredFingers h !! FingerCount g).
Proof.
  rewrite handleEvent_eq. intros He HG.
  assert (Gestures h' = Gestures h -> False) as Hsame.
  { intros E. rewrite E in HG. by apply app_singleton_ne in HG. }
  destruct (classify e).
  - injection He as <- _. by destruct Hsame.
  - destruct (slotIndex (currentSlot h)) as [j|]; [|done].
    injection He as <- _. destruct Hsame. apply tracked_control.
  - destruct (slotIndex (currentSlot h)) as [j|]; [|done].
    injection He as <- _. by destruct Hsame.
  - destruct (slotIndex (currentSlot h)) as [j|]; [|done].
    injection He as <- _. by destruct Hsame.
  - destruct (suspend h); [injection He as <- _; by destruct Hsame|].
    apply detectGesture_effect in He as (_ & _ & _ & [Hc|(g0 & Hg0)]).
    + destruct Hsame. apply Hc.
    + destruct Hg0 as (_ & HG0 & _ & _ & Hknown & Hskip).
      rewrite HG0 in HG. apply app_inv_head in HG. injection HG as <-.
      cbn [GestureType FingerCount].
      unfold detectionSkipped in Hskip.
      apply orb_false_iff in Hskip as [Hskip _].
      apply orb_false_iff in Hskip as [Hconf Hcount].
      apply negb_false_iff, bool_decide_eq_true in Hconf.
      apply Z.ltb_ge in Hcount. done.
  - injection He as <- _. by destruct Hsame.
Qed.

(** *** Ingestion *)

Lemma calculateGesture_total h k :
  someActive h = true ->
  exists g k', calculateGesture clock h k = Done (g, h, k').
Proof.
  unfold someActive, activeFingers. intros Hact.
  rewrite calculateGesture_eq.
  destruct (collectPositions_result allSlots [] [] h k) as (r & k' & -> & _ & Hr).
  destruct r as [[starts ends]|]; [|eauto].
  destruct (Hr starts ends eq_refl) as [-> ->]. cbn [app].
  rewrite allSlots_fingers.
  destruct (List.filter IsActive (vec_to_list (fingers h))) as [|f fs]; [done|].
  destruct (calculateCircumference_Done (map firstPosition (f :: fs))) as [a ->];
    [done|].
  destruct (calculateCircumference_Done (map lastPosition (f :: fs))) as [b ->];
    [done|].
  eauto.
Qed.

(** A detection cycle ends without a panic, provided a finger is active
    whenever two or more are counted. *)
Lemma detectGesture_total h k :
  (2 <= fingerCount h -> someActive h = true) ->
  exists h' k', detectGesture Atan clock h k = Done (tt, h', k').
Proof.
  intros Hact. rewrite detectGesture_eq. cbn zeta.
  destruct (detectionSkipped h _) eqn:Hskip; [eauto|].
  unfold detectionSkipped in Hskip.
  apply orb_false_iff in Hskip as [Hskip _].
  apply orb_false_iff in Hskip as [_ Hcount].
  apply Z.ltb_ge in Hcount. specialize (Hact Hcount).
  destruct (swipeLoop_result allSlots (elapsed (clock k) (checkTimer h)) false
              UNKNOWN h (S k)) as (r & h1 & k1 & -> & Hsome & _).
  destruct r as [[[] g]|]; [| |eauto].
  - rewrite afterLoop_swipe. eauto.
  - rewrite (Hsome ltac:(done)). rewrite afterLoop_other.
    destruct (calculateGesture_total h k1 Hact) as (g' & k2 & ->). eauto.
Qed.

(** An admissible event is handled without a panic, and leaves the current
    slot within the array. *)
Lemma handleEvent_total e h k :
  slotInRange h = true ->
  admissible h e = true ->
  exists h' k',
    handleEvent Atan clock e h k = Done (tt, h', k')
    /\ slotInRange h' = true.
Proof.
  unfold slotInRange, admissible. intros Hslot Hadm.
  apply bool_decide_eq_true in Hslot as Hj. destruct Hj as [j Hj].
  destruct (classify e) eqn:Hkind.
  - rewrite handleEvent_eq, Hkind. eauto.
  - assert (exists h' k', handleEvent Atan clock e h k = Done (tt, h', k'))
      as (h' & k' & E).
    { rewrite handleEvent_eq, Hkind, Hj. eauto. }
    exists h', k'. split; [done|].
    apply handleEvent_currentSlot in E; [|congruence]. by rewrite E.
  - assert (exists h' k', handleEvent Atan clock e h k = Done (tt, h', k'))
      as (h' & k' & E).
    { rewrite handleEvent_eq, Hkind, Hj. eauto. }
    exists h', k'. split; [done|].
    apply handleEvent_currentSlot in E; [|congruence]. by rewrite E.
  - assert (exists h' k', handleEvent Atan clock e h k = Done (tt, h', k'))
      as (h' & k' & E).
    { rewrite handleEvent_eq, Hkind, Hj. eauto. }
    exists h', k'. split; [done|].
    apply handleEvent_currentSlot in E; [|congruence]. by rewrite E.
  - assert (exists h' k', handleEvent Atan clock e h k = Done (tt, h', k'))
      as (h' & k' & E).
    { rewrite handleEvent_eq, Hkind.
      destruct (suspend h); [eauto|].
      apply detectGesture_total. intros Hc.
      by destruct (Z.leb_spec 2 (fingerCount h)); [|lia]. }
    exists h', k'. split; [done|].
    apply handleEvent_currentSlot in E; [|congruence]. by rewrite E.
  - rewrite handleEvent_eq, Hkind. eauto.
Qed.

(** C1, as the code has it: for every sequence of events in which each slot-select
    names one of the slots 0..4 and no frame report arrives while two or
    more fingers are counted and no finger is active, handled from a state
    whose current slot is within 0..4 (as the initial one is), ingestion
    does not panic: it ends in a handler state, having sent some gestures
    (possibly none) after those sent before. *)
Theorem C1_ingestion_tolerates (events : list InputEvent) (h : EventHandler)
    (k : nat) :
  slotInRange h = true ->
  tolerated Atan clock events h k = true ->
  exists h' k' sent,
    handleEvents Atan clock events h k = Done (tt, h', k')
    /\ Gestures h' = Gestures h ++ sent
    /\ slotInRange h' = true.
Proof.
  revert h k. induction events as [|e rest IH]; intros h k Hslot Htol.
  - exists h, k, []. by rewrite app_nil_r.
  - cbn [tolerated] in Htol. apply andb_true_iff in Htol as [Hadm Htol].
    destruct (handleEvent_total e h k Hslot Hadm) as (h1 & k1 & E & Hslot1).
    rewrite E in Htol.
    destruct (IH h1 k1 Hslot1 Htol) as (h' & k' & sent & Erun & HG & Hslot').
    rewrite handleEvents_cons, E.
    destruct (handleEvent_sent _ _ _ _ _ E) as [HG1|(g & HG1 & _)].
    + exists h', k', sent. by rewrite <- HG1.
    + exists h', k', (g :: sent). rewrite HG, HG1, <- app_assoc. done.
Qed.

End HandlerProperties.

(** ** Concrete runs of the detector *)

(** Two fingers swipe up: one gesture is sent, and the frames that follow
    before the fingers lift send no second one; after the fingers have
    lifted and touched down again, the same swipe is sent again. *)
Example swipe_up_once_per_contact :
  exists h1 k1 h2 k2,
    handleEvents GoMath.Atan slowClock
      (twoFingersDown ++ bothMoveUp ++ framesAndLift)
      (newEventHandler {[2 := true]}) 0%nat = Done (tt, h1, k1)
    /\ Gestures h1 = [mkGesture SWIPE_UP 2]
    /\ handleEvents GoMath.Atan slowClock (twoFingersDown ++ bothMoveUp) h1 k1
       = Done (tt, h2, k2)
    /\ Gestures h2 = [mkGesture SWIPE_UP 2; mkGesture SWIPE_UP 2].
Proof.
  eexists _, _, _, _.
  split; [vm_compute; reflexivity|].
  split; [reflexivity|].
  split; [vm_compute; reflexivity|reflexivity].
Qed.

(** C1, counterexample: a slot-select for slot 7 followed by a position
    update panics (index out of range), and so does a frame report that
    arrives when two fingers are counted but none is active. *)
Lemma C1_counterexample :
  handleEvents GoMath.Atan slowClock slotOutOfRange (newEventHandler ∅) 0%nat
    = Panic
  /\ handleEvents GoMath.Atan slowClock countedButInactive
       (newEventHandler {[2 := true]}) 0%nat = Panic.
Proof. split; vm_compute; reflexivity. Qed.

Lemma C1_witness :
  slotInRange (newEventHandler {[2 := true]}) = true
  /\ tolerated GoMath.Atan slowClock
       (twoFingersDown ++ bothMoveUp ++ framesAndLift)
       (newEventHandler {[2 := true]}) 0%nat = true
  /\ exists h' k' sent,
       handleEvents GoMath.Atan slowClock
         (twoFingersDown ++ bothMoveUp ++ framesAndLift)
         (newEventHandler {[2 := true]}) 0%nat = Done (tt, h', k')
       /\ Gestures h' = Gestures (newEventHandler {[2 := true]}) ++ sent
       /\ slotInRange h' = true.
Proof.
  split; [reflexivity|]. split; [vm_compute; reflexivity|].
  apply (C1_ingestion_tolerates GoMath.Atan slowClock);
    vm_compute; reflexivity.
Defined.

(** C2, the code at the failing input: the fingers of slots 1 and 2 are the
    active ones, each has swiped past the 1100-unit threshold in direction
    Up, yet the loop ends with "is swipe" false and no candidate, and the
    frame report sends Spread(2) where the claim has SwipeUp(2). *)
Theorem C2_swipe_lost_when_slot0_inactive :
  exists h k h' k',
    handleEvents GoMath.Atan slowClock swipeUpAfterFirstFingerLifts
      (newEventHandler {[2 := true]}) 0%nat = Done (tt, h, k)
    /\ activeFingers h = [fingers h !!! 1%fin; fingers h !!! 2%fin]
    /\ getDirection GoMath.Atan (fingers h !!! 1%fin) = SWIPE_UP
    /\ getDirection GoMath.Atan (fingers h !!! 2%fin) = SWIPE_UP
    /\ hasSwiped slowClock DIST_SWIPE (fingers h !!! 1%fin) (1 + k)%nat
       = Done (true, fingers h !!! 1%fin, (2 + k)%nat)
    /\ hasSwiped slowClock DIST_SWIPE (fingers h !!! 2%fin) (2 + k)%nat
       = Done (true, fingers h !!! 2%fin, (3 + k)%nat)
    /\ IsActive (fingers h !!! 0%fin) = false
    /\ swipeLoop GoMath.Atan slowClock allSlots
         (elapsed (slowClock k) (checkTimer h)) false UNKNOWN h (1 + k)%nat
       = Done (Some (false, UNKNOWN), h, (2 + k)%nat)
    /\ handleEvent GoMath.Atan slowClock synReport h k = Done (tt, h', k')
    /\ Gestures h' = [mkGesture SPREAD 2].
Proof.
  eexists _, _, _, _.
  split; [vm_compute; reflexivity|].
  repeat (split; [vm_compute; reflexivity|]).
  reflexivity.
Qed.

(** C3, counterexample: the fingers of slots 0 and 1 have swiped right and
    left, so the radial pass runs; the finger of slot 2 has moved 100 units
    only, so [calculateGesture] returns [UNKNOWN]; and the cycle ends with
    the fingers reset and the timer stamped anew. *)
Lemma C3_counterexample :
  swipeLoop GoMath.Atan fastClock allSlots
    (elapsed (fastClock 0) (checkTimer rightLeftStill)) false UNKNOWN
    rightLeftStill 1%nat = Done (Some (false, SWIPE_RIGHT), rightLeftStill, 3%nat)
  /\ hasSwiped fastClock DIST_OTHER (fingers rightLeftStill !!! 2%fin) 5%nat
     = Done (false, fingers rightLeftStill !!! 2%fin, 6%nat)
  /\ calculateGesture fastClock rightLeftStill 3%nat
     = Done (UNKNOWN, rightLeftStill, 6%nat)
  /\ exists h',
       detectGesture GoMath.Atan fastClock rightLeftStill 0%nat
         = Done (tt, h', 12%nat)
       /\ HasPositionX (fingers rightLeftStill !!! 0%fin) = true
       /\ HasPositionX (fingers h' !!! 0%fin) = false
       /\ checkTimer rightLeftStill = at_ns 0
       /\ checkTimer h' = at_ns (111 * Millisecond)
       /\ h' <> rightLeftStill.
Proof.
  repeat (split; [vm_compute; reflexivity|]).
  eexists. split; [vm_compute; reflexivity|].
  repeat (split; [reflexivity|]).
  intros H. apply (f_equal checkTimer) in H. discriminate H.
Qed.

Lemma C3_witness :
  exists h',
    detectGesture GoMath.Atan fastClock rightLeftStill 0%nat = Done (tt, h', 12%nat)
    /\ Gestures h' = Gestures rightLeftStill
    /\ lastGesture h' = lastGesture rightLeftStill
    /\ suspend h' = suspend rightLeftStill
    /\ fingerCount h' = fingerCount rightLeftStill
    /\ currentSlot h' = currentSlot rightLeftStill
    /\ checkTimer h' = at_ns (fastClock 11)
    /\ forall i : fin 5,
         fingers h' !!! i
           = resetFinger (at_ns (fastClock (fin_to_nat i + 6)))
               (fingers rightLeftStill !!! i)
         /\ HasPositionX (fingers h' !!! i) = false
         /\ HasPositionY (fingers h' !!! i) = false.
Proof.
  apply (C3_unknown_movement_resets GoMath.Atan fastClock rightLeftStill
           rightLeftStill rightLeftStill 0%nat 3%nat 6%nat SWIPE_RIGHT);
    vm_compute; reflexivity.
Defined.

Lemma C4_witness :
  Gestures (fst afterSwipeUp) = [mkGesture SWIPE_UP 2]
  /\ suspend (fst afterSwipeUp) = true
  /\ sameEpoch GoMath.Atan slowClock framesAndLift (fst afterSwipeUp)
       (snd afterSwipeUp) = true
  /\ handleEvents GoMath.Atan slowClock framesAndLift (fst afterSwipeUp)
       (snd afterSwipeUp) = Done (tt, fst afterLift, snd afterLift)
  /\ (suspend (fst afterLift) = true
      /\ Gestures (fst afterLift) = Gestures (fst afterSwipeUp))
  /\ retouch (fst afterLift) (trackingId 10) = true
  /\ exists h3 k3,
       handleEvent GoMath.Atan slowClock (trackingId 10) (fst afterLift)
         (snd afterLift) = Done (tt, h3, k3)
       /\ suspend h3 = false
       /\ lastGesture h3 = UNKNOWN
       /\ Gestures h3 = Gestures (fst afterLift).
Proof.
  assert (suspend (fst afterSwipeUp) = true) as Hs
    by (vm_compute; reflexivity).
  assert (sameEpoch GoMath.Atan slowClock framesAndLift (fst afterSwipeUp)
            (snd afterSwipeUp) = true) as Hepoch
    by (vm_compute; reflexivity).
  assert (handleEvents GoMath.Atan slowClock framesAndLift (fst afterSwipeUp)
            (snd afterSwipeUp) = Done (tt, fst afterLift, snd afterLift))
    as Hrun by (vm_compute; reflexivity).
  assert (retouch (fst afterLift) (trackingId 10) = true) as Hretouch
    by (vm_compute; reflexivity).
  destruct (handleEvent GoMath.Atan slowClock (trackingId 10) (fst afterLift)
              (snd afterLift)) as [[[[] h3] k3]|] eqn:Hev;
    [|vm_compute in Hev; discriminate Hev].
  split; [vm_compute; reflexivity|].
  repeat (split; [assumption|]).
  split.
  { exact (proj1 (proj2 (C4_suspended_until_retouch GoMath.Atan slowClock))
             framesAndLift (fst afterSwipeUp) (snd afterSwipeUp)
             (fst afterLift) (snd afterLift) Hs Hepoch Hrun). }
  split; [assumption|].
  exists h3, k3. split; [reflexivity|].
  exact (proj1 (proj2 (proj2 (C4_suspended_until_retouch GoMath.Atan slowClock)))
           (trackingId 10) (fst afterLift) (snd afterLift) h3 k3 Hretouch Hev).
Defined.

Lemma C5_witness :
  exists start end_ k',
    calculateCircumference (map firstPosition (activeFingers pinching))
      = Done start
    /\ calculateCircumference (map lastPosition (activeFingers pinching))
       = Done end_
    /\ calculateGesture fastClock pinching 0%nat
       = Done (if bool_decide (start > end_) then PINCH else SPREAD,
               pinching, k')
    /\ (start > end_ ->
        calculateGesture fastClock pinching 0%nat = Done (PINCH, pinching, k'))
    /\ (start <= end_ ->
        calculateGesture fastClock pinching 0%nat = Done (SPREAD, pinching, k')).
Proof.
  assert (forall f, ActivationTime f = at_ns 0 -> hasPosition f = true ->
            (DIST_OTHER <? getDistance f) = true ->
            movedPast fastClock DIST_OTHER 0 f) as Hmoved.
  { intros f Ht Hp Hd. split; [done|]. split; [by apply Z.ltb_lt|].
    intros n _. rewrite Ht.
    unfold elapsed, fastClock, steadyClock, minDuration, maxDuration,
      Millisecond. lia. }
  apply (proj1 (C5_pinch_or_spread fastClock pinching 0%nat)).
  - discriminate.
  - change (activeFingers pinching)
      with [movedFinger 1000 1000 1900 1000; movedFinger 3000 1000 2100 1000].
    repeat apply Forall_cons_2; [| |apply Forall_nil_2];
      apply Hmoved; reflexivity.
Defined.

Lemma C6_witness :
  hasSwiped fastClock 1100 zeroFinger 0%nat = Done (false, zeroFinger, 0%nat)
  /\ hasSwiped fastClock 1100
       (mkFinger 1000 1000 2200 1000 true true true (at_ns (90 * Millisecond)))
       0%nat
     = Done (false,
             mkFinger 1000 1000 2200 1000 true true true
               (at_ns (90 * Millisecond)), 1%nat)
  /\ hasSwiped fastClock 1100 (movedFinger 1000 1000 2200 1000) 0%nat
     = Done (true, movedFinger 1000 1000 2200 1000, 1%nat)
  /\ hasSwiped fastClock 1100 (movedFinger 1000 1000 2100 1000) 0%nat
     = Done (false, movedFinger 1000 1000 2100 1000, 1%nat).
Proof.
  split; [|split; [|split]].
  - apply (C6_hasSwiped fastClock 1100 zeroFinger 0%nat). reflexivity.
  - apply (C6_hasSwiped fastClock 1100
             (mkFinger 1000 1000 2200 1000 true true true
                (at_ns (90 * Millisecond))) 0%nat);
      [reflexivity|vm_compute; reflexivity].
  - apply (proj2 (proj2 (C6_hasSwiped fastClock 1100
                           (movedFinger 1000 1000 2200 1000) 0%nat)));
      [reflexivity|vm_compute; discriminate].
  - apply (proj2 (proj2 (C6_hasSwiped fastClock 1100
                           (movedFinger 1000 1000 2100 1000) 0%nat)));
      [reflexivity|vm_compute; discriminate].
Defined.

Lemma C7_witness :
  getDirection GoMath.Atan (movedFinger 1000 1000 2200 1000) = SWIPE_RIGHT
  /\ getDirection GoMath.Atan (movedFinger 1000 1000 (-200) 1000) = SWIPE_LEFT
  /\ getDirection GoMath.Atan (movedFinger 1000 1000 1000 (-200)) = SWIPE_UP
  /\ getDirection GoMath.Atan (movedFinger 1000 1000 1000 2200) = SWIPE_DOWN
  /\ getAngle GoMath.Atan (movedFinger 0 0 100 (-100)) = 45
  /\ getDirection GoMath.Atan (movedFinger 0 0 100 (-100)) = SWIPE_UP.
Proof.
  assert (forall x0 y0 x y,
            int32 x0 -> int32 y0 -> int32 x -> int32 y ->
            hasPosition (movedFinger x0 y0 x y) = true
            /\ int32 (FirstX (movedFinger x0 y0 x y))
            /\ int32 (FirstY (movedFinger x0 y0 x y))
            /\ int32 (LastX (movedFinger x0 y0 x y))
            /\ int32 (LastY (movedFinger x0 y0 x y))) as Hf.
  { intros. cbn. tauto. }
  assert (int32 1000 /\ int32 2200 /\ int32 (-200) /\ int32 0 /\ int32 100
          /\ int32 (-100)) as (I1 & I2 & I3 & I4 & I5 & I6).
  { unfold int32. lia. }
  split; [|split; [|split; [|split; [|split]]]].
  - pose proof (Hf 1000 1000 2200 1000 ltac:(assumption) ltac:(assumption)
                  ltac:(assumption) ltac:(assumption)) as (P & A & B & C & D).
    destruct (C7_direction GoMath.Atan _ P A B C D) as (TH & _).
    apply TH; cbn; lia.
  - pose proof (Hf 1000 1000 (-200) 1000 ltac:(assumption) ltac:(assumption)
                  ltac:(assumption) ltac:(assumption)) as (P & A & B & C & D).
    destruct (C7_direction GoMath.Atan _ P A B C D) as (_ & TH & _).
    apply TH; cbn; lia.
  - pose proof (Hf 1000 1000 1000 (-200) ltac:(assumption) ltac:(assumption)
                  ltac:(assumption) ltac:(assumption)) as (P & A & B & C & D).
    destruct (C7_direction GoMath.Atan _ P A B C D) as (_ & _ & TH & _).
    apply TH; cbn; lia.
  - pose proof (Hf 1000 1000 1000 2200 ltac:(assumption) ltac:(assumption)
                  ltac:(assumption) ltac:(assumption)) as (P & A & B & C & D).
    destruct (C7_direction GoMath.Atan _ P A B C D) as (_ & _ & _ & TH & _).
    apply TH; cbn; lia.
  - reflexivity.
  - pose proof (Hf 0 0 100 (-100) ltac:(assumption) ltac:(assumption)
                  ltac:(assumption) ltac:(assumption)) as (P & A & B & C & D).
    destruct (C7_direction GoMath.Atan _ P A B C D)
      as (_ & _ & _ & _ & TH & _).
    apply TH. vm_compute. split; discriminate.
Defined.

Lemma C10_witness :
  currentSlot (fst afterTouch) = 0
  /\ handleEvents GoMath.Atan slowClock (slotSelect 1 :: framesInSlot1)
       (fst afterTouch) (snd afterTouch)
     = Done (tt, fst afterSlot1, snd afterSlot1)
  /\ currentSlot (fst afterSlot1) = Value (slotSelect 1)
  /\ forall e h2 k2,
       handleEvent GoMath.Atan slowClock e (fst afterSlot1) (snd afterSlot1)
         = Done (tt, h2, k2) ->
       match classify e with
       | SlotSelect => currentSlot h2 = Value e
       | PositionX =>
           currentSlot h2 = Value (slotSelect 1)
           /\ exists j,
                slotIndex (Value (slotSelect 1)) = Some j
                /\ fingers h2
                   = vinsert j
                       (setPositionX (Value e) (fingers (fst afterSlot1) !!! j))
                       (fingers (fst afterSlot1))
       | PositionY =>
           currentSlot h2 = Value (slotSelect 1)
           /\ exists j,
                slotIndex (Value (slotSelect 1)) = Some j
                /\ fingers h2
                   = vinsert j
                       (setPositionY (Value e) (fingers (fst afterSlot1) !!! j))
                       (fingers (fst afterSlot1))
       | TrackingId =>
           currentSlot h2 = Value (slotSelect 1)
           /\ exists j,
                slotIndex (Value (slotSelect 1)) = Some j
                /\ IsActive (fingers h2 !!! j) = negb (Value e =? -1)
                /\ forall i, i <> j ->
                     IsActive (fingers h2 !!! i)
                       = IsActive (fingers (fst afterSlot1) !!! i)
       | SynReport | Ignored => currentSlot h2 = Value (slotSelect 1)
       end.
Proof.
  assert (handleEvents GoMath.Atan slowClock (slotSelect 1 :: framesInSlot1)
            (fst afterTouch) (snd afterTouch)
          = Done (tt, fst afterSlot1, snd afterSlot1)) as Hrun
    by (vm_compute; reflexivity).
  assert (Forall (fun e => classify e <> SlotSelect) framesInSlot1) as Hall
    by (repeat constructor; discriminate).
  split; [vm_compute; reflexivity|].
  split; [exact Hrun|].
  exact (C10_current_slot_persists GoMath.Atan slowClock (slotSelect 1)
           framesInSlot1 (fst afterTouch) (fst afterSlot1) (snd afterTouch)
           (snd afterSlot1) eq_refl Hall Hrun).
Defined.

Lemma sent_gesture_witness :
  exists h' k',
    handleEvent GoMath.Atan slowClock synReport
      (fst (runFrom GoMath.Atan slowClock
              (twoFingersDown ++ removelast bothMoveUp)
              (newEventHandler {[2 := true]}, 0%nat)))
      (snd (runFrom GoMath.Atan slowClock
              (twoFingersDown ++ removelast bothMoveUp)
              (newEventHandler {[2 := true]}, 0%nat)))
      = Done (tt, h', k')
    /\ Gestures h' = [] ++ [mkGesture SWIPE_UP 2]
    /\ GestureType (mkGesture SWIPE_UP 2) <> UNKNOWN
    /\ FingerCount (mkGesture SWIPE_UP 2) = 2
    /\ 2 <= FingerCount (mkGesture SWIPE_UP 2)
    /\ is_Some (({[2 := true]} : gmap Z bool) !! FingerCount (mkGesture SWIPE_UP 2)).
Proof.
  destruct (handleEvent GoMath.Atan slowClock synReport
              (fst (runFrom GoMath.Atan slowClock
                      (twoFingersDown ++ removelast bothMoveUp)
                      (newEventHandler {[2 := true]}, 0%nat)))
              (snd (runFrom GoMath.Atan slowClock
                      (twoFingersDown ++ removelast bothMoveUp)
                      (newEventHandler {[2 := true]}, 0%nat))))
    as [[[[] h'] k']|] eqn:Hev; [|vm_compute in Hev; discriminate Hev].
  assert (Gestures h' = [] ++ [mkGesture SWIPE_UP 2]) as HG.
  { vm_compute in Hev. injection Hev as <- _. reflexivity. }
  exists h', k'. split; [reflexivity|]. split; [exact HG|].
  exact (sent_gesture_is_known GoMath.Atan slowClock synReport _ _ h' k'
           (mkGesture SWIPE_UP 2) Hev HG).
Defined.

(** * Further properties *)

(** ** Geometry *)

Lemma SFopp_involutive s : SFopp (SFopp s) = s.
Proof. destruct s as [[]|[]| |[] m e]; reflexivity. Qed.

Lemma float_opp_involutive (f : float) : (- - f)%float = f.
Proof. apply Prim2SF_inj. rewrite !opp_spec. apply SFopp_involutive. Qed.

Lemma SF2Prim_opp s : SF2Prim (SFopp s) = (- SF2Prim s)%float.
Proof.
  destruct s as [[]|[]| |[] m e]; try reflexivity.
  cbn [SFopp negb SF2Prim]. cbv zeta. by rewrite float_opp_involutive.
Qed.

(** Rounding an integer to binary64 commutes with negation. *)
Lemma binary_normalize_opp z :
  z <> 0 ->
  binary_normalize prec emax (- z) 0 false
    = SFopp (binary_normalize prec emax z 0 false).
Proof.
  intros Hz. destruct z as [|p|p]; [done| |];
    [change (- Z.pos p) with (Z.neg p)|change (- Z.neg p) with (Z.pos p)];
    unfold binary_normalize, binary_round;
    destruct (shl_align _ _ _) as [mz ez];
    unfold binary_round_aux;
    destruct (shr_fexp _ _ _ _ _) as [mrs e'];
    destruct (shr_fexp _ _ _ _ _) as [mrs' e''];
    destruct (shr_m mrs') as [|q|q]; try reflexivity;
    match goal with
    | |- context [Z.leb ?a ?b] => destruct (Z.leb a b)
    end; reflexivity.
Qed.

Lemma SFmul_opp_opp s : SF64mul (SFopp s) (SFopp s) = SF64mul s s.
Proof. destruct s as [[]|[]| |[] m e]; reflexivity. Qed.

(** The square of [float64(-z)] is that of [float64(z)]. *)
Lemma float64_square_opp z :
  (float64_of_int (- z) * float64_of_int (- z))%float
  = (float64_of_int z * float64_of_int z)%float.
Proof.
  destruct (Z.eq_dec z 0) as [->|Hz]; [reflexivity|].
  unfold float64_of_int. rewrite binary_normalize_opp by assumption.
  rewrite SF2Prim_opp. apply Prim2SF_inj.
  rewrite !mul_spec, opp_spec. apply SFmul_opp_opp.
Qed.

(** X2: the distance between two points does not depend on their order, and
    the distance from a point to itself is 0 (coordinates in the range of
    the values of events, where the subtraction does not wrap). *)
Theorem calculateDistance_symmetric (x0 y0 x y : Z) :
  int32 x0 -> int32 y0 -> int32 x -> int32 y ->
  calculateDistance x0 y0 x y = calculateDistance x y x0 y0
  /\ calculateDistance x y x y = 0.
Proof.
  intros Hx0 Hy0 Hx Hy. unfold calculateDistance. split.
  - rewrite !int32_sub64 by done.
    replace (x - x0) with (- (x0 - x)) by lia.
    replace (y - y0) with (- (y0 - y)) by lia.
    cbv zeta. by rewrite !float64_square_opp.
  - rewrite !int32_sub64 by done. rewrite !Z.sub_diag. reflexivity.
Qed.

(** X3: [calculateCircumference] panics on the empty list of points and on
    no other; for a single point it is 0. *)
Theorem calculateCircumference_edges :
  (forall points, calculateCircumference points = Panic <-> points = [])
  /\ (forall x y, calculateCircumference [(x, y)] = Done 0).
Proof.
  split.
  - intros points. split.
    + intros H. destruct points as [|p ps]; [done|].
      destruct (calculateCircumference_Done (p :: ps)) as [c Hc]; [done|].
      congruence.
    + by intros ->.
  - intros x y. unfold calculateCircumference.
    cbn [length Z.of_nat Z.eqb Pos.of_succ_nat Pos.eqb lookup list_lookup
         circumferenceLoop fst snd].
    unfold calculateDistance, sub64. rewrite !Z.sub_diag. reflexivity.
Qed.

(** ** The finger tracker *)

Section FingerEdges.

Variable Atan : float -> float.
Variable clock : nat -> Z.

(** X4: after a reset, as long as no x value or no y value has been set, the
    finger has no position: its distance and angle are 0, its direction is
    that of angle 0, and [hasSwiped] is false for every threshold, without
    a look at the clock. *)
Theorem no_position_until_both_axes (f : Finger) (k : nat)
    (calls : list positionCall) :
  xValues calls = [] \/ yValues calls = [] ->
  exists f0,
    reset clock f k = Done (tt, f0, S k)
    /\ hasPosition (applyCalls calls f0) = false
    /\ getDistance (applyCalls calls f0) = 0
    /\ getAngle Atan (applyCalls calls f0) = 0
    /\ getDirection Atan (applyCalls calls f0) = SWIPE_RIGHT
    /\ forall T k',
         hasSwiped clock T (applyCalls calls f0) k'
           = Done (false, applyCalls calls f0, k').
Proof.
  intros Hnone. eexists. split; [apply reset_eq|].
  set (f0 := set_HasPositionY _ _).
  assert (hasPosition (applyCalls calls f0) = false) as Hpos.
  { unfold hasPosition.
    destruct (applyCalls_x calls f0) as (_ & _ & ->).
    destruct (applyCalls_y calls f0) as (_ & _ & ->).
    subst f0. cbn [HasPositionX HasPositionY set_HasPositionX set_HasPositionY
                   orb].
    assert (bool_decide (@nil Z <> []) = false) as Hnil
      by (apply bool_decide_eq_false_2; intros H; by apply H).
    destruct Hnone as [-> | ->]; rewrite Hnil; [done|apply andb_false_r]. }
  split; [done|].
  split; [unfold getDistance; by rewrite Hpos|].
  split; [unfold getAngle; by rewrite Hpos|].
  split; [unfold getDirection, getAngle; by rewrite Hpos|].
  intros T k'. rewrite hasSwiped_eq. unfold swipedAt. by rewrite Hpos.
Qed.

End FingerEdges.

Lemma calculateDistance_symmetric_witness :
  calculateDistance 1000 2000 (-300) 500 = calculateDistance (-300) 500 1000 2000
  /\ calculateDistance (-300) 500 (-300) 500 = 0.
Proof.
  apply (calculateDistance_symmetric 1000 2000 (-300) 500);
    unfold int32; lia.
Defined.

Lemma no_position_until_both_axes_witness :
  exists f0,
    reset fastClock (movedFinger 1 2 3 4) 0%nat = Done (tt, f0, 1%nat)
    /\ hasPosition (applyCalls [SetX 10; SetX 2000] f0) = false
    /\ getDistance (applyCalls [SetX 10; SetX 2000] f0) = 0
    /\ getAngle GoMath.Atan (applyCalls [SetX 10; SetX 2000] f0) = 0
    /\ getDirection GoMath.Atan (applyCalls [SetX 10; SetX 2000] f0)
       = SWIPE_RIGHT
    /\ forall T k',
         hasSwiped fastClock T (applyCalls [SetX 10; SetX 2000] f0) k'
           = Done (false, applyCalls [SetX 10; SetX 2000] f0, k').
Proof.
  apply (no_position_until_both_axes GoMath.Atan fastClock
           (movedFinger 1 2 3 4) 0%nat [SetX 10; SetX 2000]).
  right. reflexivity.
Defined.

(** ** The event handler: invariants *)

Section HandlerInvariants.

Variable Atan : float -> float.
Variable clock : nat -> Z.

(** The three shapes of the handler after a detection cycle: untouched, with
    the fingers reset, or with a gesture reported and the fingers reset. *)
Lemma detectGesture_shape h k h' k' :
  detectGesture Atan clock h k = Done (tt, h', k') ->
  h' = h
  \/ (exists k0, h' = resetAll clock k0 h)
  \/ (exists k0 g, h' = resetAll clock k0 (reported g h)).
Proof.
  rewrite detectGesture_eq. cbn zeta.
  destruct (detectionSkipped h _); [intros [= <- _]; by left|].
  destruct (swipeLoop_result Atan clock allSlots
              (elapsed (clock k) (checkTimer h)) false UNKNOWN h (S k))
    as (r & h1 & k1 & -> & Hsome & Hh1).
  destruct r as [[sw g]|].
  - rewrite (Hsome ltac:(done)). clear Hsome Hh1 h1. destruct sw.
    + rewrite afterLoop_swipe. intros [= <- _].
      case_bool_decide; eauto.
    + rewrite afterLoop_other.
      destruct (calculateGesture clock h k1) as [[[g' h2] k2]|] eqn:Ecalc;
        [|done].
      apply calculateGesture_state in Ecalc. subst h2.
      intros [= <- _]. destruct (_ && _); eauto.
  - intros [= <- _]. destruct Hh1 as [->|[k0 ->]]; eauto.
Qed.

(** What the three shapes have in common. *)
Lemma detectGesture_fingers h k h' k' i :
  detectGesture Atan clock h k = Done (tt, h', k') ->
  FirstX (fingers h' !!! i) = FirstX (fingers h !!! i)
  /\ FirstY (fingers h' !!! i) = FirstY (fingers h !!! i)
  /\ LastX (fingers h' !!! i) = LastX (fingers h !!! i)
  /\ LastY (fingers h' !!! i) = LastY (fingers h !!! i)
  /\ IsActive (fingers h' !!! i) = IsActive (fingers h !!! i)
  /\ (HasPositionX (fingers h' !!! i) = true ->
      HasPositionX (fingers h !!! i) = true)
  /\ (HasPositionY (fingers h' !!! i) = true ->
      HasPositionY (fingers h !!! i) = true).
Proof.
  intros H.
  destruct (detectGesture_shape _ _ _ _ H) as [->|[(k0 & ->)|(k0 & g & ->)]].
  - done.
  - rewrite resetAll_fingers. by cbn.
  - rewrite resetAll_fingers. by cbn.
Qed.

(** X5: a frame report changes neither the recorded positions of a finger
    nor which fingers are active, neither the finger count nor the current
    slot nor the configured counts; of a finger's has-position flags it can
    only clear the ones that are set. *)
Theorem frame_report_keeps_positions e h k h' k' :
  classify e = SynReport ->
  handleEvent Atan clock e h k = Done (tt, h', k') ->
  currentSlot h' = currentSlot h
  /\ fingerCount h' = fingerCount h
  /\ configuredFingers h' = configuredFingers h
  /\ forall i : fin 5,
       FirstX (fingers h' !!! i) = FirstX (fingers h !!! i)
       /\ FirstY (fingers h' !!! i) = FirstY (fingers h !!! i)
       /\ LastX (fingers h' !!! i) = LastX (fingers h !!! i)
       /\ LastY (fingers h' !!! i) = LastY (fingers h !!! i)
       /\ IsActive (fingers h' !!! i) = IsActive (fingers h !!! i)
       /\ (HasPositionX (fingers h' !!! i) = true ->
           HasPositionX (fingers h !!! i) = true)
       /\ (HasPositionY (fingers h' !!! i) = true ->
           HasPositionY (fingers h !!! i) = true).
Proof.
  intros Hkind. rewrite handleEvent_eq, Hkind.
  destruct (suspend h); [by intros [= <- _]|].
  intros H.
  destruct (detectGesture_effect Atan clock _ _ _ _ H) as (? & ? & ? & _).
  repeat (split; [done|]).
  intros i. by eapply detectGesture_fingers.
Qed.

(** *** The suspended flag and the last gesture *)

Lemma suspendMatchesLast_step e h k h' k' :
  suspendMatchesLast h ->
  handleEvent Atan clock e h k = Done (tt, h', k') ->
  suspendMatchesLast h'.
Proof.
  unfold suspendMatchesLast. intros Hinv. rewrite handleEvent_eq.
  destruct (classify e).
  - by intros [= <- _].
  - destruct (slotIndex (currentSlot h)) as [j|]; [|done].
    intros [= <- _].
    destruct (tracked_control clock e j h k) as (_ & _ & _ & Hz & Hnz).
    destruct (Z.eq_dec (fingerCount h) 0) as [E|E].
    + destruct (Hz E) as [-> ->]. split; done.
    + destruct (Hnz E) as [-> ->]. done.
  - destruct (slotIndex (currentSlot h)) as [j|]; [|done]. by intros [= <- _].
  - destruct (slotIndex (currentSlot h)) as [j|]; [|done]. by intros [= <- _].
  - destruct (suspend h) eqn:Hs; [intros [= <- _]; by rewrite Hs|].
    intros H.
    apply detectGesture_effect in H as (_ & _ & _ & [Hc|(g & Hg)]).
    + destruct Hc as (_ & -> & _ & -> & _). by rewrite Hs.
    + destruct Hg as (_ & _ & -> & -> & Hknown & _). done.
  - by intros [= <- _].
Qed.

Lemma suspendMatchesLast_run events : forall h k h' k',
  suspendMatchesLast h ->
  handleEvents Atan clock events h k = Done (tt, h', k') ->
  suspendMatchesLast h'.
Proof.
  induction events as [|e rest IH]; intros h k h' k' Hinv.
  - by intros [= <- _].
  - rewrite handleEvents_cons.
    destruct (handleEvent Atan clock e h k) as [[[[] h1] k1]|] eqn:E; [|done].
    apply IH. by eapply suspendMatchesLast_step.
Qed.

(** X6: in every state the handler reaches from its initial one, it is
    suspended exactly when the last gesture is not [UNKNOWN]; so whenever a
    detection cycle runs, the last gesture is [UNKNOWN], and the comparison
    of a detected gesture with the last one never holds a gesture back:
    a gesture that the cycle detects is sent. *)
Theorem suspended_iff_last_gesture (configured : gmap Z bool)
    (h : EventHandler) (k : nat) :
  reachable Atan clock configured h k ->
  (suspend h = true <-> lastGesture h <> UNKNOWN)
  /\ (suspend h = false ->
      forall g k1,
        g <> UNKNOWN ->
        report g h k1
          = Done (tt,
                  set_suspend true
                    (set_Gestures (Gestures h ++ [mkGesture g (fingerCount h)])
                       (set_lastGesture g h)), k1)).
Proof.
  intros [events Hrun].
  assert (suspendMatchesLast h) as Hinv.
  { eapply suspendMatchesLast_run; [|exact Hrun]. split; done. }
  split; [exact Hinv|].
  intros Hs g k1 Hg. apply report_fresh; [|done].
  destruct (decide (lastGesture h = UNKNOWN)) as [|Hne]; [done|].
  apply Hinv in Hne. congruence.
Qed.

(** *** The finger count *)

Lemma activeCount_eq h : activeCount h = countActive (fingers h).
Proof. reflexivity. Qed.

Lemma countActive_range v : 0 <= countActive v <= 5.
Proof.
  unfold countActive. inv_vec v; intros f0 f1 f2 f3 f4. cbn.
  destruct (IsActive f0), (IsActive f1), (IsActive f2), (IsActive f3),
    (IsActive f4); cbn; lia.
Qed.

Lemma countActive_ext (v w : vec Finger 5) :
  (forall i, IsActive (w !!! i) = IsActive (v !!! i)) ->
  countActive w = countActive v.
Proof.
  intros H. unfold countActive.
  pose proof (H 0%fin) as H0. pose proof (H 1%fin) as H1.
  pose proof (H 2%fin) as H2. pose proof (H 3%fin) as H3.
  pose proof (H 4%fin) as H4. clear H. revert H0 H1 H2 H3 H4.
  inv_vec v; intros f0 f1 f2 f3 f4. inv_vec w; intros g0 g1 g2 g3 g4.
  cbn. intros -> -> -> -> ->.
  by destruct (IsActive f0), (IsActive f1), (IsActive f2), (IsActive f3),
    (IsActive f4).
Qed.

(** Changing whether one finger is active changes the count by one. *)
Lemma countActive_flip (v w : vec Finger 5) (j : fin 5) :
  (forall i, i <> j -> IsActive (w !!! i) = IsActive (v !!! i)) ->
  IsActive (w !!! j) = negb (IsActive (v !!! j)) ->
  countActive w = countActive v + (if IsActive (w !!! j) then 1 else -1).
Proof.
  intros Hother Hj. unfold countActive. revert Hother Hj.
  inv_vec v; intros f0 f1 f2 f3 f4. inv_vec w; intros g0 g1 g2 g3 g4.
  intros Hother.
  assert (forall i : fin 5, i = j \/ i <> j) as Hdec.
  { intros i. destruct (decide (i = j)); auto. }
  inv_fin j; [|intros j; inv_fin j; [|intros j; inv_fin j;
    [|intros j; inv_fin j; [|intros j; inv_fin j; [|intros j; inv_fin j]]]]];
    intros Hother Hdec;
    (pose proof (Hother 0%fin) as H0; pose proof (Hother 1%fin) as H1;
     pose proof (Hother 2%fin) as H2; pose proof (Hother 3%fin) as H3;
     pose proof (Hother 4%fin) as H4; cbn in *;
     try rewrite H0 by done; try rewrite H1 by done;
     try rewrite H2 by done; try rewrite H3 by done;
     try rewrite H4 by done;
     intros ->;
     destruct (IsActive f0), (IsActive f1), (IsActive f2), (IsActive f3),
       (IsActive f4); cbn; lia).
Qed.

Lemma tracked_active e j h k i :
  IsActive (fingers (tracked clock e j h k) !!! i)
    = if decide (i = j) then negb (Value e =? -1)
      else IsActive (fingers h !!! i).
Proof.
  unfold tracked. cbn zeta.
  assert (forall h3 : EventHandler,
            fingers (if fingerCount h =? 0
                     then set_suspend false (set_lastGesture UNKNOWN h3)
                     else h3) = fingers h3) as ->.
  { intros h3. by destruct (fingerCount h =? 0). }
  rewrite resetAll_active.
  destruct (decide (i = j)) as [->|Hne].
  - destruct (Value e =? -1); cbn [fingers set_fingers];
      by rewrite vlookup_insert.
  - destruct (Value e =? -1); cbn [fingers set_fingers];
      by rewrite vlookup_insert_ne.
Qed.

Lemma tracked_fingerCount e j h k :
  fingerCount (tracked clock e j h k)
    = if Value e =? -1 then sub64 (fingerCount h) 1
      else add64 (fingerCount h) 1.
Proof.
  unfold tracked. cbn zeta.
  destruct (fingerCount h =? 0), (Value e =? -1); reflexivity.
Qed.

Lemma someActive_count h : 2 <= activeCount h -> someActive h = true.
Proof.
  unfold activeCount, someActive. destruct (activeFingers h); [cbn; lia|done].
Qed.

Lemma conforming_step e h k :
  countsFingers h ->
  conforming h e = true ->
  exists h' k',
    handleEvent Atan clock e h k = Done (tt, h', k') /\ countsFingers h'.
Proof.
  unfold countsFingers, conforming. intros [Hslot Hcount] Hconf.
  assert (admissible h e = true) as Hadm.
  { unfold admissible. destruct (classify e); try done.
    destruct (Z.leb_spec 2 (fingerCount h)); [|done].
    apply someActive_count. lia. }
  destruct (handleEvent_total Atan clock e h k Hslot Hadm)
    as (h' & k' & E & Hslot').
  exists h', k'. split; [done|]. split; [done|].
  pose proof E as E'. rewrite handleEvent_eq in E'.
  rewrite !activeCount_eq in *.
  destruct (classify e) eqn:Hkind.
  - by injection E' as <- _.
  - destruct (slotIndex (currentSlot h)) as [j|]; [|done].
    injection E' as <- _. rewrite tracked_fingerCount.
    pose proof (countActive_range (fingers h)) as Hrange.
    rewrite (countActive_flip (fingers h) _ j).
    + rewrite tracked_active. rewrite decide_True by done.
      unfold sub64, add64.
      destruct (Value e =? -1); cbn [negb];
        rewrite wrap64_id; unfold int64; lia.
    + intros i Hi. rewrite tracked_active. by rewrite decide_False.
    + rewrite tracked_active. rewrite decide_True by done.
      destruct (Value e =? -1); [by rewrite Hconf|].
      apply negb_true_iff in Hconf. by rewrite Hconf.
  - destruct (slotIndex (currentSlot h)) as [j|]; [|done].
    injection E' as <- _. cbn [fingerCount set_fingers fingers].
    rewrite Hcount. symmetry. apply countActive_ext. intros i.
    destruct (decide (i = j)) as [->|Hne].
    + rewrite vlookup_insert. apply setPositionX_fields.
    + by rewrite vlookup_insert_ne.
  - destruct (slotIndex (currentSlot h)) as [j|]; [|done].
    injection E' as <- _. cbn [fingerCount set_fingers fingers].
    rewrite Hcount. symmetry. apply countActive_ext. intros i.
    destruct (decide (i = j)) as [->|Hne].
    + rewrite vlookup_insert. apply setPositionY_fields.
    + by rewrite vlookup_insert_ne.
  - destruct (suspend h); [by injection E' as <- _|].
    destruct (detectGesture_effect Atan clock _ _ _ _ E') as (_ & -> & _).
    rewrite Hcount. symmetry. apply countActive_ext. intros i.
    by eapply detectGesture_fingers.
  - by injection E' as <- _.
Qed.

(** X7: when the events conform to the multi-touch protocol (slot-selects
    within 0..4, a contact added only in a slot that has none, removed only
    from a slot that has one), ingestion from the initial state never
    panics, and in the state it reaches the finger count is the number of
    active fingers (hence between 0 and 5) and the current slot is within
    the array. *)
Theorem conforming_events_counted (configured : gmap Z bool)
    (events : list InputEvent) :
  conformingRun Atan clock events (newEventHandler configured) 0%nat = true ->
  exists h k,
    handleEvents Atan clock events (newEventHandler configured) 0%nat
      = Done (tt, h, k)
    /\ fingerCount h = activeCount h
    /\ 0 <= fingerCount h <= 5
    /\ slotInRange h = true.
Proof.
  assert (forall evs h k,
            countsFingers h ->
            conformingRun Atan clock evs h k = true ->
            exists h' k',
              handleEvents Atan clock evs h k = Done (tt, h', k')
              /\ countsFingers h') as Hrun.
  { induction evs as [|e rest IH]; intros h k Hinv Hconf.
    - by exists h, k.
    - cbn [conformingRun] in Hconf.
      apply andb_true_iff in Hconf as [He Hrest].
      destruct (conforming_step e h k Hinv He) as (h1 & k1 & E & Hinv1).
      rewrite E in Hrest.
      destruct (IH h1 k1 Hinv1 Hrest) as (h' & k' & E' & Hinv').
      exists h', k'. by rewrite handleEvents_cons, E. }
  intros Hconf.
  destruct (Hrun events (newEventHandler configured) 0%nat) as (h & k & E & Hinv);
    [by split|done|].
  exists h, k. destruct Hinv as [Hslot Hcount].
  repeat (split; [done|]). split; [|done].
  rewrite Hcount, activeCount_eq. apply countActive_range.
Qed.

(** *** What a sent gesture says about the fingers *)

Lemma swipeLoop_agree slots : forall timeDiff sw g h k g' h' k',
  0%fin ∉ slots ->
  swipeLoop Atan clock slots timeDiff sw g h k = Done (Some (true, g'), h', k') ->
  g' = g
  /\ Forall (swipedTo Atan g)
       (List.filter IsActive (map (fun i => fingers h !!! i) slots)).
Proof.
  induction slots as [|i rest IH]; intros timeDiff sw g h k g' h' k' Hnot.
  - intros [= _ <- _ _]. split; [done|constructor].
  - apply not_elem_of_cons in Hnot as [Hi Hrest].
    rewrite swipeLoop_cons. cbn zeta. cbn [map List.filter].
    destruct (IsActive (fingers h !!! i)); cbn [negb]; [|by apply IH].
    destruct (fst (swipedAt clock DIST_SWIPE (fingers h !!! i) k)) eqn:Hsw.
    + rewrite bool_decide_eq_false_2 by done.
      case_bool_decide as Hdir; [done|].
      intros H. destruct (IH _ _ _ _ _ _ _ _ Hrest H) as [-> Hall].
      split; [done|]. constructor; [|done].
      apply swipedAt_true in Hsw as (? & ? & _). by repeat split.
    + by destruct (220 * Millisecond <? timeDiff).
Qed.

(** When the loop ends with a swipe, the finger of slot 0 is active and
    every active finger has swiped in the direction that is reported. *)
Lemma swipeLoop_swipe timeDiff h k g h' k' :
  swipeLoop Atan clock allSlots timeDiff false UNKNOWN h k
    = Done (Some (true, g), h', k') ->
  IsActive (fingers h !!! 0%fin) = true
  /\ Forall (swipedTo Atan g) (activeFingers h).
Proof.
  unfold activeFingers. rewrite <- allSlots_fingers.
  assert (0%fin ∉ [1%fin; 2%fin; 3%fin; 4%fin : fin 5]) as Hnot.
  { rewrite !not_elem_of_cons. repeat split; try done. apply not_elem_of_nil. }
  unfold allSlots. rewrite swipeLoop_cons. cbn zeta. cbn [map List.filter].
  destruct (IsActive (fingers h !!! 0%fin)); cbn [negb].
  - destruct (fst (swipedAt clock DIST_SWIPE (fingers h !!! 0%fin) k)) eqn:Hsw.
    + rewrite bool_decide_eq_true_2 by done.
      intros H. destruct (swipeLoop_agree _ _ _ _ _ _ _ _ _ Hnot H) as [-> Hall].
      split; [done|]. constructor; [|done].
      apply swipedAt_true in Hsw as (? & ? & _). by repeat split.
    + by destruct (220 * Millisecond <? timeDiff).
  - intros H. by apply swipeLoop_without_slot0 in H.
Qed.

(** When the loop ends, some active finger has moved past the threshold of
    a swipe, unless no finger is active. *)
Lemma swipeLoop_some_swiped slots : forall timeDiff sw g h k r h' k',
  swipeLoop Atan clock slots timeDiff sw g h k = Done (Some r, h', k') ->
  List.filter IsActive (map (fun i => fingers h !!! i) slots) = []
  \/ Exists (fun f => DIST_SWIPE < getDistance f)
       (List.filter IsActive (map (fun i => fingers h !!! i) slots)).
Proof.
  induction slots as [|i rest IH]; intros timeDiff sw g h k r h' k'.
  - intros _. by left.
  - rewrite swipeLoop_cons. cbn zeta. cbn [map List.filter].
    destruct (IsActive (fingers h !!! i)); cbn [negb]; [|by apply IH].
    destruct (fst (swipedAt clock DIST_SWIPE (fingers h !!! i) k)) eqn:Hsw.
    + intros _. right. apply Exists_cons_hd.
      by apply swipedAt_true in Hsw as (_ & ? & _).
    + by destruct (220 * Millisecond <? timeDiff).
Qed.

Lemma getDirection_isSwipeKind f : isSwipeKind (getDirection Atan f) = true.
Proof.
  unfold getDirection.
  destruct (directionOfAngle_buckets (getAngle Atan f)) as (B1 & B2 & B3 & B4).
  destruct (Z.le_gt_cases 45 (getAngle Atan f));
    [destruct (Z.le_gt_cases (getAngle Atan f) 135);
     [by rewrite B1 by lia|]|by rewrite B4 by lia].
  destruct (Z.le_gt_cases (getAngle Atan f) 225); [by rewrite B2 by lia|].
  destruct (Z.le_gt_cases (getAngle Atan f) 315);
    [by rewrite B3 by lia|by rewrite B4 by lia].
Qed.

Lemma activeFingers_slot0 h :
  IsActive (fingers h !!! 0%fin) = true ->
  exists fs, activeFingers h = fingers h !!! 0%fin :: fs.
Proof.
  unfold activeFingers. destruct h as [v ? ? ? ? ? ? ?]. cbn [fingers].
  inv_vec v; intros f0 f1 f2 f3 f4. cbn. intros ->. eauto.
Qed.

(** How a detection cycle comes to send a gesture. *)
Lemma detectGesture_sent h k h' k' G :
  detectGesture Atan clock h k = Done (tt, h', k') ->
  Gestures h' = Gestures h ++ [G] ->
  detectionSkipped h (elapsed (clock k) (checkTimer h)) = false
  /\ ((exists k1,
         swipeLoop Atan clock allSlots (elapsed (clock k) (checkTimer h))
           false UNKNOWN h (S k) = Done (Some (true, GestureType G), h, k1))
      \/ (exists g0 k1 k2,
            swipeLoop Atan clock allSlots (elapsed (clock k) (checkTimer h))
              false UNKNOWN h (S k) = Done (Some (false, g0), h, k1)
            /\ calculateGesture clock h k1 = Done (GestureType G, h, k2)
            /\ GestureType G <> UNKNOWN)).
Proof.
  rewrite detectGesture_eq. cbn zeta. intros Hrun HG.
  assert (forall h0, Gestures h' = Gestures h0 -> Gestures h0 = Gestures h ->
                     False) as Hsame.
  { intros h0 E1 E2. rewrite E1, E2 in HG. by apply app_singleton_ne in HG. }
  destruct (detectionSkipped h _) eqn:Hskip.
  { injection Hrun as <- _. by destruct (Hsame h). }
  split; [done|].
  destruct (swipeLoop Atan clock allSlots (elapsed (clock k) (checkTimer h))
              false UNKNOWN h (S k)) as [[[r h1] k1]|] eqn:Eloop; [|done].
  destruct (swipeLoop_result Atan clock allSlots
              (elapsed (clock k) (checkTimer h)) false UNKNOWN h (S k))
    as (r' & h1' & k1' & E' & Hsome & Hh1).
  rewrite Eloop in E'. injection E' as <- <- <-.
  assert (forall g k2,
            Done (tt, resetAll clock k2
                        (if bool_decide (lastGesture h <> g)
                         then reported g h else h), (6 + k2)%nat)
              = Done (tt, h', k') -> g = GestureType G) as Hreport.
  { intros g k2 [= <- _]. case_bool_decide.
    - cbn in HG. apply app_inv_head in HG. by injection HG as <-.
    - by destruct (Hsame h). }
  destruct r as [[sw g]|].
  - rewrite (Hsome ltac:(done)) in *. clear Hsome Hh1 h1. destruct sw.
    + rewrite afterLoop_swipe in Hrun. apply Hreport in Hrun as ->.
      left. by exists k1.
    + rewrite afterLoop_other in Hrun.
      destruct (calculateGesture clock h k1) as [[[g' h2] k2]|] eqn:Ecalc;
        [|done].
      apply calculateGesture_state in Ecalc as Hh2. subst h2.
      case_bool_decide as Hknown; cbn [andb] in Hrun.
      * apply Hreport in Hrun as ->. right. by exists g, k1, k2.
      * injection Hrun as <- _. by destruct (Hsame h).
  - injection Hrun as <- _. destruct Hh1 as [->|[k0 ->]]; by destruct (Hsame h).
Qed.

(** X8: a gesture is sent only by a frame report, while the handler is not
    suspended and at least 50 ms after the last reset.  If it is a swipe,
    the finger of slot 0 is active and every active finger has a position,
    has moved more than 1100 units and has the direction that is sent.  If
    it is a pinch or a spread, every active finger has a position and has
    moved more than 500 units, and at least one of them more than 1100
    units. *)
Theorem sent_gesture_sound e h k h' k' G :
  handleEvent Atan clock e h k = Done (tt, h', k') ->
  Gestures h' = Gestures h ++ [G] ->
  classify e = SynReport
  /\ suspend h = false
  /\ 50 * Millisecond <= elapsed (clock k) (checkTimer h)
  /\ ((isSwipeKind (GestureType G) = true
       /\ IsActive (fingers h !!! 0%fin) = true
       /\ Forall (fun f => hasPosition f = true /\ 1100 < getDistance f
                           /\ getDirection Atan f = GestureType G)
            (activeFingers h))
      \/ (isRadialKind (GestureType G) = true
          /\ Forall (fun f => hasPosition f = true /\ 500 < getDistance f)
               (activeFingers h)
          /\ Exists (fun f => 1100 < getDistance f) (activeFingers h))).
Proof.
  intros He HG.
  assert (Gestures h' = Gestures h -> False) as Hsame.
  { intros E. rewrite E in HG. by apply app_singleton_ne in HG. }
  rewrite handleEvent_eq in He.
  destruct (classify e).
  - injection He as <- _. by destruct Hsame.
  - destruct (slotIndex (currentSlot h)) as [j|]; [|done].
    injection He as <- _. destruct Hsame. apply tracked_control.
  - destruct (slotIndex (currentSlot h)) as [j|]; [|done].
    injection He as <- _. by destruct Hsame.
  - destruct (slotIndex (currentSlot h)) as [j|]; [|done].
    injection He as <- _. by destruct Hsame.
  - destruct (suspend h); [injection He as <- _; by destruct Hsame|].
    split; [done|]. split; [done|].
    destruct (detectGesture_sent _ _ _ _ _ He HG) as [Hskip Hcases].
    split.
    { unfold detectionSkipped in Hskip.
      apply orb_false_iff in Hskip as [_ Ht]. by apply Z.ltb_ge in Ht. }
    destruct Hcases as [(k1 & Hloop)|(g0 & k1 & k2 & Hloop & Hcalc & Hknown)].
    + left. destruct (swipeLoop_swipe _ _ _ _ _ _ Hloop) as [H0 Hall].
      split.
      { destruct (activeFingers_slot0 h H0) as [fs Hfs].
        rewrite Hfs in Hall. apply Forall_cons in Hall as [(_ & _ & <-) _].
        apply getDirection_isSwipeKind. }
      split; [done|]. exact Hall.
    + right.
      apply swipeLoop_some_swiped in Hloop. rewrite allSlots_fingers in Hloop.
      fold (activeFingers h) in Hloop.
      rewrite calculateGesture_eq in Hcalc.
      destruct (collectPositions clock allSlots [] [] h k1)
        as [[[[[starts ends]|] h1] k3]|] eqn:E; [| |done].
      * pose proof (collectPositions_moved _ _ _ _ _ _ _ _ _ E) as Hmoved.
        rewrite allSlots_fingers in Hmoved. fold (activeFingers h) in Hmoved.
        destruct (collectPositions_result clock allSlots [] [] h k1)
          as (r & k4 & E2 & _ & Hr).
        rewrite E in E2. injection E2 as <- _ _.
        destruct (Hr starts ends eq_refl) as [Hs He']. cbn [app] in Hs, He'.
        rewrite allSlots_fingers in Hs. fold (activeFingers h) in Hs.
        destruct (calculateCircumference starts) as [a|] eqn:Ea; [|done].
        destruct (calculateCircumference ends) as [b|]; [|done].
        injection Hcalc as Hg _ _.
        split; [rewrite <- Hg; by destruct (b <? a)|].
        split; [exact Hmoved|].
        destruct Hloop as [Hnil|Hex]; [|exact Hex].
        rewrite Hnil in Hs. subst starts. done.
      * injection Hcalc as Hg _ _. by destruct Hknown.
  - injection He as <- _. by destruct Hsame.
Qed.

(** *** Movements that are not finished *)

Lemma notYetSwiped_swipedAt f k :
  notYetSwiped f -> fst (swipedAt clock DIST_SWIPE f k) = false.
Proof.
  unfold swipedAt. intros [Hpos|Hd].
  - by rewrite Hpos.
  - destruct (hasPosition f); [|done]. cbn [fst].
    destruct (Z.ltb_spec DIST_SWIPE (getDistance f)); [lia|].
    apply andb_false_r.
Qed.

Lemma swipeLoop_unfinished slots : forall timeDiff sw g h k,
  Forall notYetSwiped
    (List.filter IsActive (map (fun i => fingers h !!! i) slots)) ->
  List.filter IsActive (map (fun i => fingers h !!! i) slots) <> [] ->
  exists k1,
    (k <= k1)%nat
    /\ swipeLoop Atan clock slots timeDiff sw g h k
       = if 220 * Millisecond <? timeDiff
         then Done (None, resetAll clock k1 h, (6 + k1)%nat)
         else Done (None, h, k1).
Proof.
  induction slots as [|i rest IH]; intros timeDiff sw g h k Hall Hne; [done|].
  rewrite swipeLoop_cons. cbn zeta. cbn [map List.filter] in Hall, Hne.
  destruct (IsActive (fingers h !!! i)); cbn [negb]; [|by apply IH].
  apply Forall_cons in Hall as [Hi _].
  rewrite (notYetSwiped_swipedAt _ k Hi).
  exists (snd (swipedAt clock DIST_SWIPE (fingers h !!! i) k)).
  split; [|done].
  destruct (swipedAt_readings clock DIST_SWIPE (fingers h !!! i) k); lia.
Qed.

(** X9: when a detection cycle runs while fingers are active but none has
    moved past 1100 units (or has a position yet), it sends nothing; up to
    220 ms after the last reset it leaves the handler as it is, and later
    than that it resets all the fingers and the timer, so that the distance
    is measured anew from the next positions. *)
Theorem unfinished_movement (h : EventHandler) (k : nat) :
  detectionSkipped h (elapsed (clock k) (checkTimer h)) = false ->
  activeFingers h <> [] ->
  Forall (fun f => hasPosition f = false \/ getDistance f <= 1100)
    (activeFingers h) ->
  exists k1,
    (elapsed (clock k) (checkTimer h) <= 220 * Millisecond ->
     detectGesture Atan clock h k = Done (tt, h, k1))
    /\ (220 * Millisecond < elapsed (clock k) (checkTimer h) ->
        detectGesture Atan clock h k
          = Done (tt, resetAll clock k1 h, (6 + k1)%nat)
        /\ Gestures (resetAll clock k1 h) = Gestures h
        /\ checkTimer (resetAll clock k1 h) = at_ns (clock (5 + k1)%nat)
        /\ forall i : fin 5,
             hasPosition (fingers (resetAll clock k1 h) !!! i) = false).
Proof.
  intros Hskip Hne Hall. unfold activeFingers in *.
  rewrite <- allSlots_fingers in *.
  destruct (swipeLoop_unfinished allSlots (elapsed (clock k) (checkTimer h))
              false UNKNOWN h (S k) Hall Hne) as (k1 & _ & Hloop).
  exists k1. rewrite detectGesture_eq. cbn zeta. rewrite Hskip, Hloop.
  split; intros Ht.
  - by destruct (Z.ltb_spec (220 * Millisecond) (elapsed (clock k) (checkTimer h)));
      [lia|].
  - destruct (Z.ltb_spec (220 * Millisecond) (elapsed (clock k) (checkTimer h)));
      [|lia].
    repeat (split; [done|]). intros i. by rewrite resetAll_fingers.
Qed.

(** *** The two delays *)

Lemma resetAll_timesOrdered k0 h :
  monotone clock -> timesOrdered (resetAll clock k0 h).
Proof.
  intros Hmono i. rewrite resetAll_fingers. cbn.
  apply Hmono. pose proof (fin_to_nat_lt i). lia.
Qed.

Lemma timesOrdered_step e h k h' k' :
  monotone clock ->
  timesOrdered h ->
  handleEvent Atan clock e h k = Done (tt, h', k') ->
  timesOrdered h'.
Proof.
  intros Hmono Hinv. rewrite handleEvent_eq.
  destruct (classify e).
  - by intros [= <- _].
  - destruct (slotIndex (currentSlot h)) as [j|]; [|done].
    intros [= <- _]. unfold tracked. cbn zeta.
    match goal with
    | |- timesOrdered (if _ then set_suspend false (set_lastGesture UNKNOWN ?x)
                       else _) =>
        assert (timesOrdered x) as Hx by by apply resetAll_timesOrdered
    end.
    by destruct (fingerCount h =? 0).
  - destruct (slotIndex (currentSlot h)) as [j|]; [|done].
    intros [= <- _] i. cbn [fingers set_fingers checkTimer].
    destruct (decide (i = j)) as [->|Hne].
    + rewrite vlookup_insert.
      destruct (setPositionX_fields (Value e) (fingers h !!! j))
        as (_ & _ & _ & _ & _ & _ & _ & ->). apply Hinv.
    + rewrite vlookup_insert_ne by done. apply Hinv.
  - destruct (slotIndex (currentSlot h)) as [j|]; [|done].
    intros [= <- _] i. cbn [fingers set_fingers checkTimer].
    destruct (decide (i = j)) as [->|Hne].
    + rewrite vlookup_insert.
      destruct (setPositionY_fields (Value e) (fingers h !!! j))
        as (_ & _ & _ & _ & _ & _ & _ & ->). apply Hinv.
    + rewrite vlookup_insert_ne by done. apply Hinv.
  - destruct (suspend h); [by intros [= <- _]|].
    intros H.
    destruct (detectGesture_shape _ _ _ _ H) as [->|[(k0 & ->)|(k0 & g & ->)]];
      [done|by apply resetAll_timesOrdered..].
  - by intros [= <- _].
Qed.

Lemma timesOrdered_run events : forall h k h' k',
  monotone clock ->
  timesOrdered h ->
  handleEvents Atan clock events h k = Done (tt, h', k') ->
  timesOrdered h'.
Proof.
  induction events as [|e rest IH]; intros h k h' k' Hmono Hinv.
  - by intros [= <- _].
  - rewrite handleEvents_cons.
    destruct (handleEvent Atan clock e h k) as [[[[] h1] k1]|] eqn:E; [|done].
    apply IH; [done|]. by eapply timesOrdered_step.
Qed.

(** X10: with a clock that never goes back, in every state the handler
    reaches, once the delay of 50 ms since the last reset has passed (the
    cycle is not skipped) the delay that [hasSwiped] checks for each finger
    has passed as well: during the cycle [hasSwiped(T)] is true exactly for
    the fingers that have a position and have moved more than [T]. *)
Theorem delay_checked_once (configured : gmap Z bool) (h : EventHandler)
    (k0 k : nat) :
  monotone clock ->
  reachable Atan clock configured h k0 ->
  detectionSkipped h (elapsed (clock k) (checkTimer h)) = false ->
  forall (i : fin 5) (T : Z) (k' : nat),
    (k <= k')%nat ->
    exists k'',
      hasSwiped clock T (fingers h !!! i) k'
        = Done (hasPosition (fingers h !!! i)
                && bool_decide (T < getDistance (fingers h !!! i)),
                fingers h !!! i, k'').
Proof.
  intros Hmono [events Hrun] Hskip i T k' Hk.
  assert (timesOrdered h) as Hinv.
  { eapply timesOrdered_run; [done| |exact Hrun].
    intros j. cbn [newEventHandler fingers]. by rewrite vlookup_replicate. }
  unfold detectionSkipped in Hskip.
  apply orb_false_iff in Hskip as [_ Ht]. apply Z.ltb_ge in Ht.
  rewrite hasSwiped_eq. unfold swipedAt.
  destruct (hasPosition (fingers h !!! i)); cbn [fst snd andb]; [|eauto].
  assert (50 * Millisecond
          <= elapsed (clock k') (ActivationTime (fingers h !!! i))) as Hact.
  { specialize (Hinv i). specialize (Hmono k k' Hk).
    unfold notAfter, elapsed in *.
    destruct (ActivationTime (fingers h !!! i)) as [|a];
      [unfold maxDuration, Millisecond; lia|].
    destruct (checkTimer h) as [|c]; [done|].
    unfold minDuration, maxDuration in *. lia. }
  destruct (Z.ltb_spec (elapsed (clock k') (ActivationTime (fingers h !!! i)))
              (50 * Millisecond)); [lia|]. cbn [negb andb].
  exists (S k'). do 3 f_equal.
  destruct (Z.ltb_spec T (getDistance (fingers h !!! i))).
  - by rewrite bool_decide_eq_true_2.
  - rewrite bool_decide_eq_false_2; [done|lia].
Qed.

End HandlerInvariants.

(** ** Names, configuration and dispatch *)

(** *** The printed name of a gesture *)

Lemma append_nonempty s c : s +:+ String c "" <> "".
Proof. by destruct s. Qed.

Lemma append_char_inj c s : forall t,
  s +:+ String c "" = t +:+ String c "" -> s = t.
Proof.
  induction s as [|a s IH]; intros [|b t]; cbn; intros H.
  - done.
  - injection H as _ H. symmetry in H. by apply append_nonempty in H.
  - injection H as _ H. by apply append_nonempty in H.
  - injection H as -> H. f_equal. by apply IH.
Qed.

(** X11: the text that [Gesture.String] prints determines the gesture: two
    gestures are printed alike only if they have the same type and the same
    number of fingers. *)
Theorem Gesture_String_inj gest gest' :
  Gesture_String gest = Gesture_String gest' <-> gest = gest'.
Proof.
  split; [|by intros ->].
  destruct gest as [g n], gest' as [g' n']. unfold Gesture_String.
  cbn [GestureType FingerCount]. intros H.
  assert (g = g') as <-.
  { destruct g, g'; try reflexivity; cbn in H; discriminate H. }
  f_equal.
  assert (Itoa n +:+ ")" = Itoa n' +:+ ")") as Hn.
  { destruct g; cbn in H; by simplify_eq. }
  apply append_char_inj in Hn. by apply pretty_Z_inj in Hn.
Qed.

(** *** The configured numbers of fingers *)

Lemma len_zero s : len s = 0 <-> s = "".
Proof. unfold len. destruct s; cbn; split; (done || lia). Qed.

Lemma len_eqb s : (len s =? 0) = bool_decide (s = "").
Proof.
  case_bool_decide as H.
  - apply Z.eqb_eq. by apply len_zero.
  - apply Z.eqb_neq. by rewrite len_zero.
Qed.

Lemma len_ltb s : (0 <? len s) = negb (len s =? 0).
Proof.
  unfold len. destruct (Z.eqb_spec (Z.of_nat (String.length s)) 0) as [->|H];
    [done|]. cbn. apply Z.ltb_lt. lia.
Qed.

Lemma mark_fold (P : Z -> bool) js : forall (fs : gmap Z bool) n,
  fold_left (fun fs j => if P j then <[j := true]> fs else fs) js fs !! n
  = if existsb (fun j => (j =? n) && P j) js then Some true else fs !! n.
Proof.
  induction js as [|j js IH]; intros fs n; [reflexivity|].
  cbn [fold_left existsb]. rewrite IH.
  destruct (existsb _ js); [by rewrite orb_true_r|]. rewrite orb_false_r.
  destruct (P j); [|by rewrite andb_false_r]. rewrite andb_true_r.
  destruct (Z.eqb_spec j n) as [->|Hne].
  - by rewrite lookup_insert_eq.
  - by rewrite lookup_insert_ne.
Qed.

Lemma markFingers_lookup name fs n :
  markFingers name fs !! n = if mentions name n then Some true else fs !! n.
Proof.
  unfold markFingers, mentions.
  apply (mark_fold (fun j => negb (strings_Index name (Itoa j) =? -1))).
Qed.

Lemma fields_fold fields : forall (fs : gmap Z bool) n,
  fold_left
    (fun fs field =>
       if len (snd field) =? 0 then fs else markFingers (fst field) fs)
    fields fs !! n
  = if existsb
         (fun field => negb (len (snd field) =? 0) && mentions (fst field) n)
         fields
    then Some true else fs !! n.
Proof.
  induction fields as [|[name v] fields IH]; intros fs n; [reflexivity|].
  cbn [fold_left existsb fst snd]. rewrite IH.
  destruct (existsb _ fields); [by rewrite orb_true_r|]. rewrite orb_false_r.
  destruct (len v =? 0); cbn [negb andb]; [done|].
  apply markFingers_lookup.
Qed.

(** Evaluates the tests of the names of the fields. *)
Ltac eval_index :=
  repeat match goal with
  | |- context [strings_Index ?name (Itoa ?j) =? -1] =>
      let b := eval vm_compute in (strings_Index name (Itoa j) =? -1) in
      change (strings_Index name (Itoa j) =? -1) with b
  end.

Lemma fields_mention n a :
  existsb
    (fun field => negb (len (snd field) =? 0) && mentions (fst field) n)
    (structFields a)
  = hasActionForb n a.
Proof.
  unfold structFields, hasActionForb, fieldKinds, actionField, mentions.
  cbn [existsb fst snd]. eval_index. cbn [negb].
  rewrite ?andb_false_r, ?andb_true_r, ?orb_false_r.
  destruct (Z.eqb_spec n 2) as [->|?].
  { cbn [Z.eqb Pos.eqb]. rewrite ?andb_false_r, ?andb_true_r. cbn [orb].
    by rewrite ?orb_false_r. }
  destruct (Z.eqb_spec n 3) as [->|?].
  { cbn [Z.eqb Pos.eqb]. rewrite ?andb_false_r, ?andb_true_r. cbn [orb].
    by rewrite ?orb_false_r. }
  destruct (Z.eqb_spec n 4) as [->|?].
  { cbn [Z.eqb Pos.eqb]. rewrite ?andb_false_r, ?andb_true_r. cbn [orb].
    by rewrite ?orb_false_r. }
  destruct (Z.eqb_spec n 5) as [->|?].
  { cbn [Z.eqb Pos.eqb]. rewrite ?andb_false_r, ?andb_true_r. cbn [orb].
    by rewrite ?orb_false_r. }
  rewrite (proj2 (Z.eqb_neq 2 n)), (proj2 (Z.eqb_neq 3 n)),
    (proj2 (Z.eqb_neq 4 n)), (proj2 (Z.eqb_neq 5 n)) by lia.
  rewrite ?andb_false_r. reflexivity.
Qed.

Lemma collectionFingers_lookup a fs n :
  collectionFingers a fs !! n
  = if hasActionForb n a then Some true else fs !! n.
Proof. unfold collectionFingers. by rewrite fields_fold, fields_mention. Qed.

Lemma actionField_range g n a : actionField g n a <> "" -> 2 <= n <= 5.
Proof.
  unfold actionField.
  destruct (Z.eqb_spec n 2), (Z.eqb_spec n 3), (Z.eqb_spec n 4),
    (Z.eqb_spec n 5); try lia; by destruct g.
Qed.

Lemma hasActionForb_spec n a : hasActionForb n a = true <-> hasActionFor n a.
Proof.
  unfold hasActionForb, hasActionFor. rewrite existsb_exists. split.
  - intros (g & _ & Hg). exists g. rewrite len_eqb in Hg.
    by case_bool_decide.
  - intros (g & Hg). exists g. split.
    + unfold fieldKinds. destruct g; cbn; tauto.
    + rewrite len_eqb. by case_bool_decide.
Qed.

Lemma getConfiguredFingers_lookup cfg n b :
  getConfiguredFingers cfg !! n = Some b
  <-> b = true
      /\ exists className a,
           Actions cfg !! className = Some a /\ hasActionFor n a.
Proof.
  revert b. unfold getConfiguredFingers.
  apply (map_fold_weak_ind
    (fun r (m : gmap string ActionCollection) =>
       forall b, r !! n = Some b
         <-> b = true
             /\ exists className a,
                  m !! className = Some a /\ hasActionFor n a)).
  - intros b. rewrite lookup_empty. split; [done|].
    intros (_ & c & a & Hc & _). by rewrite lookup_empty in Hc.
  - intros i x m r Hi IH b. rewrite collectionFingers_lookup.
    destruct (hasActionForb n x) eqn:Hx.
    + apply hasActionForb_spec in Hx. split.
      * intros [= <-]. split; [done|]. exists i, x.
        by rewrite lookup_insert_eq.
      * by intros [-> _].
    + rewrite IH. split.
      * intros (-> & c & a & Hc & Ha). split; [done|]. exists c, a.
        split; [|done]. rewrite lookup_insert_ne; [done|]. congruence.
      * intros (-> & c & a & Hc & Ha). split; [done|].
        apply lookup_insert_Some in Hc as [[<- <-]|[Hne Hc]].
        -- apply hasActionForb_spec in Ha. congruence.
        -- by exists c, a.
Qed.

(** X12: [getConfiguredFingers] holds the value [true], and only it, for
    exactly the numbers of fingers [n] for which the collection of some
    window class has a non-empty command for some kind of gesture; every
    key of the result lies between 2 and 5. *)
Theorem getConfiguredFingers_spec cfg n :
  (forall b,
     getConfiguredFingers cfg !! n = Some b
     <-> b = true
         /\ exists className a,
              Actions cfg !! className = Some a /\ hasActionFor n a)
  /\ (is_Some (getConfiguredFingers cfg !! n) -> 2 <= n <= 5).
Proof.
  split; [intros b; apply getConfiguredFingers_lookup|].
  intros [b Hb]. apply getConfiguredFingers_lookup in Hb
    as (_ & c & a & _ & g & Hg).
  by eapply actionField_range.
Qed.

(** *** The command of a gesture *)

Section DispatchProperties.

Variable Parse : string -> option (list string).

Lemma createCommand_eq command :
  createCommand Parse command
  = match Parse command with
    | None => Done None
    | Some [] => Panic
    | Some (name :: rest) => Done (Some (mkCmd name (name :: rest)))
    end.
Proof.
  unfold createCommand, exec_Command.
  destruct (Parse command) as [[|name [|w rest]]|]; try reflexivity.
  destruct (Z.ltb_spec 1 (Z.of_nat (length (name :: w :: rest)))) as [_|H];
    [reflexivity|].
  cbn [length] in H. lia.
Qed.

Lemma fingerSwitch_eq n c2 c3 c4 c5 :
  fingerSwitch Parse n [(2, c2); (3, c3); (4, c4); (5, c5)]
  = let t := if n =? 2 then c2 else if n =? 3 then c3 else if n =? 4 then c4
             else if n =? 5 then c5 else "" in
    if len t =? 0 then Done None else createCommand Parse t.
Proof.
  cbn [fingerSwitch]. rewrite !len_ltb. cbn zeta.
  destruct (Z.eqb_spec n 2) as [->|?]; cbn [andb].
  { by destruct (len c2 =? 0). }
  destruct (Z.eqb_spec n 3) as [->|?]; cbn [andb].
  { by destruct (len c3 =? 0). }
  destruct (Z.eqb_spec n 4) as [->|?]; cbn [andb].
  { by destruct (len c4 =? 0). }
  destruct (Z.eqb_spec n 5) as [->|?]; cbn [andb].
  { by destruct (len c5 =? 0). }
  reflexivity.
Qed.

Lemma getCommand_eq gest a :
  getCommand Parse gest a
  = if len (commandText gest a) =? 0 then Done None
    else createCommand Parse (commandText gest a).
Proof.
  unfold getCommand, commandText, actionField.
  destruct (GestureType gest); try apply fingerSwitch_eq. reflexivity.
Qed.


Lemma getCommand_nothing gest a :
  getCommand Parse gest a = Done None <-> yieldsNothing Parse gest a.
Proof.
  rewrite getCommand_eq, len_eqb, createCommand_eq. unfold yieldsNothing.
  case_bool_decide as Ht.
  - split; [by left|done].
  - destruct (Parse (commandText gest a)) as [[|name rest]|] eqn:HP.
    + split; [done|]. by intros [|].
    + split; [done|]. by intros [|].
    + split; [by right|done].
Qed.




Lemma unconfigured_nothing gest cfg a className :
  getConfiguredFingers cfg !! FingerCount gest = None ->
  Actions cfg !! className = Some a ->
  getCommand Parse gest a = Done None.
Proof.
  intros Hnone Ha. apply getCommand_nothing. left.
  destruct (decide (commandText gest a = "")) as [|Hne]; [done|].
  exfalso.
  assert (getConfiguredFingers cfg !! FingerCount gest = Some true) as Hs.
  { apply getConfiguredFingers_lookup. split; [done|].
    exists className, a. split; [done|]. by exists (GestureType gest). }
  congruence.
Qed.

(** X15: the filter of the detector loses no command: for a gesture whose
    number of fingers is not a key of [getConfiguredFingers], [handleGesture]
    runs nothing, whatever the type of the gesture and the active window,
    and does not panic. *)
Theorem unconfigured_count_has_no_command gest cfg :
  getConfiguredFingers cfg !! FingerCount gest = None ->
  forall className, handleGesture Parse className gest cfg = Done None.
Proof.
  intros Hnone className. unfold handleGesture.
  assert (runCommandOf Parse gest (Actions cfg !! "") = Done None) as Hglobal.
  { destruct (Actions cfg !! "") as [g|] eqn:Hg; [|done].
    by eapply unconfigured_nothing. }
  destruct (Actions cfg !! className) as [a|] eqn:Ha; [|done].
  by rewrite (unconfigured_nothing gest cfg a className).
Qed.

End DispatchProperties.

(** ** The detector as [main] sets it up *)

Section Wiring.

Variable Atan : float -> float.
Variable clock : nat -> Z.

Lemma handleEvent_configured e h k h' k' :
  handleEvent Atan clock e h k = Done (tt, h', k') ->
  configuredFingers h' = configuredFingers h.
Proof.
  rewrite handleEvent_eq.
  destruct (classify e).
  - by intros [= <- _].
  - destruct (slotIndex (currentSlot h)) as [j|]; [|done].
    intros [= <- _]. apply tracked_control.
  - destruct (slotIndex (currentSlot h)) as [j|]; [|done]. by intros [= <- _].
  - destruct (slotIndex (currentSlot h)) as [j|]; [|done]. by intros [= <- _].
  - destruct (suspend h); [by intros [= <- _]|].
    intros H. by apply detectGesture_effect in H as (_ & _ & ? & _).
  - by intros [= <- _].
Qed.

Lemma handleEvents_configured events : forall h k h' k',
  handleEvents Atan clock events h k = Done (tt, h', k') ->
  configuredFingers h' = configuredFingers h.
Proof.
  induction events as [|e rest IH]; intros h k h' k'.
  - by intros [= <- _].
  - rewrite handleEvents_cons.
    destruct (handleEvent Atan clock e h k) as [[[[] h1] k1]|] eqn:E; [|done].
    intros H. apply IH in H. rewrite H. by eapply handleEvent_configured.
Qed.

Lemma sent_gesture_configured e h k h' k' G :
  handleEvent Atan clock e h k = Done (tt, h', k') ->
  Gestures h' = Gestures h ++ [G] ->
  GestureType G <> UNKNOWN
  /\ is_Some (configuredFingers h !! FingerCount G).
Proof.
  rewrite handleEvent_eq. intros He HG.
  assert (Gestures h' = Gestures h -> False) as Hsame.
  { intros E. rewrite E in HG. by apply app_singleton_ne in HG. }
  destruct (classify e).
  - injection He as <- _. by destruct Hsame.
  - destruct (slotIndex (currentSlot h)) as [j|]; [|done].
    injection He as <- _. destruct Hsame. apply tracked_control.
  - destruct (slotIndex (currentSlot h)) as [j|]; [|done].
    injection He as <- _. by destruct Hsame.
  - destruct (slotIndex (currentSlot h)) as [j|]; [|done].
    injection He as <- _. by destruct Hsame.
  - destruct (suspend h); [injection He as <- _; by destruct Hsame|].
    apply detectGesture_effect in He as (_ & _ & _ & [Hc|(g0 & Hg0)]).
    + destruct Hsame. apply Hc.
    + destruct Hg0 as (_ & HG0 & _ & _ & Hknown & Hskip).
      rewrite HG0 in HG. apply app_inv_head in HG. injection HG as <-.
      cbn [GestureType FingerCount]. split; [done|].
      unfold detectionSkipped in Hskip.
      apply orb_false_iff in Hskip as [Hskip _].
      apply orb_false_iff in Hskip as [Hconf _].
      by apply negb_false_iff, bool_decide_eq_true in Hconf.
  - injection He as <- _. by destruct Hsame.
Qed.

(** X16: [main] gives the detector the counts of [getConfiguredFingers].
    Then every gesture the detector sends has a type other than [UNKNOWN]
    and a number of fingers between 2 and 5 for which the collection of
    some window class has a non-empty command. *)
Theorem sent_gesture_has_an_action (cfg : Config) (h : EventHandler)
    (k : nat) e h' k' G :
  reachable Atan clock (getConfiguredFingers cfg) h k ->
  handleEvent Atan clock e h k = Done (tt, h', k') ->
  Gestures h' = Gestures h ++ [G] ->
  GestureType G <> UNKNOWN
  /\ 2 <= FingerCount G <= 5
  /\ exists className a,
       Actions cfg !! className = Some a /\ hasActionFor (FingerCount G) a.
Proof.
  intros [events Hrun] He HG.
  apply handleEvents_configured in Hrun. cbn [newEventHandler configuredFingers] in Hrun.
  destruct (sent_gesture_configured e h k h' k' G He HG) as [Hknown [b Hb]].
  rewrite Hrun in Hb. apply getConfiguredFingers_lookup in Hb
    as (_ & c & a & Hc & g & Hg).
  split; [done|]. split; [by eapply actionField_range|].
  exists c, a. split; [done|]. by exists g.
Qed.

End Wiring.

(** ** Concrete runs for the further properties *)

Lemma steadyClock_monotone start step :
  0 <= step -> monotone (steadyClock start step).
Proof. intros Hstep a b Hab. unfold steadyClock. nia. Qed.

Lemma frame_report_keeps_positions_witness :
  classify synReport = SynReport
  /\ handleEvent GoMath.Atan slowClock synReport (fst beforeSwipeUp)
       (snd beforeSwipeUp) = Done (tt, fst afterSwipeUp, snd afterSwipeUp)
  /\ currentSlot (fst afterSwipeUp) = currentSlot (fst beforeSwipeUp)
  /\ fingerCount (fst afterSwipeUp) = fingerCount (fst beforeSwipeUp)
  /\ configuredFingers (fst afterSwipeUp)
       = configuredFingers (fst beforeSwipeUp)
  /\ forall i : fin 5,
       FirstX (fingers (fst afterSwipeUp) !!! i)
         = FirstX (fingers (fst beforeSwipeUp) !!! i)
       /\ FirstY (fingers (fst afterSwipeUp) !!! i)
          = FirstY (fingers (fst beforeSwipeUp) !!! i)
       /\ LastX (fingers (fst afterSwipeUp) !!! i)
          = LastX (fingers (fst beforeSwipeUp) !!! i)
       /\ LastY (fingers (fst afterSwipeUp) !!! i)
          = LastY (fingers (fst beforeSwipeUp) !!! i)
       /\ IsActive (fingers (fst afterSwipeUp) !!! i)
          = IsActive (fingers (fst beforeSwipeUp) !!! i)
       /\ (HasPositionX (fingers (fst afterSwipeUp) !!! i) = true ->
           HasPositionX (fingers (fst beforeSwipeUp) !!! i) = true)
       /\ (HasPositionY (fingers (fst afterSwipeUp) !!! i) = true ->
           HasPositionY (fingers (fst beforeSwipeUp) !!! i) = true).
Proof.
  assert (handleEvent GoMath.Atan slowClock synReport (fst beforeSwipeUp)
            (snd beforeSwipeUp) = Done (tt, fst afterSwipeUp, snd afterSwipeUp))
    as Hrun by (vm_compute; reflexivity).
  split; [reflexivity|]. split; [exact Hrun|].
  exact (frame_report_keeps_positions GoMath.Atan slowClock synReport
           (fst beforeSwipeUp) (snd beforeSwipeUp) (fst afterSwipeUp)
           (snd afterSwipeUp) eq_refl Hrun).
Defined.

Lemma suspended_iff_last_gesture_witness :
  reachable GoMath.Atan slowClock {[2 := true]} (fst afterSwipeUp)
    (snd afterSwipeUp)
  /\ (suspend (fst afterSwipeUp) = true
      <-> lastGesture (fst afterSwipeUp) <> UNKNOWN)
  /\ (suspend (fst afterSwipeUp) = false ->
      forall g k1,
        g <> UNKNOWN ->
        report g (fst afterSwipeUp) k1
          = Done (tt,
                  set_suspend true
                    (set_Gestures
                       (Gestures (fst afterSwipeUp)
                          ++ [mkGesture g (fingerCount (fst afterSwipeUp))])
                       (set_lastGesture g (fst afterSwipeUp))), k1)).
Proof.
  assert (reachable GoMath.Atan slowClock {[2 := true]} (fst afterSwipeUp)
            (snd afterSwipeUp)) as Hreach.
  { exists (twoFingersDown ++ bothMoveUp). vm_compute. reflexivity. }
  split; [exact Hreach|].
  exact (suspended_iff_last_gesture GoMath.Atan slowClock {[2 := true]}
           (fst afterSwipeUp) (snd afterSwipeUp) Hreach).
Defined.

Lemma conforming_events_counted_witness :
  conformingRun GoMath.Atan slowClock
    (twoFingersDown ++ bothMoveUp ++ framesAndLift)
    (newEventHandler {[2 := true]}) 0%nat = true
  /\ exists h k,
       handleEvents GoMath.Atan slowClock
         (twoFingersDown ++ bothMoveUp ++ framesAndLift)
         (newEventHandler {[2 := true]}) 0%nat = Done (tt, h, k)
       /\ fingerCount h = activeCount h
       /\ 0 <= fingerCount h <= 5
       /\ slotInRange h = true.
Proof.
  assert (conformingRun GoMath.Atan slowClock
            (twoFingersDown ++ bothMoveUp ++ framesAndLift)
            (newEventHandler {[2 := true]}) 0%nat = true) as Hconf
    by (vm_compute; reflexivity).
  split; [exact Hconf|].
  exact (conforming_events_counted GoMath.Atan slowClock {[2 := true]}
           (twoFingersDown ++ bothMoveUp ++ framesAndLift) Hconf).
Defined.

Lemma sent_gesture_sound_witness :
  handleEvent GoMath.Atan slowClock synReport (fst beforeSwipeUp)
    (snd beforeSwipeUp) = Done (tt, fst afterSwipeUp, snd afterSwipeUp)
  /\ Gestures (fst afterSwipeUp)
     = Gestures (fst beforeSwipeUp) ++ [mkGesture SWIPE_UP 2]
  /\ classify synReport = SynReport
  /\ suspend (fst beforeSwipeUp) = false
  /\ 50 * Millisecond
     <= elapsed (slowClock (snd beforeSwipeUp)) (checkTimer (fst beforeSwipeUp))
  /\ ((isSwipeKind (GestureType (mkGesture SWIPE_UP 2)) = true
       /\ IsActive (fingers (fst beforeSwipeUp) !!! 0%fin) = true
       /\ Forall (fun f => hasPosition f = true /\ 1100 < getDistance f
                           /\ getDirection GoMath.Atan f
                              = GestureType (mkGesture SWIPE_UP 2))
            (activeFingers (fst beforeSwipeUp)))
      \/ (isRadialKind (GestureType (mkGesture SWIPE_UP 2)) = true
          /\ Forall (fun f => hasPosition f = true /\ 500 < getDistance f)
               (activeFingers (fst beforeSwipeUp))
          /\ Exists (fun f => 1100 < getDistance f)
               (activeFingers (fst beforeSwipeUp)))).
Proof.
  assert (handleEvent GoMath.Atan slowClock synReport (fst beforeSwipeUp)
            (snd beforeSwipeUp) = Done (tt, fst afterSwipeUp, snd afterSwipeUp))
    as Hrun by (vm_compute; reflexivity).
  assert (Gestures (fst afterSwipeUp)
          = Gestures (fst beforeSwipeUp) ++ [mkGesture SWIPE_UP 2]) as Hsent
    by (vm_compute; reflexivity).
  split; [exact Hrun|]. split; [exact Hsent|].
  exact (sent_gesture_sound GoMath.Atan slowClock synReport
           (fst beforeSwipeUp) (snd beforeSwipeUp) (fst afterSwipeUp)
           (snd afterSwipeUp) (mkGesture SWIPE_UP 2) Hrun Hsent).
Defined.

Lemma unfinished_movement_witness :
  detectionSkipped (fst afterTouch)
    (elapsed (slowClock (snd afterTouch)) (checkTimer (fst afterTouch)))
    = false
  /\ activeFingers (fst afterTouch) <> []
  /\ Forall (fun f => hasPosition f = false \/ getDistance f <= 1100)
       (activeFingers (fst afterTouch))
  /\ exists k1,
       (elapsed (slowClock (snd afterTouch)) (checkTimer (fst afterTouch))
          <= 220 * Millisecond ->
        detectGesture GoMath.Atan slowClock (fst afterTouch) (snd afterTouch)
          = Done (tt, fst afterTouch, k1))
       /\ (220 * Millisecond
             < elapsed (slowClock (snd afterTouch))
                 (checkTimer (fst afterTouch)) ->
           detectGesture GoMath.Atan slowClock (fst afterTouch)
             (snd afterTouch)
             = Done (tt, resetAll slowClock k1 (fst afterTouch), (6 + k1)%nat)
           /\ Gestures (resetAll slowClock k1 (fst afterTouch))
              = Gestures (fst afterTouch)
           /\ checkTimer (resetAll slowClock k1 (fst afterTouch))
              = at_ns (slowClock (5 + k1)%nat)
           /\ forall i : fin 5,
                hasPosition (fingers (resetAll slowClock k1 (fst afterTouch))
                               !!! i) = false).
Proof.
  assert (detectionSkipped (fst afterTouch)
            (elapsed (slowClock (snd afterTouch)) (checkTimer (fst afterTouch)))
          = false) as Hskip by (vm_compute; reflexivity).
  assert (activeFingers (fst afterTouch) <> []) as Hne
    by (vm_compute; discriminate).
  assert (Forall (fun f => hasPosition f = false \/ getDistance f <= 1100)
            (activeFingers (fst afterTouch))) as Hall.
  { let l := eval vm_compute in (activeFingers (fst afterTouch)) in
    change (activeFingers (fst afterTouch)) with l.
    repeat (constructor; [right; vm_compute; discriminate|]). constructor. }
  split; [exact Hskip|]. split; [exact Hne|]. split; [exact Hall|].
  exact (unfinished_movement GoMath.Atan slowClock (fst afterTouch)
           (snd afterTouch) Hskip Hne Hall).
Defined.

Lemma delay_checked_once_witness :
  monotone slowClock
  /\ reachable GoMath.Atan slowClock {[2 := true]} (fst beforeSwipeUp)
       (snd beforeSwipeUp)
  /\ detectionSkipped (fst beforeSwipeUp)
       (elapsed (slowClock (snd beforeSwipeUp))
          (checkTimer (fst beforeSwipeUp))) = false
  /\ forall (i : fin 5) (T : Z) (k' : nat),
       (snd beforeSwipeUp <= k')%nat ->
       exists k'',
         hasSwiped slowClock T (fingers (fst beforeSwipeUp) !!! i) k'
           = Done (hasPosition (fingers (fst beforeSwipeUp) !!! i)
                   && bool_decide
                        (T < getDistance (fingers (fst beforeSwipeUp) !!! i)),
                   fingers (fst beforeSwipeUp) !!! i, k'').
Proof.
  assert (monotone slowClock) as Hmono
    by (apply steadyClock_monotone; vm_compute; discriminate).
  assert (reachable GoMath.Atan slowClock {[2 := true]} (fst beforeSwipeUp)
            (snd beforeSwipeUp)) as Hreach.
  { exists (twoFingersDown ++ removelast bothMoveUp). vm_compute.
    reflexivity. }
  assert (detectionSkipped (fst beforeSwipeUp)
            (elapsed (slowClock (snd beforeSwipeUp))
               (checkTimer (fst beforeSwipeUp))) = false) as Hskip
    by (vm_compute; reflexivity).
  split; [exact Hmono|]. split; [exact Hreach|]. split; [exact Hskip|].
  exact (delay_checked_once GoMath.Atan slowClock {[2 := true]}
           (fst beforeSwipeUp) (snd beforeSwipeUp) (snd beforeSwipeUp)
           Hmono Hreach Hskip).
Defined.

Lemma unconfigured_count_has_no_command_witness :
  getConfiguredFingers exampleConfig !! FingerCount (mkGesture SWIPE_UP 4)
    = None
  /\ forall className,
       handleGesture oneWord className (mkGesture SWIPE_UP 4) exampleConfig
         = Done None.
Proof.
  assert (getConfiguredFingers exampleConfig
            !! FingerCount (mkGesture SWIPE_UP 4) = None) as Hnone
    by (vm_compute; reflexivity).
  split; [exact Hnone|].
  exact (unconfigured_count_has_no_command oneWord (mkGesture SWIPE_UP 4)
           exampleConfig Hnone).
Defined.

Lemma sent_gesture_has_an_action_witness :
  reachable GoMath.Atan slowClock (getConfiguredFingers exampleConfig)
    (fst configuredRun) (snd configuredRun)
  /\ handleEvent GoMath.Atan slowClock synReport (fst configuredRun)
       (snd configuredRun)
     = Done (tt, fst configuredReport, snd configuredReport)
  /\ Gestures (fst configuredReport)
     = Gestures (fst configuredRun) ++ [mkGesture SWIPE_UP 2]
  /\ GestureType (mkGesture SWIPE_UP 2) <> UNKNOWN
  /\ 2 <= FingerCount (mkGesture SWIPE_UP 2) <= 5
  /\ exists className a,
       Actions exampleConfig !! className = Some a
       /\ hasActionFor (FingerCount (mkGesture SWIPE_UP 2)) a.
Proof.
  assert (reachable GoMath.Atan slowClock (getConfiguredFingers exampleConfig)
            (fst configuredRun) (snd configuredRun)) as Hreach.
  { exists (twoFingersDown ++ removelast bothMoveUp). vm_compute.
    reflexivity. }
  assert (handleEvent GoMath.Atan slowClock synReport (fst configuredRun)
            (snd configuredRun)
          = Done (tt, fst configuredReport, snd configuredReport)) as Hrun
    by (vm_compute; reflexivity).
  assert (Gestures (fst configuredReport)
          = Gestures (fst configuredRun) ++ [mkGesture SWIPE_UP 2]) as Hsent
    by (vm_compute; reflexivity).
  split; [exact Hreach|]. split; [exact Hrun|]. split; [exact Hsent|].
  exact (sent_gesture_has_an_action GoMath.Atan slowClock exampleConfig
           (fst configuredRun) (snd configuredRun) synReport
           (fst configuredReport) (snd configuredReport)
           (mkGesture SWIPE_UP 2) Hreach Hrun Hsent).
Defined.

(** The configuration at work: in a browser window a swipe of two fingers to
    the left runs the command of that class, a swipe of three fingers to
    the left the command for all windows, and a swipe of two fingers up,
    which the detector sends, runs nothing. *)
Example dispatch_by_window_class :
  getConfiguredFingers exampleConfig = {[2 := true; 3 := true]}
  /\ handleGesture oneWord "Firefox" (mkGesture SWIPE_LEFT 2) exampleConfig
     = Done (Some (mkCmd "history-back" ["history-back"]))
  /\ handleGesture oneWord "Firefox" (mkGesture SWIPE_LEFT 3) exampleConfig
     = Done (Some (mkCmd "workspace-prev" ["workspace-prev"]))
  /\ handleGesture oneWord "XTerm" (mkGesture SWIPE_LEFT 2) exampleConfig
     = Done None
  /\ handleGesture oneWord "Firefox" (mkGesture SWIPE_UP 2) exampleConfig
     = Done None.
Proof. repeat split; vm_compute; reflexivity. Qed.
